(** * digispark-hvp: high-voltage serial programmer for the ATtiny85

    A shallow embedding of the two sketches

      - [attiny85_hvprg.ino]  (the hardware sequencer: pin toggling,
        the bit-clocked transfer [hvp_write], fuse / lock / flash / EEPROM
        operations), and
      - [digispark-hvp.ino]   (the STK500v1 protocol bridge: [getch],
        [getbn], [set_programming_mode], [universal], [loop]),

    followed by the properties of the specification that were checked
    against them.

    Conventions.  The sketch runs on an Arduino Uno R3 (avr-gcc): [int] is
    16 bits wide, [unsigned int] and [uint16_t] are 16-bit naturals,
    [uint8_t] is an 8-bit natural.  Machine integers are values of [Z]
    with the wrap-around written out ([u8], [u16], [int16]). *)

From Stdlib Require Import ZArith List Lia Bool.
From stdpp Require Import base option list.
Import ListNotations.
Local Open Scope Z_scope.

(** ** Machine integers *)

Module Word.

Definition u8 (x : Z) : Z := x mod 256.
Definition u16 (x : Z) : Z := x mod 65536.
(** two's complement reading of the low 16 bits: what avr-gcc leaves in
    an [int] after an arithmetic operation *)
Definition int16 (x : Z) : Z := (x + 32768) mod 65536 - 32768.

Definition is_u8 (x : Z) : Prop := 0 <= x < 256.
Definition is_u16 (x : Z) : Prop := 0 <= x < 65536.

End Word.
Import Word.

(** ** The board: six signal lines between the Uno and the Digispark *)

Module Board.

(** [#define VCC 8], [SDI 9], [SII 10], [SDO 11], [SCL 12], [RST 13] *)
Inductive pin := VCC | SDI | SII | SDO | SCL | RST.
Inductive pmode := INPUT | OUTPUT.
Inductive level := LOW | HIGH.

(** one line of the port: its direction bit and its output latch *)
#[global] Instance pin_eq_dec : EqDecision pin.
Proof. solve_decision. Defined.
#[global] Instance pmode_eq_dec : EqDecision pmode.
Proof. solve_decision. Defined.
#[global] Instance level_eq_dec : EqDecision level.
Proof. solve_decision. Defined.

Record line := Line { dir : pmode; latch : level }.

#[global] Instance line_eq_dec : EqDecision line.
Proof. solve_decision. Defined.

Record pins := Pins {
  pVCC : line; pSDI : line; pSII : line;
  pSDO : line; pSCL : line; pRST : line }.

#[global] Instance pins_eq_dec : EqDecision pins.
Proof. solve_decision. Defined.

Definition get_line (p : pin) (ps : pins) : line :=
  match p with
  | VCC => pVCC ps | SDI => pSDI ps | SII => pSII ps
  | SDO => pSDO ps | SCL => pSCL ps | RST => pRST ps
  end.

Definition set_line (p : pin) (l : line) (ps : pins) : pins :=
  match p with
  | VCC => Pins l (pSDI ps) (pSII ps) (pSDO ps) (pSCL ps) (pRST ps)
  | SDI => Pins (pVCC ps) l (pSII ps) (pSDO ps) (pSCL ps) (pRST ps)
  | SII => Pins (pVCC ps) (pSDI ps) l (pSDO ps) (pSCL ps) (pRST ps)
  | SDO => Pins (pVCC ps) (pSDI ps) (pSII ps) l (pSCL ps) (pRST ps)
  | SCL => Pins (pVCC ps) (pSDI ps) (pSII ps) (pSDO ps) l (pRST ps)
  | RST => Pins (pVCC ps) (pSDI ps) (pSII ps) (pSDO ps) (pSCL ps) l
  end.

(** Everything the sketch does to, or observes on, the board, in the
    order it happens. *)
Inductive event :=
| EvMode (p : pin) (m : pmode)        (* pinMode(p, m) *)
| EvWrite (p : pin) (l : level)       (* digitalWrite(p, l) *)
| EvRead (p : pin) (v : bool)         (* digitalRead(p) != LOW gave v *)
| EvDelayUs (n : Z)                   (* delayMicroseconds(n) *)
| EvDelayMs (n : Z).                  (* delay(n) *)

(** The effect of one event on the lines, as the Arduino AVR core has
    it: [pinMode(p, INPUT)] clears the direction bit and the latch (no
    pull-up), [pinMode(p, OUTPUT)] sets the direction bit only,
    [digitalWrite] sets the latch. *)
Definition apply_event (e : event) (ps : pins) : pins :=
  match e with
  | EvMode p INPUT => set_line p (Line INPUT LOW) ps
  | EvMode p OUTPUT => set_line p (Line OUTPUT (latch (get_line p ps))) ps
  | EvWrite p l => set_line p (Line (dir (get_line p ps)) l) ps
  | _ => ps
  end.

(** The world the sequencer runs in.
    - [lines]: the state of the six lines;
    - [sdo_feed]: what the target will present on SDO at the successive
      samples the sketch takes (LOW once exhausted);
    - [spin]: how many iterations of a busy-wait loop fit in the 120 ms
      window of [hvp_wait_on_SDO] (the loop is bounded by [millis()]);
    - [log]: the events so far, newest first. *)
Record hw := Hw {
  lines : pins;
  sdo_feed : list bool;
  spin : nat;
  log : list event }.

Definition emit (e : event) (h : hw) : hw :=
  Hw (apply_event e (lines h)) (sdo_feed h) (spin h) (e :: log h).

Definition pinMode (p : pin) (m : pmode) (h : hw) : hw := emit (EvMode p m) h.
Definition digitalWrite (p : pin) (l : level) (h : hw) : hw := emit (EvWrite p l) h.
Definition delayMicroseconds (n : Z) (h : hw) : hw := emit (EvDelayUs n) h.
Definition delay (n : Z) (h : hw) : hw := emit (EvDelayMs n) h.

(** [digitalRead(p) != LOW]: SDO is driven by the target, every other
    line reads back its latch. *)
Definition digitalRead (p : pin) (h : hw) : bool * hw :=
  match p with
  | SDO =>
      let v := hd false (sdo_feed h) in
      (v, Hw (lines h) (tl (sdo_feed h)) (spin h) (EvRead SDO v :: log h))
  | _ =>
      let v := match latch (get_line p (lines h)) with HIGH => true | LOW => false end in
      (v, emit (EvRead p v) h)
  end.

(** the events in chronological order *)
Definition trace (h : hw) : list event := rev (log h).

(** the events that happened between [h] and a later [h'] *)
Definition emitted (h h' : hw) : list event :=
  rev (firstn (length (log h') - length (log h)) (log h')).

End Board.
Import Board.

(** ** The hardware sequencer, [attiny85_hvprg.ino] *)

Module Hvp.

(** [static uint8_t _digitalRead(uint8_t pin)] *)
Definition _digitalRead (p : pin) (h : hw) : Z * hw :=
  let '(v, h1) := digitalRead p h in ((if v then 1 else 0), h1).

(** [while (millis() < tm) if (_digitalRead(SDO)) break;] with [n] the
    number of iterations left before [millis()] reaches [tm]. *)
Fixpoint wait_loop (n : nat) (h : hw) : hw :=
  match n with
  | O => h
  | S n' =>
      let '(v, h1) := _digitalRead SDO h in
      if v =? 0 then wait_loop n' h1 else h1
  end.

Definition hvp_wait_on_SDO (h : hw) : hw := wait_loop (spin h) h.

Definition hvp_clock_pulse (h : hw) : Z * hw :=
  let h := delayMicroseconds 2 h in
  let h := digitalWrite SCL HIGH h in
  let h := delayMicroseconds 2 h in
  let '(i, h) := _digitalRead SDO h in
  let h := digitalWrite SCL LOW h in
  (i, h).

(** [(x & j) ? HIGH : LOW] *)
Definition bit_level (x j : Z) : level :=
  if Z.land x j =? 0 then LOW else HIGH.

(** [for (uint8_t j = 0x80; j; j >>= 1) { ... }]; the mask visits
    0x80, 0x40, ..., 0x01, so eight rounds are all the loop can make. *)
Fixpoint shift_loop (rounds : nat) (j sdi sii i : Z) (h : hw) : Z * hw :=
  match rounds with
  | O => (i, h)
  | S r =>
      if j =? 0 then (i, h) else
      let '(p, h) := hvp_clock_pulse h in
      let i := u8 (i + i + p) in
      let h := digitalWrite SDI (bit_level sdi j) h in
      let h := digitalWrite SII (bit_level sii j) h in
      shift_loop r (Z.shiftr j 1) sdi sii i h
  end.

Definition hvp_write (sdi sii : Z) (h : hw) : Z * hw :=
  let h := hvp_wait_on_SDO h in
  let h := digitalWrite SDI LOW h in
  let h := digitalWrite SII LOW h in
  let '(i, h) := shift_loop 9 0x80 sdi sii 0 h in
  let '(_, h) := hvp_clock_pulse h in
  let h := digitalWrite SDI LOW h in
  let h := digitalWrite SII LOW h in
  let '(_, h) := hvp_clock_pulse h in
  let '(_, h) := hvp_clock_pulse h in
  (i, h).

(** [hvp_write] used as a statement *)
Definition hvp_write_ (sdi sii : Z) (h : hw) : hw := snd (hvp_write sdi sii h).

Definition hvpStandbyMode (h : hw) : hw :=
  let h := pinMode RST OUTPUT h in
  let h := digitalWrite RST HIGH h in
  let h := pinMode VCC OUTPUT h in
  let h := pinMode SCL OUTPUT h in
  let h := digitalWrite VCC LOW h in
  let h := digitalWrite SCL LOW h in
  let h := pinMode SDO INPUT h in
  let h := pinMode SDI INPUT h in
  let h := pinMode SII INPUT h in
  h.

Definition hvpProgramMode (h : hw) : hw :=
  let h := pinMode VCC OUTPUT h in
  let h := pinMode RST OUTPUT h in
  let h := pinMode SCL OUTPUT h in
  let h := digitalWrite RST HIGH h in
  let h := digitalWrite VCC LOW h in
  let h := digitalWrite SCL LOW h in
  let h := pinMode SDI OUTPUT h in
  let h := pinMode SII OUTPUT h in
  let h := pinMode SDO OUTPUT h in
  let h := digitalWrite SDI LOW h in
  let h := digitalWrite SII LOW h in
  let h := digitalWrite SDO LOW h in
  let h := delayMicroseconds 10 h in
  let h := digitalWrite VCC HIGH h in
  let h := delayMicroseconds 80 h in
  let h := digitalWrite RST LOW h in
  let h := delayMicroseconds 10 h in
  let h := pinMode SDO INPUT h in
  let h := delayMicroseconds 1000 h in
  h.

Definition hvpChipErase (h : hw) : hw :=
  let h := hvp_write_ 0x80 0x4c h in
  let h := hvp_write_ 0x00 0x64 h in
  let h := hvp_write_ 0x00 0x6c h in
  let h := delay 400 h in
  hvp_wait_on_SDO h.

Definition FUSEL_MASK : Z := 0xff.
Definition FUSEH_MASK : Z := 0xff.
Definition FUSEE_MASK : Z := 0x01.
Definition LOCKB_MASK : Z := 0x03.

(** [bits | ~MASK] is computed in [int] and cut to the [uint8_t]
    parameter of [hvp_write]. *)
Definition hvpWrFuseBitsLO (bits : Z) (h : hw) : hw :=
  let h := hvp_write_ 0x40 0x4c h in
  let h := hvp_write_ (u8 (Z.lor bits (Z.lnot FUSEL_MASK))) 0x2c h in
  let h := hvp_write_ 0x00 0x64 h in
  let h := hvp_write_ 0x00 0x6c h in
  hvp_wait_on_SDO h.

Definition hvpWrFuseBitsHI (bits : Z) (h : hw) : hw :=
  let h := hvp_write_ 0x40 0x4c h in
  let h := hvp_write_ (u8 (Z.lor bits (Z.lnot FUSEH_MASK))) 0x2c h in
  let h := hvp_write_ 0x00 0x74 h in
  let h := hvp_write_ 0x00 0x7c h in
  hvp_wait_on_SDO h.

Definition hvpWrFuseBitsEX (bits : Z) (h : hw) : hw :=
  let h := hvp_write_ 0x40 0x4c h in
  let h := hvp_write_ (u8 (Z.lor bits (Z.lnot FUSEE_MASK))) 0x2c h in
  let h := hvp_write_ 0x00 0x66 h in
  let h := hvp_write_ 0x00 0x6e h in
  hvp_wait_on_SDO h.

Definition hvpRdFuseBitsLO (h : hw) : Z * hw :=
  let h := hvp_write_ 0x04 0x4c h in
  let h := hvp_write_ 0x00 0x68 h in
  hvp_write 0x00 0x6c h.

Definition hvpRdFuseBitsHI (h : hw) : Z * hw :=
  let h := hvp_write_ 0x04 0x4c h in
  let h := hvp_write_ 0x00 0x7a h in
  hvp_write 0x00 0x7e h.

Definition hvpRdFuseBitsEX (h : hw) : Z * hw :=
  let h := hvp_write_ 0x04 0x4c h in
  let h := hvp_write_ 0x00 0x6a h in
  hvp_write 0x00 0x6e h.

Definition hvpWrLockBits (bits : Z) (h : hw) : hw :=
  let h := hvp_write_ 0x20 0x4c h in
  let h := hvp_write_ (u8 (Z.lor bits (Z.lnot LOCKB_MASK))) 0x2c h in
  let h := hvp_write_ 0x00 0x64 h in
  let h := hvp_write_ 0x00 0x6c h in
  hvp_wait_on_SDO h.

Definition hvpRdLockBits (h : hw) : Z * hw :=
  let h := hvp_write_ 0x04 0x4c h in
  let h := hvp_write_ 0x00 0x78 h in
  hvp_write 0x00 0x7c h.

Definition hvpSignatureByte0 (h : hw) : Z * hw :=
  let h := hvp_write_ 0x08 0x4c h in
  let h := hvp_write_ 0x00 0x0c h in
  let h := hvp_write_ 0x00 0x68 h in
  hvp_write 0x00 0x6c h.

Definition hvpSignatureByte1 (h : hw) : Z * hw :=
  let h := hvp_write_ 0x08 0x4c h in
  let h := hvp_write_ 0x01 0x0c h in
  let h := hvp_write_ 0x00 0x68 h in
  hvp_write 0x00 0x6c h.

Definition hvpSignatureByte2 (h : hw) : Z * hw :=
  let h := hvp_write_ 0x08 0x4c h in
  let h := hvp_write_ 0x02 0x0c h in
  let h := hvp_write_ 0x00 0x68 h in
  hvp_write 0x00 0x6c h.

(** [static int hvp_eop(uint8_t b, uint8_t m)]: end of page test *)
Definition hvp_eop (b m : Z) : bool := Z.land b m =? m.

Definition FLASH_PAGE_MASK : Z := 0x1f.
Definition EEPROM_PAGE_MASK : Z := 0x03.

(** Memory the sequencer is handed a pointer into ([uint8_t * dst]) is
    a list of bytes with an offset.  C leaves an access past the end
    undefined; here it is a fault ([None]). *)
Definition load (mem : list Z) (i : nat) : option Z := mem !! i.

Definition store (mem : list Z) (i : nat) (v : Z) : option (list Z) :=
  if (i <? length mem)%nat then Some (<[i:=v]> mem) else None.

(** the page commit of [hvpWrFlash] *)
Definition flash_commit (a : Z) (h : hw) : hw :=
  let h := hvp_write_ a 0x1c h in
  let h := hvp_write_ 0 0x64 h in
  let h := hvp_write_ 0 0x6c h in
  hvp_wait_on_SDO h.

(** [while (words) { ... }] of [hvpWrFlash] *)
Fixpoint hvpWrFlash_loop (words : nat) (address : Z) (mem : list Z) (dst : nat)
    (h : hw) : option hw :=
  match words with
  | O => Some h
  | S words =>
      let a := u8 (Z.shiftr (u16 address) 8) in
      let b := u8 address in
      let h := hvp_write_ b 0x0c h in
      d0 ← load mem dst;
      let h := hvp_write_ d0 0x2c h in
      d1 ← load mem (S dst);
      let h := hvp_write_ d1 0x3c h in
      let h := hvp_write_ 0 0x7d h in
      let h := hvp_write_ 0 0x7c h in
      let address := u16 (address + 1) in
      let h := if hvp_eop b FLASH_PAGE_MASK || (words =? 0)%nat
               then flash_commit a h else h in
      hvpWrFlash_loop words address mem (S (S dst)) h
  end.

Definition hvpWrFlash (address : Z) (words : nat) (mem : list Z) (dst : nat)
    (h : hw) : option hw :=
  let h := hvp_write_ 0x10 0x4c h in
  h ← hvpWrFlash_loop words address mem dst h;
  Some (hvp_write_ 0x00 0x4c h).

Fixpoint hvpRdFlash_loop (words : nat) (address : Z) (mem : list Z) (dst : nat)
    (h : hw) : option (list Z * hw) :=
  match words with
  | O => Some (mem, h)
  | S words =>
      let a := u8 (Z.shiftr (u16 address) 8) in
      let b := u8 address in
      let h := hvp_write_ b 0x0c h in
      let h := hvp_write_ a 0x1c h in
      let h := hvp_write_ 0 0x68 h in
      let '(lo, h) := hvp_write 0 0x6c h in
      mem ← store mem dst lo;
      let h := hvp_write_ 0 0x78 h in
      let '(hi, h) := hvp_write 0 0x7c h in
      mem ← store mem (S dst) hi;
      let address := u16 (address + 1) in
      hvpRdFlash_loop words address mem (S (S dst)) h
  end.

Definition hvpRdFlash (address : Z) (words : nat) (mem : list Z) (dst : nat)
    (h : hw) : option (list Z * hw) :=
  let h := hvp_write_ 0x02 0x4c h in
  '(mem, h) ← hvpRdFlash_loop words address mem dst h;
  Some (mem, hvp_write_ 0x00 0x4c h).

(** the page commit of [hvpWrEEPROM] *)
Definition eeprom_commit (h : hw) : hw :=
  let h := hvp_write_ 0 0x64 h in
  let h := hvp_write_ 0 0x6c h in
  hvp_wait_on_SDO h.

Fixpoint hvpWrEEPROM_loop (bytes : nat) (address : Z) (mem : list Z) (dst : nat)
    (h : hw) : option hw :=
  match bytes with
  | O => Some h
  | S bytes =>
      let a := u8 (Z.shiftr (u16 address) 8) in
      let b := u8 address in
      let h := hvp_write_ b 0x0c h in
      let h := hvp_write_ a 0x1c h in
      d ← load mem dst;
      let h := hvp_write_ d 0x2c h in
      let h := hvp_write_ 0 0x6d h in
      let h := hvp_write_ 0 0x6c h in
      let address := u16 (address + 1) in
      let h := if hvp_eop b EEPROM_PAGE_MASK || (bytes =? 0)%nat
               then eeprom_commit h else h in
      hvpWrEEPROM_loop bytes address mem (S dst) h
  end.

Definition hvpWrEEPROM (address : Z) (bytes : nat) (mem : list Z) (dst : nat)
    (h : hw) : option hw :=
  let h := hvp_write_ 0x11 0x4c h in
  h ← hvpWrEEPROM_loop bytes address mem dst h;
  Some (hvp_write_ 0x00 0x4c h).

Fixpoint hvpRdEEPROM_loop (bytes : nat) (address : Z) (mem : list Z) (dst : nat)
    (h : hw) : option (list Z * hw) :=
  match bytes with
  | O => Some (mem, h)
  | S bytes =>
      let a := u8 (Z.shiftr (u16 address) 8) in
      let b := u8 address in
      let h := hvp_write_ b 0x0c h in
      let h := hvp_write_ a 0x1c h in
      let h := hvp_write_ 0 0x68 h in
      let '(v, h) := hvp_write 0 0x6c h in
      mem ← store mem dst v;
      let address := u16 (address + 1) in
      hvpRdEEPROM_loop bytes address mem (S dst) h
  end.

Definition hvpRdEEPROM (address : Z) (bytes : nat) (mem : list Z) (dst : nat)
    (h : hw) : option (list Z * hw) :=
  let h := hvp_write_ 0x03 0x4c h in
  '(mem, h) ← hvpRdEEPROM_loop bytes address mem dst h;
  Some (mem, hvp_write_ 0x00 0x4c h).


(** [uint8_t hvpFetchEEPROM(uint16_t address)] *)
Definition hvpFetchEEPROM (address : Z) (h : hw) : Z * hw :=
  let a := u8 (Z.shiftr (u16 address) 8) in
  let b := u8 address in
  let h := hvp_write_ 3 0x4c h in
  let h := hvp_write_ b 0x0c h in
  let h := hvp_write_ a 0x1c h in
  let h := hvp_write_ 0 0x68 h in
  let '(b, h) := hvp_write 0 0x6c h in
  let h := hvp_write_ 0 0x4c h in
  (b, h).

End Hvp.
Import Hvp.

(** ** The protocol bridge, [digispark-hvp.ino] *)

Module Stk.

Definition HARDWARE_VERSION : Z := 2.
Definition SW_MAJOR_VERSION : Z := 1.
Definition SW_MINOR_VERSION : Z := 20.

Definition STK_OK : Z := 0x10.
Definition STK_FAILED : Z := 0x11.
Definition STK_UNKNOWN : Z := 0x12.
Definition STK_NODEVICE : Z := 0x13.
Definition STK_INSYNC : Z := 0x14.
Definition STK_NOSYNC : Z := 0x15.
Definition CRC_EOP : Z := 0x20.

(** [sizeof(device)] and [sizeof(extras)]: both structures are packed *)
Definition sizeof_device : nat := 20.
Definition sizeof_extras : nat := 5.
(** [uint8_t buffer[0x102]] *)
Definition sizeof_buffer : nat := 0x102.

(** The globals of the sketch and the serial line.
    - [device], [extras]: the two packed structures as the bytes they
      occupy (the sketch only ever fills them through a [uint8_t *]);
      [devicecode] and [commandsize] are byte 0 of each;
    - [_mode]: the [static uint8_t _mode] of [set_programming_mode];
    - [rx]: what the host sends: [Some b] is a byte that arrives in
      time, [None] a 900 ms window in which nothing arrives; after the
      end of the list the line stays silent;
    - [tx]: the bytes written to the serial port, oldest first;
    - [timeouts]: how many 900 ms windows have expired in [getch]. *)
Record state := State {
  hwst : hw;
  _mode : Z;
  address : Z;
  device : list Z;
  extras : list Z;
  buffer : list Z;
  rx : list (option Z);
  tx : list Z;
  timeouts : nat }.

Definition set_hwst (h : hw) (st : state) : state :=
  State h (_mode st) (address st) (device st) (extras st) (buffer st)
        (rx st) (tx st) (timeouts st).
Definition set_mode (m : Z) (st : state) : state :=
  State (hwst st) m (address st) (device st) (extras st) (buffer st)
        (rx st) (tx st) (timeouts st).
Definition set_address (a : Z) (st : state) : state :=
  State (hwst st) (_mode st) a (device st) (extras st) (buffer st)
        (rx st) (tx st) (timeouts st).
Definition set_device (d : list Z) (st : state) : state :=
  State (hwst st) (_mode st) (address st) d (extras st) (buffer st)
        (rx st) (tx st) (timeouts st).
Definition set_extras (e : list Z) (st : state) : state :=
  State (hwst st) (_mode st) (address st) (device st) e (buffer st)
        (rx st) (tx st) (timeouts st).
Definition set_buffer (b : list Z) (st : state) : state :=
  State (hwst st) (_mode st) (address st) (device st) (extras st) b
        (rx st) (tx st) (timeouts st).
Definition set_rx (r : list (option Z)) (st : state) : state :=
  State (hwst st) (_mode st) (address st) (device st) (extras st) (buffer st)
        r (tx st) (timeouts st).
Definition set_tx (t : list Z) (st : state) : state :=
  State (hwst st) (_mode st) (address st) (device st) (extras st) (buffer st)
        (rx st) t (timeouts st).
Definition tick_timeout (st : state) : state :=
  State (hwst st) (_mode st) (address st) (device st) (extras st) (buffer st)
        (rx st) (tx st) (S (timeouts st)).

(** a sequencer call that returns nothing *)
Definition call (f : hw -> hw) (st : state) : state := set_hwst (f (hwst st)) st.
(** a sequencer call that returns a byte *)
Definition call_rd (f : hw -> Z * hw) (st : state) : Z * state :=
  let '(v, h) := f (hwst st) in (v, set_hwst h st).

Definition devicecode (st : state) : Z := nth 0 (device st) 0.
Definition commandsize (st : state) : Z := nth 0 (extras st) 0.

Definition ch_available (st : state) : bool :=
  match rx st with
  | Some _ :: _ => true
  | _ => false
  end.

(** [SERIAL.read()] hands over one byte, as an [int] in 0..255 *)
Definition getch (st : state) : Z * state :=
  match rx st with
  | Some c :: r => (u8 c, set_rx r st)
  | None :: r => (-1, tick_timeout (set_rx r st))
  | [] => (-1, tick_timeout st)
  end.

(** [int getbn(uint8_t * p, unsigned int n)], the pointer being offset
    [p] of [mem]; [c] is the local of the same name. *)
Fixpoint getbn_loop (n : nat) (c : Z) (mem : list Z) (p : nat) (st : state)
    : option (Z * list Z * state) :=
  match n with
  | O => Some (c, mem, st)
  | S n =>
      let '(c, st) := getch st in
      if c <? 0 then Some (c, mem, st) else
      mem ← store mem p (u8 c);
      getbn_loop n c mem (S p) st
  end.

Definition getbn (mem : list Z) (n : nat) (st : state) : option (Z * list Z * state) :=
  getbn_loop n 0 mem 0%nat st.

Definition putch (c : Z) (st : state) : state := set_tx (tx st ++ [u8 c]) st.

Definition putstr (s : list Z) (st : state) : state := set_tx (tx st ++ s) st.

(** [void putbn(uint8_t * p, unsigned int n)] *)
Fixpoint putbn (mem : list Z) (p : nat) (n : nat) (st : state) : option state :=
  match n with
  | O => Some st
  | S n => c ← load mem p; putbn mem (S p) n (putch c st)
  end.

Definition set_programming_mode (mode : Z) (st : state) : Z * state :=
  if mode <? 0x80 then
    let st :=
      if mode =? 0 then call hvpStandbyMode st
      else if _mode st =? 0 then call hvpProgramMode st
      else st in
    let st := set_mode mode st in
    (_mode st, st)
  else (_mode st, st).

(** globals start out zeroed; the lines are inputs until [setup] runs *)
Definition power_on (feed : list bool) (spin : nat) (input : list (option Z)) : state :=
  let float := Line INPUT LOW in
  State (Hw (Pins float float float float float float) feed spin [])
        0 0 (repeat 0 sizeof_device) (repeat 0 sizeof_extras)
        (repeat 0 sizeof_buffer) input [] 0.

Definition setup (st : state) : state :=
  let st := snd (set_programming_mode 0 st) in
  let st := set_device (<[0%nat := 0]> (device st)) st in
  set_extras (<[0%nat := 0]> (extras st)) st.

Definition parameter (id : Z) : Z :=
  if id =? 0x80 then HARDWARE_VERSION
  else if id =? 0x81 then SW_MAJOR_VERSION
  else if id =? 0x82 then SW_MINOR_VERSION
  else if id =? 0x93 then 0x53 (* 'S' *)
  else 0.

(** [static uint8_t universal(uint8_t * req)] *)
Definition universal (req : list Z) (h : hw) : option (Z * hw) :=
  r0 ← load req 0; r1 ← load req 1;
  let key := Z.lor (u16 (Z.shiftl r0 8)) r1 in
  if key =? 0x5800 then Some (hvpRdLockBits h)
  else if key =? 0x5000 then Some (hvpRdFuseBitsLO h)
  else if key =? 0x5808 then Some (hvpRdFuseBitsHI h)
  else if key =? 0x5008 then Some (hvpRdFuseBitsEX h)
  else if key =? 0xace0 then r3 ← load req 3; Some (0, hvpWrLockBits r3 h)
  else if key =? 0xaca0 then r3 ← load req 3; Some (0, hvpWrFuseBitsLO r3 h)
  else if key =? 0xaca8 then r3 ← load req 3; Some (0, hvpWrFuseBitsHI r3 h)
  else if key =? 0xaca4 then r3 ← load req 3; Some (0, hvpWrFuseBitsEX r3 h)
  else if key =? 0x3000 then
    r2 ← load req 2;
    if r2 =? 0 then Some (hvpSignatureByte0 h)
    else if r2 =? 1 then Some (hvpSignatureByte1 h)
    else if r2 =? 2 then Some (hvpSignatureByte2 h)
    else Some (0, h)
  else if key =? 0xac80 then Some (0, hvpChipErase h)
  else Some (0, h).

Definition not_E_or_F (st : state) : option bool :=
  b ← load (buffer st) 0;
  Some (negb ((b =? 0x45 (* 'E' *)) || (b =? 0x46 (* 'F' *)))).

Definition not_set_up (st : state) : bool * state :=
  let '(m, st) := set_programming_mode 0xff st in (m =? 0, st).

(** The command byte, by the name the sketch gives each [case]. *)
Inductive command :=
| CUSTOM_FUSE_CMD | STK_CHIP_ERASE | STK_READ_SIGN | STK_PROG_FUSE
| STK_PROG_FUSE_EXT | STK_READ_FUSE | STK_READ_FUSE_EXT | STK_READ_LOCK
| STK_PROG_LOCK | STK_LOAD_ADDRESS | STK_UNIVERSAL | STK_PROG_FLASH
| STK_PROG_DATA | STK_READ_FLASH | STK_READ_DATA | STK_PROG_PAGE
| STK_READ_PAGE | STK_GET_PARAMETER | STK_SET_PARAMETER | STK_SET_DEVICE
| SET_DEVICE_EXT | STK_ENTER_PROGMODE | STK_LEAVE_PROGMODE
| STK_CHECK_AUTOINC | STK_GET_SYNC | STK_GET_SIGN_ON | UNEXPECTED_EOP
| UNKNOWN_COMMAND.

(** the [case] labels of [switch (c)] *)
Definition command_of (c : Z) : command :=
  if c =? 0x5A (* 'Z' *) then CUSTOM_FUSE_CMD
  else if c =? 0x52 then STK_CHIP_ERASE
  else if c =? 0x75 then STK_READ_SIGN
  else if c =? 0x62 then STK_PROG_FUSE
  else if c =? 0x65 then STK_PROG_FUSE_EXT
  else if c =? 0x72 then STK_READ_FUSE
  else if c =? 0x77 then STK_READ_FUSE_EXT
  else if c =? 0x73 then STK_READ_LOCK
  else if c =? 0x63 then STK_PROG_LOCK
  else if c =? 0x55 then STK_LOAD_ADDRESS
  else if c =? 0x56 then STK_UNIVERSAL
  else if c =? 0x60 then STK_PROG_FLASH
  else if c =? 0x61 then STK_PROG_DATA
  else if c =? 0x70 then STK_READ_FLASH
  else if c =? 0x71 then STK_READ_DATA
  else if c =? 0x64 then STK_PROG_PAGE
  else if c =? 0x74 then STK_READ_PAGE
  else if c =? 0x41 then STK_GET_PARAMETER
  else if c =? 0x40 then STK_SET_PARAMETER
  else if c =? 0x42 then STK_SET_DEVICE
  else if c =? 0x45 then SET_DEVICE_EXT
  else if c =? 0x50 then STK_ENTER_PROGMODE
  else if c =? 0x51 then STK_LEAVE_PROGMODE
  else if c =? 0x53 then STK_CHECK_AUTOINC
  else if c =? 0x30 then STK_GET_SYNC
  else if c =? 0x31 then STK_GET_SIGN_ON
  else if c =? CRC_EOP then UNEXPECTED_EOP
  else UNKNOWN_COMMAND.

(** The labels at the end of [loop].  A [goto] is a call in tail
    position; [None] is a memory fault. *)

(** [__no_sync_reply:] *)
Definition no_sync_reply (st : state) : option state :=
  Some (putch STK_NOSYNC st).

(** [__abort:], which falls through to [__no_sync_reply] *)
Definition abort (st : state) : option state :=
  let st := snd (set_programming_mode 0 st) in
  no_sync_reply st.

(** [__failure_reply:] *)
Definition failure_reply (st : state) : option state :=
  let st := putch STK_INSYNC st in
  Some (putch STK_FAILED st).

(** [if ((c = ...) < 0) goto __abort;] *)
Definition or_abort (r : Z * state) (k : Z -> state -> option state) : option state :=
  let '(c, st) := r in
  if c <? 0 then abort st else k c st.

(** [if ((c = ...) < 0) goto __abort;
     if (c != CRC_EOP) goto __no_sync_reply;] *)
Definition framed (r : Z * state) (k : state -> option state) : option state :=
  or_abort r (fun c st => if c =? CRC_EOP then k st else no_sync_reply st).

(** [if (not_set_up()) goto __failure_reply;] *)
Definition ready (st : state) (k : state -> option state) : option state :=
  let '(b, st) := not_set_up st in
  if b then failure_reply st else k st.

(** [#define GETN(n)  getbn(buffer, n)] *)
Definition GETN (n : nat) (st : state) : option (Z * state) :=
  '(c, mem, st) ← getbn (buffer st) n st;
  Some (c, set_buffer mem st).

(** [__empty_reply:] *)
Definition empty_reply (st : state) : option state :=
  framed (getch st) (fun st =>
  let st := putch STK_INSYNC st in
  Some (putch STK_OK st)).

(** ["AVR ISP"] *)
Definition sign_on : list Z := [0x41; 0x56; 0x52; 0x20; 0x49; 0x53; 0x50].

Section Loop.

(** The interactive front end of [custom_fuse_cmd.ino].  It talks to
    a person over the serial monitor and is no part of the protocol;
    the bridge only calls it. *)
Variable custom_fuse_cmd : state -> option state.

(** the body of [switch (c)] *)
Definition loop_case (cmd : command) (st : state) : option state :=
  match cmd with
  | CUSTOM_FUSE_CMD =>
      st ← custom_fuse_cmd st;
      Some (snd (set_programming_mode 0 st))
  | STK_CHIP_ERASE =>
      framed (getch st) (fun st =>
      ready st (fun st =>
      let st := putch STK_INSYNC st in
      let st := call hvpChipErase st in
      Some (putch STK_OK st)))
  | STK_READ_SIGN =>
      framed (getch st) (fun st =>
      ready st (fun st =>
      let st := putch STK_INSYNC st in
      let '(b, st) := call_rd hvpSignatureByte0 st in
      let st := putch b st in
      let '(b, st) := call_rd hvpSignatureByte1 st in
      let st := putch b st in
      let '(b, st) := call_rd hvpSignatureByte2 st in
      let st := putch b st in
      Some (putch STK_OK st)))
  | STK_PROG_FUSE =>
      r ← GETN 3 st;
      framed r (fun st =>
      ready st (fun st =>
      let st := putch STK_INSYNC st in
      b0 ← load (buffer st) 0;
      let st := call (hvpWrFuseBitsLO b0) st in
      b1 ← load (buffer st) 1;
      let st := call (hvpWrFuseBitsHI b1) st in
      Some (putch STK_OK st)))
  | STK_PROG_FUSE_EXT =>
      r ← GETN 4 st;
      framed r (fun st =>
      ready st (fun st =>
      let st := putch STK_INSYNC st in
      b0 ← load (buffer st) 0;
      let st := call (hvpWrFuseBitsLO b0) st in
      b1 ← load (buffer st) 1;
      let st := call (hvpWrFuseBitsHI b1) st in
      b2 ← load (buffer st) 2;
      let st := call (hvpWrFuseBitsEX b2) st in
      Some (putch STK_OK st)))
  | STK_READ_FUSE =>
      framed (getch st) (fun st =>
      ready st (fun st =>
      let st := putch STK_INSYNC st in
      let '(b, st) := call_rd hvpRdFuseBitsLO st in
      let st := putch b st in
      let '(b, st) := call_rd hvpRdFuseBitsHI st in
      let st := putch b st in
      Some (putch STK_OK st)))
  | STK_READ_FUSE_EXT =>
      framed (getch st) (fun st =>
      ready st (fun st =>
      let st := putch STK_INSYNC st in
      let '(b, st) := call_rd hvpRdFuseBitsLO st in
      let st := putch b st in
      let '(b, st) := call_rd hvpRdFuseBitsHI st in
      let st := putch b st in
      let '(b, st) := call_rd hvpRdFuseBitsEX st in
      let st := putch b st in
      Some (putch STK_OK st)))
  | STK_READ_LOCK =>
      framed (getch st) (fun st =>
      ready st (fun st =>
      let st := putch STK_INSYNC st in
      let '(b, st) := call_rd hvpRdLockBits st in
      let st := putch b st in
      Some (putch STK_OK st)))
  | STK_PROG_LOCK =>
      r ← GETN 2 st;
      framed r (fun st =>
      ready st (fun st =>
      let st := putch STK_INSYNC st in
      b0 ← load (buffer st) 0;
      let st := call (hvpWrLockBits b0) st in
      Some (putch STK_OK st)))
  | STK_LOAD_ADDRESS =>
      or_abort (getch st) (fun c st =>
      let v := c in
      or_abort (getch st) (fun c st =>
      let v := int16 (v + int16 (256 * c)) in
      let st := set_address (u16 v) st in
      empty_reply st))
  | STK_UNIVERSAL =>
      r ← GETN 5 st;
      framed r (fun st =>
      ready st (fun st =>
      let st := putch STK_INSYNC st in
      '(b, h) ← universal (buffer st) (hwst st);
      let st := putch b (set_hwst h st) in
      Some (putch STK_OK st)))
  | STK_PROG_FLASH =>
      r ← GETN 3 st;
      framed r (fun st =>
      Some (putch STK_UNKNOWN st))
  | STK_PROG_DATA =>
      r ← GETN 2 st;
      framed r (fun st =>
      ready st (fun st =>
      let st := putch STK_INSYNC st in
      h ← hvpWrEEPROM (address st) 1 (buffer st) 0 (hwst st);
      let st := set_hwst h st in
      let st := putch STK_OK st in
      Some (set_address (u16 (address st + 1)) st)))
  | STK_READ_FLASH =>
      framed (getch st) (fun st =>
      ready st (fun st =>
      let st := putch STK_INSYNC st in
      '(mem, h) ← hvpRdFlash (address st) 1 (buffer st) 0 (hwst st);
      let st := set_hwst h (set_buffer mem st) in
      b0 ← load (buffer st) 0;
      let st := putch b0 st in
      b1 ← load (buffer st) 1;
      let st := putch b1 st in
      let st := putch STK_OK st in
      Some (set_address (u16 (address st + 1)) st)))
  | STK_READ_DATA =>
      framed (getch st) (fun st =>
      ready st (fun st =>
      let st := putch STK_INSYNC st in
      '(mem, h) ← hvpRdFlash (address st) 1 (buffer st) 0 (hwst st);
      let st := set_hwst h (set_buffer mem st) in
      b0 ← load (buffer st) 0;
      let st := putch b0 st in
      let st := putch STK_OK st in
      Some (set_address (u16 (address st + 1)) st)))
  | STK_PROG_PAGE =>
      or_abort (getch st) (fun c st =>
      let v := int16 (256 * c) in
      or_abort (getch st) (fun c st =>
      let v := int16 (v + c) in
      if v >? 256 then no_sync_reply st else
      r ← GETN (Z.to_nat (u16 (v + 2))) st;
      framed r (fun st =>
      ready st (fun st =>
      nef ← not_E_or_F st;
      if nef : bool then failure_reply st else
      let st := putch STK_INSYNC st in
      b0 ← load (buffer st) 0;
      '(v, h) ←
        (if b0 =? 0x46 (* 'F' *) then
           let v := int16 (Z.quot (int16 (v + 1)) 2) in
           h ← hvpWrFlash (address st) (Z.to_nat (u16 v)) (buffer st) 1 (hwst st);
           Some (v, h)
         else
           h ← hvpWrEEPROM (address st) (Z.to_nat (u16 v)) (buffer st) 1 (hwst st);
           Some (v, h));
      let st := set_hwst h st in
      let st := putch STK_OK st in
      Some (set_address (u16 (address st + v)) st)))))
  | STK_READ_PAGE =>
      or_abort (getch st) (fun c st =>
      let v := int16 (256 * c) in
      or_abort (getch st) (fun c st =>
      let v := int16 (v + c) in
      if v >? 256 then no_sync_reply st else
      r ← GETN 2 st;
      framed r (fun st =>
      ready st (fun st =>
      nef ← not_E_or_F st;
      if nef : bool then failure_reply st else
      let st := putch STK_INSYNC st in
      b0 ← load (buffer st) 0;
      '(v, st) ←
        (if b0 =? 0x46 (* 'F' *) then
           let v := int16 (Z.quot (int16 (v + 1)) 2) in
           '(mem, h) ← hvpRdFlash (address st) (Z.to_nat (u16 v)) (buffer st) 0 (hwst st);
           let st := set_hwst h (set_buffer mem st) in
           st ← putbn (buffer st) 0 (Z.to_nat (u16 (v * 2))) st;
           Some (v, st)
         else
           '(mem, h) ← hvpRdEEPROM (address st) (Z.to_nat (u16 v)) (buffer st) 0 (hwst st);
           let st := set_hwst h (set_buffer mem st) in
           st ← putbn (buffer st) 0 (Z.to_nat (u16 v)) st;
           Some (v, st));
      let st := putch STK_OK st in
      Some (set_address (u16 (address st + v)) st)))))
  | STK_GET_PARAMETER =>
      r ← GETN 2 st;
      framed r (fun st =>
      let st := putch STK_INSYNC st in
      b0 ← load (buffer st) 0;
      let st := putch (parameter b0) st in
      Some (putch STK_OK st))
  | STK_SET_PARAMETER =>
      r ← GETN 2 st;
      or_abort r (fun _ st =>
      empty_reply st)
  | STK_SET_DEVICE =>
      '(c, mem, st) ← getbn (device st) sizeof_device st;
      let st := set_device mem st in
      if c <? 0 then
        let st := set_device (<[0%nat := 0]> (device st)) st in
        abort st
      else empty_reply st
  | SET_DEVICE_EXT =>
      '(c, mem, st) ← getbn (extras st) sizeof_extras st;
      let st := set_extras mem st in
      if c <? 0 then
        let st := set_extras (<[0%nat := 0]> (extras st)) st in
        abort st
      else empty_reply st
  | STK_ENTER_PROGMODE =>
      framed (getch st) (fun st =>
      if devicecode st =? 0 then
        let st := putch STK_INSYNC st in
        Some (putch STK_NODEVICE st)
      else
        let st := putch STK_INSYNC st in
        let st := snd (set_programming_mode 1 st) in
        Some (putch STK_OK st))
  | STK_LEAVE_PROGMODE =>
      let st := snd (set_programming_mode 0 st) in
      empty_reply st
  | STK_CHECK_AUTOINC => empty_reply st
  | STK_GET_SYNC => empty_reply st
  | STK_GET_SIGN_ON =>
      framed (getch st) (fun st =>
      let st := putch STK_INSYNC st in
      let st := putstr sign_on st in
      Some (putch STK_OK st))
  | UNEXPECTED_EOP => no_sync_reply st
  | UNKNOWN_COMMAND =>
      framed (getch st) (fun st =>
      Some (putch STK_UNKNOWN st))
  end.

Definition loop (st : state) : option state :=
  if ch_available st then
    let '(c, st) := getch st in
    loop_case (command_of c) st
  else Some st.

(** [n] passes through [loop] *)
Fixpoint loops (n : nat) (st : state) : option state :=
  match n with
  | O => Some st
  | S n => st ← loop st; loops n st
  end.

End Loop.

End Stk.
Import Stk.

(** ** The target's side of the serial programming interface

    What the ATtiny85 makes of the events on its pins: the datasheet's
    11-bit frame.  SDI and SII are taken over on the rising edge of SCL,
    one start bit, eight data bits most significant first, two stop bits;
    the programmer samples SDO while SCL is high, the first eight samples
    of a frame being the byte read, most significant bit first.  Nothing
    here is taken from the sketch. *)

Module Target.

Record frame := Frame { f_sdi : Z; f_sii : Z; f_sdo : Z }.

Record receiver := Receiver {
  r_sdi : level; r_sii : level; r_scl : level;
  r_smp : bool;               (* SDO as last sampled in this pulse *)
  sh_sdi : list bool; sh_sii : list bool; sh_sdo : list bool;
  received : list frame }.    (* newest first *)

Definition byte_of_bits (bs : list bool) : Z :=
  fold_left (fun acc (b : bool) => 2 * acc + (if b then 1 else 0)) bs 0.

Definition is_high (l : level) : bool :=
  match l with HIGH => true | LOW => false end.

Definition rising (r : receiver) : receiver :=
  Receiver (r_sdi r) (r_sii r) HIGH false
           (sh_sdi r ++ [is_high (r_sdi r)]) (sh_sii r ++ [is_high (r_sii r)])
           (sh_sdo r) (received r).

Definition falling (r : receiver) : receiver :=
  let sdo := sh_sdo r ++ [r_smp r] in
  if (length sdo =? 11)%nat then
    let f := Frame (byte_of_bits (firstn 8 (skipn 1 (sh_sdi r))))
                   (byte_of_bits (firstn 8 (skipn 1 (sh_sii r))))
                   (byte_of_bits (firstn 8 sdo)) in
    Receiver (r_sdi r) (r_sii r) LOW false [] [] [] (f :: received r)
  else
    Receiver (r_sdi r) (r_sii r) LOW false (sh_sdi r) (sh_sii r) sdo (received r).

Definition observe (r : receiver) (e : event) : receiver :=
  match e with
  | EvWrite SDI l =>
      Receiver l (r_sii r) (r_scl r) (r_smp r) (sh_sdi r) (sh_sii r) (sh_sdo r) (received r)
  | EvWrite SII l =>
      Receiver (r_sdi r) l (r_scl r) (r_smp r) (sh_sdi r) (sh_sii r) (sh_sdo r) (received r)
  | EvWrite SCL HIGH => if is_high (r_scl r) then r else rising r
  | EvWrite SCL LOW => if is_high (r_scl r) then falling r else r
  | EvRead SDO v =>
      if is_high (r_scl r) then
        Receiver (r_sdi r) (r_sii r) (r_scl r) v (sh_sdi r) (sh_sii r) (sh_sdo r) (received r)
      else r
  | _ => r
  end.

Definition listen (r : receiver) (evs : list event) : receiver :=
  fold_left observe evs r.

Definition idle : receiver := Receiver LOW LOW LOW false [] [] [] [].

(** the frames of a stretch of events, oldest first *)
Definition decode (evs : list event) : list frame :=
  rev (received (listen idle evs)).

(** what the programmer sent: the (data, instruction) byte pairs *)
Definition sent (evs : list event) : list (Z * Z) :=
  map (fun f => (f_sdi f, f_sii f)) (decode evs).

(** what the programmer sampled: one byte per frame *)
Definition sampled (evs : list event) : list Z :=
  map f_sdo (decode evs).

(** the number of events of a stretch that change a line *)
Fixpoint transitions (ps : pins) (evs : list event) : nat :=
  match evs with
  | [] => 0
  | e :: evs =>
      let ps' := apply_event e ps in
      ((if decide (ps' = ps) then 0 else 1) + transitions ps' evs)%nat
  end.

End Target.
Import Target.

(** ** Vocabulary of the statements

    Event scripts of the sequencer's primitives and the relation between
    two states of the board that the proofs are phrased in. *)

Module Script.

(** redo one event on a board *)
Definition replay1 (h : hw) (e : event) : hw :=
  match e with
  | EvRead SDO _ => Hw (lines h) (tl (sdo_feed h)) (spin h) (e :: log h)
  | _ => emit e h
  end.

Definition replay (evs : list event) (h : hw) : hw := fold_left replay1 evs h.

(** one [hvp_clock_pulse] during which SDO read [v] *)
Definition pulse_events (v : bool) : list event :=
  [EvDelayUs 2; EvWrite SCL HIGH; EvDelayUs 2; EvRead SDO v; EvWrite SCL LOW].

(** one round of the loop of [hvp_write], for the mask [j] *)
Definition round_events (sdi sii j : Z) (v : bool) : list event :=
  pulse_events v ++ [EvWrite SDI (bit_level sdi j); EvWrite SII (bit_level sii j)].

(** the [k]-th sample still to come on SDO *)
Definition smp (f : list bool) (k : nat) : bool := hd false (Nat.iter k (@tl bool) f).

(** all of [hvp_write] after its busy-wait *)
Definition frame_events (sdi sii : Z) (f : list bool) : list event :=
  [EvWrite SDI LOW; EvWrite SII LOW] ++
  round_events sdi sii 128 (smp f 0) ++ round_events sdi sii 64 (smp f 1) ++
  round_events sdi sii 32 (smp f 2) ++ round_events sdi sii 16 (smp f 3) ++
  round_events sdi sii 8 (smp f 4) ++ round_events sdi sii 4 (smp f 5) ++
  round_events sdi sii 2 (smp f 6) ++ round_events sdi sii 1 (smp f 7) ++
  pulse_events (smp f 8) ++ [EvWrite SDI LOW; EvWrite SII LOW] ++
  pulse_events (smp f 9) ++ pulse_events (smp f 10).

(** [i = i + i + hvp_clock_pulse()] *)
Definition shift_in (i : Z) (v : bool) : Z := u8 (i + i + (if v then 1 else 0)).

(** a receiver between two frames *)
Definition quiet (r : receiver) : Prop :=
  r_scl r = LOW /\ sh_sdi r = [] /\ sh_sii r = [] /\ sh_sdo r = [].

(** a stretch of events that a receiver between frames hears as exactly
    the frames [fs], and that leaves it between frames *)
Definition carries (evs : list event) (fs : list frame) : Prop :=
  forall r, quiet r ->
    quiet (listen r evs) /\ received (listen r evs) = rev fs ++ received r.

(** the board went from [h] to [h'] and the target heard the frames [fs] *)
Definition sends (h h' : hw) (fs : list frame) : Prop :=
  exists evs, h' = replay evs h /\ carries evs fs.

(** a frame as the pair the programmer put on the wire *)
Definition wire (f : frame) : Z * Z := (f_sdi f, f_sii f).

(** events during which the clock is never raised *)
Definition clock_idle (e : event) : bool :=
  match e with
  | EvWrite SCL HIGH => false
  | _ => true
  end.

(** the events of [hvpStandbyMode] and of [hvpProgramMode] *)
Definition standby_events : list event :=
  [EvMode RST OUTPUT; EvWrite RST HIGH; EvMode VCC OUTPUT; EvMode SCL OUTPUT;
   EvWrite VCC LOW; EvWrite SCL LOW; EvMode SDO INPUT; EvMode SDI INPUT;
   EvMode SII INPUT].

Definition program_events : list event :=
  [EvMode VCC OUTPUT; EvMode RST OUTPUT; EvMode SCL OUTPUT; EvWrite RST HIGH;
   EvWrite VCC LOW; EvWrite SCL LOW; EvMode SDI OUTPUT; EvMode SII OUTPUT;
   EvMode SDO OUTPUT; EvWrite SDI LOW; EvWrite SII LOW; EvWrite SDO LOW;
   EvDelayUs 10; EvWrite VCC HIGH; EvDelayUs 80; EvWrite RST LOW; EvDelayUs 10;
   EvMode SDO INPUT; EvDelayUs 1000].

(** [transmits h h' ws]: between [h] and [h'] the target was sent
    exactly the (data, instruction) pairs [ws] *)
Definition transmits (h h' : hw) (ws : list (Z * Z)) : Prop :=
  exists fs, sends h h' fs /\ map wire fs = ws.

(** [answers h r ws]: a read operation that sent [ws] and returns the
    byte sampled during its last frame *)
Definition answers (h : hw) (r : Z * hw) (ws : list (Z * Z)) : Prop :=
  exists fs, sends h (snd r) fs /\ map wire fs = ws /\
             last (map f_sdo fs) = Some (fst r).

(** a board at rest whose target answers with the bits of 0x62 *)
Definition bench : hw :=
  Hw (Pins (Line OUTPUT LOW) (Line INPUT LOW) (Line INPUT LOW)
           (Line INPUT LOW) (Line OUTPUT LOW) (Line OUTPUT HIGH))
     [true; false; true; true; false; false; false; true; false] 4 [].

(** the frames of one word and of one page commit of [hvpWrFlash] *)
Definition word_frames (b d0 d1 : Z) : list (Z * Z) :=
  [(b, 0x0c); (d0, 0x2c); (d1, 0x3c); (0, 0x7d); (0, 0x7c)].

Definition commit_frames (a : Z) : list (Z * Z) :=
  [(a, 0x1c); (0, 0x64); (0, 0x6c)].

(** what the loop of [hvpWrFlash] puts on the wire *)
Fixpoint flash_words (W : nat) (address : Z) (mem : list Z) (dst : nat)
    : list (Z * Z) :=
  match W with
  | O => []
  | S W' =>
      word_frames (u8 address) (u8 (nth dst mem 0)) (u8 (nth (S dst) mem 0)) ++
      (if (Z.land (u8 address) 0x1f =? 0x1f) || (W' =? 0)%nat
       then commit_frames (u8 (Z.shiftr (u16 address) 8)) else []) ++
      flash_words W' (u16 (address + 1)) mem (S (S dst))
  end.






(** the operations a universal command can stand for *)
Inductive isp_op :=
| RdLock | RdFuseLO | RdFuseHI | RdFuseEX
| WrLock | WrFuseLO | WrFuseHI | WrFuseEX
| RdSignature0 | RdSignature1 | RdSignature2
| Erase | NoOp.

(** the tuples the sketch recognizes, byte by byte *)
Definition recognize (r0 r1 r2 : Z) : isp_op :=
  if (r0 =? 0x58) && (r1 =? 0x00) then RdLock
  else if (r0 =? 0x50) && (r1 =? 0x00) then RdFuseLO
  else if (r0 =? 0x58) && (r1 =? 0x08) then RdFuseHI
  else if (r0 =? 0x50) && (r1 =? 0x08) then RdFuseEX
  else if (r0 =? 0xac) && (r1 =? 0xe0) then WrLock
  else if (r0 =? 0xac) && (r1 =? 0xa0) then WrFuseLO
  else if (r0 =? 0xac) && (r1 =? 0xa8) then WrFuseHI
  else if (r0 =? 0xac) && (r1 =? 0xa4) then WrFuseEX
  else if (r0 =? 0x30) && (r1 =? 0x00) && (r2 =? 0) then RdSignature0
  else if (r0 =? 0x30) && (r1 =? 0x00) && (r2 =? 1) then RdSignature1
  else if (r0 =? 0x30) && (r1 =? 0x00) && (r2 =? 2) then RdSignature2
  else if (r0 =? 0xac) && (r1 =? 0x80) then Erase
  else NoOp.

(** what each operation does to the board and what the command returns *)
Definition perform (op : isp_op) (r3 : Z) (h : hw) : Z * hw :=
  match op with
  | RdLock => hvpRdLockBits h
  | RdFuseLO => hvpRdFuseBitsLO h
  | RdFuseHI => hvpRdFuseBitsHI h
  | RdFuseEX => hvpRdFuseBitsEX h
  | WrLock => (0, hvpWrLockBits r3 h)
  | WrFuseLO => (0, hvpWrFuseBitsLO r3 h)
  | WrFuseHI => (0, hvpWrFuseBitsHI r3 h)
  | WrFuseEX => (0, hvpWrFuseBitsEX r3 h)
  | RdSignature0 => hvpSignatureByte0 h
  | RdSignature1 => hvpSignatureByte1 h
  | RdSignature2 => hvpSignatureByte2 h
  | Erase => (0, hvpChipErase h)
  | NoOp => (0, h)
  end.

Definition is_read (op : isp_op) : bool :=
  match op with
  | RdLock | RdFuseLO | RdFuseHI | RdFuseEX
  | RdSignature0 | RdSignature1 | RdSignature2 => true
  | _ => false
  end.

(** a state with its serial line replaced *)
Definition with_line (r : list (option Z)) (n : nat) (st : state) : state :=
  State (hwst st) (_mode st) (address st) (device st) (extras st) (buffer st)
        r (tx st) n.

(** the lines as [hvpStandbyMode] leaves them *)
Definition standby_lines : pins :=
  Pins (Line OUTPUT LOW) (Line INPUT LOW) (Line INPUT LOW)
       (Line INPUT LOW) (Line OUTPUT LOW) (Line OUTPUT HIGH).

(** a session on the bench: a device is configured, nothing has been
    sent yet *)
Definition session (mode address : Z) (input : list (option Z)) : state :=
  State bench mode address (0x14 :: repeat 0 19) (repeat 0 5) (repeat 0 258)
        input [] 0.

(** a front end that does nothing *)
Definition no_custom (st : state) : option state := Some st.

(** the bytes between the command byte and the sentinel of a frame, as
    the sketch reads them *)
Definition payload_ok (cmd : command) (payload : list Z) : bool :=
  match cmd with
  | STK_CHIP_ERASE | STK_READ_SIGN | STK_READ_FUSE | STK_READ_FUSE_EXT
  | STK_READ_LOCK | STK_READ_FLASH | STK_READ_DATA | STK_ENTER_PROGMODE
  | STK_LEAVE_PROGMODE | STK_CHECK_AUTOINC | STK_GET_SYNC | STK_GET_SIGN_ON
  | UNKNOWN_COMMAND => (length payload =? 0)%nat
  | STK_PROG_LOCK | STK_PROG_DATA | STK_GET_PARAMETER => (length payload =? 1)%nat
  | STK_PROG_FUSE | STK_PROG_FLASH | STK_LOAD_ADDRESS | STK_SET_PARAMETER =>
      (length payload =? 2)%nat
  | STK_PROG_FUSE_EXT => (length payload =? 3)%nat
  | STK_UNIVERSAL => (length payload =? 4)%nat
  | STK_SET_DEVICE => (length payload =? 20)%nat
  | SET_DEVICE_EXT => (length payload =? 5)%nat
  | STK_PROG_PAGE =>
      match payload with
      | hi :: lo :: ty :: data =>
          (256 * hi + lo <=? 256) && (Z.of_nat (length data) =? 256 * hi + lo)
      | _ => false
      end
  | STK_READ_PAGE =>
      match payload with
      | [hi; lo; ty] => 256 * hi + lo <=? 256
      | _ => false
      end
  | CUSTOM_FUSE_CMD | UNEXPECTED_EOP => false
  end.

(** the globals are of the sizes the sketch declares *)
Definition wf (st : state) : Prop :=
  length (buffer st) = sizeof_buffer /\
  length (device st) = sizeof_device /\
  length (extras st) = sizeof_extras.

(** What a frame with a wrong sentinel has done by the time the sentinel
    is looked at: the four commands that act first have acted, every
    other command has left the board and the globals alone. *)
Definition desync_effect (cmd : command) (payload : list Z) (st st' : state) : Prop :=
  match cmd with
  | STK_LEAVE_PROGMODE =>
      hwst st' = hvpStandbyMode (hwst st) /\ _mode st' = 0 /\
      address st' = address st /\ device st' = device st /\ extras st' = extras st
  | STK_LOAD_ADDRESS =>
      hwst st' = hwst st /\ _mode st' = _mode st /\
      address st' = nth 0 payload 0 + 256 * nth 1 payload 0 /\
      device st' = device st /\ extras st' = extras st
  | STK_SET_DEVICE =>
      hwst st' = hwst st /\ _mode st' = _mode st /\
      address st' = address st /\ device st' = payload /\ extras st' = extras st
  | SET_DEVICE_EXT =>
      hwst st' = hwst st /\ _mode st' = _mode st /\
      address st' = address st /\ device st' = device st /\ extras st' = payload
  | _ =>
      hwst st' = hwst st /\ _mode st' = _mode st /\
      address st' = address st /\ device st' = device st /\ extras st' = extras st
  end.

(** the commands that test [not_set_up()] *)
Definition needs_progmode (cmd : command) : bool :=
  match cmd with
  | STK_CHIP_ERASE | STK_READ_SIGN | STK_PROG_FUSE | STK_PROG_FUSE_EXT
  | STK_READ_FUSE | STK_READ_FUSE_EXT | STK_READ_LOCK | STK_PROG_LOCK
  | STK_UNIVERSAL | STK_PROG_DATA | STK_READ_FLASH | STK_READ_DATA
  | STK_PROG_PAGE | STK_READ_PAGE => true
  | _ => false
  end.

(** [n] leave-programming-mode requests in a row *)
Fixpoint leave_requests (n : nat) (rest : list (option Z)) : list (option Z) :=
  match n with
  | O => rest
  | S n => Some 0x51 :: Some CRC_EOP :: leave_requests n rest
  end.

(** the events of [n] calls of [hvpStandbyMode] *)
Fixpoint standby_rounds (n : nat) : list event :=
  match n with
  | O => []
  | S n => standby_events ++ standby_rounds n
  end.

(** the replies to [n] accepted requests without a result *)
Fixpoint empty_replies (n : nat) : list Z :=
  match n with
  | O => []
  | S n => STK_INSYNC :: STK_OK :: empty_replies n
  end.

(** what the loops of [hvpRdFlash], [hvpRdEEPROM] and [hvpWrEEPROM] put
    on the wire *)
Fixpoint flash_reads (W : nat) (address : Z) : list (Z * Z) :=
  match W with
  | O => []
  | S W' =>
      [(u8 address, 0x0c); (u8 (Z.shiftr (u16 address) 8), 0x1c);
       (0, 0x68); (0, 0x6c); (0, 0x78); (0, 0x7c)] ++
      flash_reads W' (u16 (address + 1))
  end.

Fixpoint eeprom_reads (B : nat) (address : Z) : list (Z * Z) :=
  match B with
  | O => []
  | S B' =>
      [(u8 address, 0x0c); (u8 (Z.shiftr (u16 address) 8), 0x1c);
       (0, 0x68); (0, 0x6c)] ++
      eeprom_reads B' (u16 (address + 1))
  end.

Fixpoint eeprom_bytes (B : nat) (address : Z) (mem : list Z) (dst : nat)
    : list (Z * Z) :=
  match B with
  | O => []
  | S B' =>
      [(u8 address, 0x0c); (u8 (Z.shiftr (u16 address) 8), 0x1c);
       (u8 (nth dst mem 0), 0x2c); (0, 0x6d); (0, 0x6c)] ++
      (if (Z.land (u8 address) 0x03 =? 0x03) || (B' =? 0)%nat
       then [(0, 0x64); (0, 0x6c)] else []) ++
      eeprom_bytes B' (u16 (address + 1)) mem (S dst)
  end.

(** the frames during which the target answers a read: the instruction
    is 0x6c (low byte) or 0x7c (high byte) *)
Definition is_answer (f : frame) : bool := (f_sii f =? 0x6c) || (f_sii f =? 0x7c).

(** the bytes the target answered with, in the order of the frames *)
Definition answered (fs : list frame) : list Z := map f_sdo (List.filter is_answer fs).

(** the buffer cells a page request may write: the received bytes of a
    page program, the two received bytes and the words read of a page
    read *)
Definition touched (cmd : command) (len : Z) : nat :=
  match cmd with
  | STK_PROG_PAGE => Z.to_nat (len + 2)
  | _ => Nat.max 2 (2 * Z.to_nat ((len + 1) / 2))
  end.

(** [st'] differs from [st] in the first [n] cells of the buffer at most,
    as far as the memory of the sketch is concerned *)
Definition keeps (n : nat) (st st' : state) : Prop :=
  length (buffer st') = length (buffer st) /\
  device st' = device st /\ extras st' = extras st /\
  forall j, (n <= j)%nat -> buffer st' !! j = buffer st !! j.

(** by how much a page request of [len] bytes of memory type [ty]
    advances the address: words for flash, bytes for EEPROM *)
Definition page_advance (ty len : Z) : Z :=
  if ty =? 0x46 (* 'F' *) then (len + 1) / 2 else len.

(** how many bytes a page read of [len] bytes of memory type [ty] returns *)
Definition page_returned (ty len : Z) : Z :=
  if ty =? 0x46 (* 'F' *) then 2 * ((len + 1) / 2) else len.


(** the clock is raised *)
Definition is_clock_rise (e : event) : bool := negb (clock_idle e).

Definition clock_pulses (evs : list event) : nat :=
  length (List.filter is_clock_rise evs).

(** the lines as [hvpProgramMode] leaves them *)
Definition program_lines : pins :=
  Pins (Line OUTPUT HIGH) (Line OUTPUT LOW) (Line OUTPUT LOW)
       (Line INPUT LOW) (Line OUTPUT LOW) (Line OUTPUT LOW).

(** the lines at the moment [hvpProgramMode] switches the supply on:
    SDI, SII and SDO are driven low, the reset transistor conducts *)
Definition power_up_lines : pins :=
  Pins (Line OUTPUT LOW) (Line OUTPUT LOW) (Line OUTPUT LOW)
       (Line OUTPUT LOW) (Line OUTPUT LOW) (Line OUTPUT HIGH).

(** the supply of the target is switched on *)
Definition is_power_on (e : event) : bool :=
  match e with
  | EvWrite VCC HIGH => true
  | _ => false
  end.



(** nothing arrives within the next 900 ms *)
Definition silent (r : list (option Z)) : Prop :=
  match r with
  | [] | None :: _ => True
  | Some _ :: _ => False
  end.

(** the commands that concern the bridge alone *)
Definition is_housekeeping (cmd : command) : bool :=
  match cmd with
  | STK_LOAD_ADDRESS | STK_PROG_FLASH | STK_GET_PARAMETER | STK_SET_PARAMETER
  | STK_SET_DEVICE | SET_DEVICE_EXT | STK_CHECK_AUTOINC | STK_GET_SYNC
  | STK_GET_SIGN_ON | UNEXPECTED_EOP | UNKNOWN_COMMAND => true
  | _ => false
  end.

(** the tokens that end a reply *)
Definition is_status (b : Z) : bool :=
  (b =? STK_OK) || (b =? STK_FAILED) || (b =? STK_UNKNOWN) ||
  (b =? STK_NODEVICE) || (b =? STK_NOSYNC).

(** [t'] is [t] followed by a reply that ends in a status token *)
Definition answered_from (t t' : list Z) : Prop :=
  exists bs tok, t' = t ++ bs ++ [tok] /\ is_status tok = true.





(** the frames each operation puts on the wire, as the routines of
    [attiny85_hvprg.ino] send them; [r3] is the data byte of a write *)
Definition frames_of (op : isp_op) (r3 : Z) : list (Z * Z) :=
  match op with
  | RdLock => [(0x04, 0x4c); (0, 0x78); (0, 0x7c)]
  | RdFuseLO => [(0x04, 0x4c); (0, 0x68); (0, 0x6c)]
  | RdFuseHI => [(0x04, 0x4c); (0, 0x7a); (0, 0x7e)]
  | RdFuseEX => [(0x04, 0x4c); (0, 0x6a); (0, 0x6e)]
  | WrLock => [(0x20, 0x4c); (Z.lor r3 0xfc, 0x2c); (0, 0x64); (0, 0x6c)]
  | WrFuseLO => [(0x40, 0x4c); (r3, 0x2c); (0, 0x64); (0, 0x6c)]
  | WrFuseHI => [(0x40, 0x4c); (r3, 0x2c); (0, 0x74); (0, 0x7c)]
  | WrFuseEX => [(0x40, 0x4c); (Z.lor r3 0xfe, 0x2c); (0, 0x66); (0, 0x6e)]
  | RdSignature0 => [(0x08, 0x4c); (0, 0x0c); (0, 0x68); (0, 0x6c)]
  | RdSignature1 => [(0x08, 0x4c); (1, 0x0c); (0, 0x68); (0, 0x6c)]
  | RdSignature2 => [(0x08, 0x4c); (2, 0x0c); (0, 0x68); (0, 0x6c)]
  | Erase => [(0x80, 0x4c); (0, 0x64); (0, 0x6c)]
  | NoOp => []
  end.


End Script.
Import Script.

(** * Facts about the sequencer *)

Lemma u8_range x : is_u8 (u8 x).
Proof. unfold is_u8, u8. apply Z.mod_pos_bound. lia. Qed.

Lemma u16_range x : is_u16 (u16 x).
Proof. unfold is_u16, u16. apply Z.mod_pos_bound. lia. Qed.

Lemma u8_id x : is_u8 x -> u8 x = x.
Proof. unfold is_u8, u8. intros. apply Z.mod_small. lia. Qed.

Lemma u16_id x : is_u16 x -> u16 x = x.
Proof. unfold is_u16, u16. intros. apply Z.mod_small. lia. Qed.

Lemma int16_id x : -32768 <= x < 32768 -> int16 x = x.
Proof. unfold int16. intros. rewrite Z.mod_small; lia. Qed.

(** a property checked on all 256 bytes holds of every byte *)
Lemma forall_u8 (P : Z -> bool) :
  forallb P (map Z.of_nat (seq 0 256)) = true -> forall x, is_u8 x -> P x = true.
Proof.
  intros H x Hx. rewrite forallb_forall in H. apply H.
  apply in_map_iff. exists (Z.to_nat x). unfold is_u8 in Hx.
  split; [lia|]. apply in_seq. lia.
Qed.

Arguments u8 : simpl never.
Arguments u16 : simpl never.
Arguments int16 : simpl never.
Arguments bit_level : simpl never.
Arguments byte_of_bits : simpl never.

Lemma replay_app a b h : replay (a ++ b) h = replay b (replay a h).
Proof. apply fold_left_app. Qed.

Lemma replay_log evs h : log (replay evs h) = rev evs ++ log h.
Proof.
  revert h. induction evs as [|e evs IH]; intros h; [reflexivity|].
  change (replay (e :: evs) h) with (replay evs (replay1 h e)).
  rewrite IH. cbn [rev]. rewrite <- app_assoc. f_equal.
  destruct e as [p m|p l|p v|n|n]; try reflexivity. destruct p; reflexivity.
Qed.

Lemma replay_spin evs h : spin (replay evs h) = spin h.
Proof.
  revert h. induction evs as [|e evs IH]; intros h; [reflexivity|].
  change (replay (e :: evs) h) with (replay evs (replay1 h e)).
  rewrite IH. destruct e as [p m|p l|p v|n|n]; try reflexivity. destruct p; reflexivity.
Qed.

Lemma replay_lines evs h :
  lines (replay evs h) = fold_left (fun ps e => apply_event e ps) evs (lines h).
Proof.
  revert h. induction evs as [|e evs IH]; intros h; [reflexivity|].
  change (replay (e :: evs) h) with (replay evs (replay1 h e)).
  rewrite IH. cbn [fold_left]. f_equal.
  destruct e as [p m|p l|p v|n|n]; try reflexivity. destruct p; reflexivity.
Qed.

Lemma emitted_replay evs h : emitted h (replay evs h) = evs.
Proof.
  unfold emitted. rewrite replay_log, length_app, length_rev.
  replace (length evs + length (log h) - length (log h))%nat with (length (rev evs))
    by (rewrite length_rev; lia).
  rewrite firstn_app, firstn_all, Nat.sub_diag. cbn [firstn].
  rewrite app_nil_r. apply rev_involutive.
Qed.

Lemma listen_app r a b : listen r (a ++ b) = listen (listen r a) b.
Proof. apply fold_left_app. Qed.

Lemma carries_nil : carries [] [].
Proof. intros r Hr. split; [exact Hr|reflexivity]. Qed.

Lemma carries_app a b fa fb : carries a fa -> carries b fb -> carries (a ++ b) (fa ++ fb).
Proof.
  intros Ha Hb r Hr. rewrite listen_app.
  destruct (Ha r Hr) as [Hq Hrec]. destruct (Hb _ Hq) as [Hq' Hrec'].
  split; [exact Hq'|]. rewrite Hrec', Hrec, rev_app_distr, app_assoc. reflexivity.
Qed.

Lemma sends_refl h : sends h h [].
Proof. exists []. split; [reflexivity|apply carries_nil]. Qed.

Lemma sends_trans h1 h2 h3 fa fb :
  sends h1 h2 fa -> sends h2 h3 fb -> sends h1 h3 (fa ++ fb).
Proof.
  intros (a & -> & Ha) (b & -> & Hb). exists (a ++ b).
  split; [symmetry; apply replay_app|apply carries_app; assumption].
Qed.

Lemma sends_decode h h' fs : sends h h' fs -> decode (emitted h h') = fs.
Proof.
  intros (evs & -> & Hc). rewrite emitted_replay. unfold decode.
  destruct (Hc idle) as [_ Hrec]; [repeat split|].
  rewrite Hrec. cbn [idle received]. rewrite app_nil_r. apply rev_involutive.
Qed.

Lemma sends_spin h h' fs : sends h h' fs -> spin h' = spin h.
Proof. intros (evs & -> & _). apply replay_spin. Qed.

(** *** The bit-clocked transfer *)

Lemma clock_pulse_replay h :
  hvp_clock_pulse h =
  ((if hd false (sdo_feed h) then 1 else 0),
   replay (pulse_events (hd false (sdo_feed h))) h).
Proof. reflexivity. Qed.

Lemma shift_loop_round r j sdi sii i h :
  j <> 0 ->
  shift_loop (S r) j sdi sii i h =
  shift_loop r (Z.shiftr j 1) sdi sii (shift_in i (hd false (sdo_feed h)))
             (replay (round_events sdi sii j (hd false (sdo_feed h))) h).
Proof.
  intros Hj. cbn [shift_loop]. destruct (Z.eqb_spec j 0) as [->|_]; [done|].
  reflexivity.
Qed.

Lemma shift_loop_done r sdi sii i h : shift_loop r 0 sdi sii i h = (i, h).
Proof. destruct r; reflexivity. Qed.

Lemma round_feed sdi sii j v h :
  sdo_feed (replay (round_events sdi sii j v) h) = tl (sdo_feed h).
Proof. reflexivity. Qed.

Lemma pulse_feed v h : sdo_feed (replay (pulse_events v) h) = tl (sdo_feed h).
Proof. reflexivity. Qed.

Lemma writes_feed a b h :
  sdo_feed (replay [EvWrite SDI a; EvWrite SII b] h) = sdo_feed h.
Proof. reflexivity. Qed.

(** [hvp_write] is its busy-wait followed by one fixed script of events;
    the byte returned is the first eight samples shifted in. *)
Lemma hvp_write_unfold sdi sii h :
  hvp_write sdi sii h =
  let h1 := hvp_wait_on_SDO h in
  let f := sdo_feed h1 in
  (fold_left shift_in (map (smp f) (seq 0 8)) 0,
   replay (frame_events sdi sii f) h1).
Proof.
  unfold hvp_write. generalize (hvp_wait_on_SDO h). intros h1.
  change (digitalWrite SII LOW (digitalWrite SDI LOW h1))
    with (replay [EvWrite SDI LOW; EvWrite SII LOW] h1).
  rewrite (shift_loop_round _ 128) by done. change (Z.shiftr 128 1) with 64.
  rewrite (shift_loop_round _ 64) by done. change (Z.shiftr 64 1) with 32.
  rewrite (shift_loop_round _ 32) by done. change (Z.shiftr 32 1) with 16.
  rewrite (shift_loop_round _ 16) by done. change (Z.shiftr 16 1) with 8.
  rewrite (shift_loop_round _ 8) by done. change (Z.shiftr 8 1) with 4.
  rewrite (shift_loop_round _ 4) by done. change (Z.shiftr 4 1) with 2.
  rewrite (shift_loop_round _ 2) by done. change (Z.shiftr 2 1) with 1.
  rewrite (shift_loop_round _ 1) by done. change (Z.shiftr 1 1) with 0.
  rewrite shift_loop_done. rewrite clock_pulse_replay.
  match goal with |- context [digitalWrite SII LOW (digitalWrite SDI LOW ?x)] =>
    change (digitalWrite SII LOW (digitalWrite SDI LOW x))
      with (replay [EvWrite SDI LOW; EvWrite SII LOW] x) end.
  rewrite clock_pulse_replay.
  rewrite clock_pulse_replay.
  repeat (progress (rewrite ?round_feed, ?pulse_feed, ?writes_feed)).
  cbv zeta. unfold frame_events. rewrite !replay_app.
  unfold smp. cbn [map seq Nat.iter fold_left].
  reflexivity.
Qed.

(** the eight mask tests of [hvp_write] spell out the byte *)
Lemma bit_level_u8 x j : Z.land 255 j = j -> bit_level (u8 x) j = bit_level x j.
Proof.
  intros Hj. unfold bit_level, u8. change 256 with (2 ^ 8).
  rewrite <- Z.land_ones by lia. change (Z.ones 8) with 255.
  rewrite <- Z.land_assoc, Hj. reflexivity.
Qed.

Lemma bits_of_byte x :
  byte_of_bits
    [is_high (bit_level x 128); is_high (bit_level x 64);
     is_high (bit_level x 32); is_high (bit_level x 16);
     is_high (bit_level x 8); is_high (bit_level x 4);
     is_high (bit_level x 2); is_high (bit_level x 1)] = u8 x.
Proof.
  rewrite <- !(bit_level_u8 x) by reflexivity.
  generalize (u8_range x). generalize (u8 x). intros y Hy.
  apply Z.eqb_eq.
  apply (forall_u8 (fun y =>
    byte_of_bits
      [is_high (bit_level y 128); is_high (bit_level y 64);
       is_high (bit_level y 32); is_high (bit_level y 16);
       is_high (bit_level y 8); is_high (bit_level y 4);
       is_high (bit_level y 2); is_high (bit_level y 1)] =? y)); [|exact Hy].
  vm_compute. reflexivity.
Qed.

Lemma shift_in_bits b0 b1 b2 b3 b4 b5 b6 b7 :
  fold_left shift_in [b0; b1; b2; b3; b4; b5; b6; b7] 0 =
  byte_of_bits [b0; b1; b2; b3; b4; b5; b6; b7].
Proof.
  destruct b0, b1, b2, b3, b4, b5, b6, b7; vm_compute; reflexivity.
Qed.





Lemma writes_heard a b c d xs ys zs fs l m evs :
  listen (Receiver a b c d xs ys zs fs) (EvWrite SDI l :: EvWrite SII m :: evs) =
  listen (Receiver l m c d xs ys zs fs) evs.
Proof. reflexivity. Qed.

Lemma pulse_heard a b d xs ys zs fs v evs :
  (length (zs ++ [v]) =? 11)%nat = false ->
  listen (Receiver a b LOW d xs ys zs fs) (pulse_events v ++ evs) =
  listen (Receiver a b LOW false (xs ++ [is_high a]) (ys ++ [is_high b]) (zs ++ [v]) fs) evs.
Proof.
  intros H. unfold pulse_events. cbn [app]. unfold listen. cbn [fold_left].
  cbv [observe is_high r_scl rising falling sh_sdo r_smp r_sdi r_sii sh_sdi sh_sii received].
  rewrite H. reflexivity.
Qed.

Lemma pulse_heard_last a b d xs ys zs fs v evs :
  (length (zs ++ [v]) =? 11)%nat = true ->
  listen (Receiver a b LOW d xs ys zs fs) (pulse_events v ++ evs) =
  listen (Receiver a b LOW false [] [] []
            (Frame (byte_of_bits (firstn 8 (skipn 1 (xs ++ [is_high a]))))
                   (byte_of_bits (firstn 8 (skipn 1 (ys ++ [is_high b]))))
                   (byte_of_bits (firstn 8 (zs ++ [v]))) :: fs)) evs.
Proof.
  intros H. unfold pulse_events. cbn [app]. unfold listen. cbn [fold_left].
  cbv [observe is_high r_scl rising falling sh_sdo r_smp r_sdi r_sii sh_sdi sh_sii received].
  rewrite H. reflexivity.
Qed.

Lemma frame_heard a b d fs l7 l6 l5 l4 l3 l2 l1 l0 m7 m6 m5 m4 m3 m2 m1 m0
      v0 v1 v2 v3 v4 v5 v6 v7 v8 v9 v10 :
  listen (Receiver a b LOW d [] [] [] fs)
    ([EvWrite SDI LOW; EvWrite SII LOW] ++
     (pulse_events v0 ++ [EvWrite SDI l7; EvWrite SII m7]) ++
     (pulse_events v1 ++ [EvWrite SDI l6; EvWrite SII m6]) ++
     (pulse_events v2 ++ [EvWrite SDI l5; EvWrite SII m5]) ++
     (pulse_events v3 ++ [EvWrite SDI l4; EvWrite SII m4]) ++
     (pulse_events v4 ++ [EvWrite SDI l3; EvWrite SII m3]) ++
     (pulse_events v5 ++ [EvWrite SDI l2; EvWrite SII m2]) ++
     (pulse_events v6 ++ [EvWrite SDI l1; EvWrite SII m1]) ++
     (pulse_events v7 ++ [EvWrite SDI l0; EvWrite SII m0]) ++
     pulse_events v8 ++ [EvWrite SDI LOW; EvWrite SII LOW] ++
     pulse_events v9 ++ pulse_events v10) =
  Receiver LOW LOW LOW false [] [] []
    (Frame (byte_of_bits [is_high l7; is_high l6; is_high l5; is_high l4;
                          is_high l3; is_high l2; is_high l1; is_high l0])
           (byte_of_bits [is_high m7; is_high m6; is_high m5; is_high m4;
                          is_high m3; is_high m2; is_high m1; is_high m0])
           (byte_of_bits [v0; v1; v2; v3; v4; v5; v6; v7]) :: fs).
Proof.
  rewrite <- (app_nil_r (pulse_events v10)).
  rewrite <- !app_assoc.
  change ([EvWrite SDI LOW; EvWrite SII LOW] ++ ?x) with (EvWrite SDI LOW :: EvWrite SII LOW :: x).
  rewrite writes_heard.
  do 8 (rewrite pulse_heard by reflexivity; cbn [app is_high]; rewrite writes_heard).
  rewrite pulse_heard by reflexivity; cbn [app is_high].
  rewrite writes_heard.
  rewrite pulse_heard by reflexivity; cbn [app is_high].
  rewrite pulse_heard_last by reflexivity; cbn [app is_high].
  reflexivity.
Qed.

Lemma frame_carried sdi sii f :
  carries (frame_events sdi sii f)
    [Frame (u8 sdi) (u8 sii) (fold_left shift_in (map (smp f) (seq 0 8)) 0)].
Proof.
  intros [a b c d xs ys zs fs] (Hc & Hx & Hy & Hz). cbn in Hc, Hx, Hy, Hz. subst.
  unfold frame_events, round_events.
  rewrite frame_heard, !bits_of_byte.
  cbn [map seq]. rewrite shift_in_bits.
  split; [repeat split|reflexivity].
Qed.

(** the busy-wait only samples SDO, with the clock low *)
Lemma reads_carried vs : carries (map (EvRead SDO) vs) [].
Proof.
  induction vs as [|v vs IH]; [apply carries_nil|].
  intros r Hr. cbn [map listen fold_left].
  replace (observe r (EvRead SDO v)) with r.
  - apply IH, Hr.
  - destruct Hr as (Hc & _). cbn [observe]. rewrite Hc. reflexivity.
Qed.

Lemma wait_loop_replay n h :
  exists vs, wait_loop n h = replay (map (EvRead SDO) vs) h.
Proof.
  revert h. induction n as [|n IH]; intros h; [exists []; reflexivity|].
  cbn [wait_loop _digitalRead digitalRead].
  set (h1 := Hw _ _ _ _).
  destruct (hd false (sdo_feed h)) eqn:Hv; cbn [Z.eqb].
  - exists [true]. subst h1. reflexivity.
  - destruct (IH h1) as [vs Hvs]. exists (false :: vs).
    rewrite Hvs. subst h1. reflexivity.
Qed.

Lemma wait_sends h : sends h (hvp_wait_on_SDO h) [].
Proof.
  destruct (wait_loop_replay (spin h) h) as [vs Hvs].
  exists (map (EvRead SDO) vs). split; [exact Hvs|apply reads_carried].
Qed.

Lemma hvp_write_sends sdi sii h :
  sends h (snd (hvp_write sdi sii h))
        [Frame (u8 sdi) (u8 sii) (fst (hvp_write sdi sii h))].
Proof.
  rewrite hvp_write_unfold. cbv zeta. cbn [fst snd].
  apply (sends_trans _ _ _ [] [_] (wait_sends h)).
  eexists. split; [reflexivity|apply frame_carried].
Qed.

Lemma hvp_write__sends sdi sii h :
  exists v, sends h (hvp_write_ sdi sii h) [Frame (u8 sdi) (u8 sii) v].
Proof. eexists. apply hvp_write_sends. Qed.


(** *** Operations as sequences of frames *)

Lemma observe_clock_idle r e : clock_idle e = true -> quiet r ->
  quiet (observe r e) /\ received (observe r e) = received r.
Proof.
  intros He (Hc & Hx & Hy & Hz).
  destruct e as [p m|p l|p v|n|n]; try (repeat split; assumption).
  - destruct p; try (repeat split; assumption).
    destruct l; [|discriminate].
    cbn [observe]. rewrite Hc. repeat split; assumption.
  - destruct p; try (repeat split; assumption).
    cbn [observe]. rewrite Hc. repeat split; assumption.
Qed.

Lemma clock_idle_carried evs : forallb clock_idle evs = true -> carries evs [].
Proof.
  induction evs as [|e evs IH]; [intros _; apply carries_nil|].
  cbn [forallb]. intros [He Hes]%andb_prop r Hr.
  destruct (observe_clock_idle r e He Hr) as [Hq Hrec].
  destruct (IH Hes _ Hq) as [Hq' Hrec'].
  split; [exact Hq'|]. cbn [listen fold_left]. fold (listen (observe r e) evs).
  rewrite Hrec', Hrec. reflexivity.
Qed.

Lemma delay_sends n h : sends h (delay n h) [].
Proof. exists [EvDelayMs n]. split; [reflexivity|apply clock_idle_carried; reflexivity]. Qed.

Lemma hvpStandbyMode_replay h : hvpStandbyMode h = replay standby_events h.
Proof.
  cbv [replay fold_left replay1 standby_events].
  cbv [hvpStandbyMode pinMode digitalWrite]. reflexivity.
Qed.

Lemma hvpProgramMode_replay h : hvpProgramMode h = replay program_events h.
Proof.
  cbv [replay fold_left replay1 program_events].
  cbv [hvpProgramMode pinMode digitalWrite delayMicroseconds]. reflexivity.
Qed.

Lemma hvpStandbyMode_sends h : sends h (hvpStandbyMode h) [].
Proof.
  exists standby_events.
  split; [apply hvpStandbyMode_replay|apply clock_idle_carried; reflexivity].
Qed.

Lemma hvpProgramMode_sends h : sends h (hvpProgramMode h) [].
Proof.
  exists program_events.
  split; [apply hvpProgramMode_replay|apply clock_idle_carried; reflexivity].
Qed.

Lemma transmits_refl h : transmits h h [].
Proof. exists []. split; [apply sends_refl|reflexivity]. Qed.

Lemma transmits_trans h1 h2 h3 wa wb :
  transmits h1 h2 wa -> transmits h2 h3 wb -> transmits h1 h3 (wa ++ wb).
Proof.
  intros (fa & Ha & <-) (fb & Hb & <-). exists (fa ++ fb).
  split; [eapply sends_trans; eassumption|apply map_app].
Qed.

Lemma transmits_sent h h' ws : transmits h h' ws -> sent (emitted h h') = ws.
Proof. intros (fs & Hs & <-). unfold sent. rewrite (sends_decode _ _ _ Hs). reflexivity. Qed.

Lemma transmits_spin h h' ws : transmits h h' ws -> spin h' = spin h.
Proof. intros (fs & Hs & _). eapply sends_spin, Hs. Qed.

Lemma hvp_write_transmits sdi sii h :
  transmits h (hvp_write_ sdi sii h) [(u8 sdi, u8 sii)].
Proof. eexists. split; [apply hvp_write_sends|reflexivity]. Qed.

Lemma wait_transmits h : transmits h (hvp_wait_on_SDO h) [].
Proof. exists []. split; [apply wait_sends|reflexivity]. Qed.

Lemma delay_transmits n h : transmits h (delay n h) [].
Proof. exists []. split; [apply delay_sends|reflexivity]. Qed.

Lemma transmits_eq h h' w w' : transmits h h' w' -> w' = w -> transmits h h' w.
Proof. intros H <-. exact H. Qed.

Lemma hvp_write_answers h1 h2 wa sdi sii :
  transmits h1 h2 wa ->
  answers h1 (hvp_write sdi sii h2) (wa ++ [(u8 sdi, u8 sii)]).
Proof.
  intros (fa & Ha & <-).
  exists (fa ++ [Frame (u8 sdi) (u8 sii) (fst (hvp_write sdi sii h2))]).
  split; [eapply sends_trans; [exact Ha|apply hvp_write_sends]|].
  split; [rewrite map_app; reflexivity|].
  rewrite map_app. apply last_snoc.
Qed.

Lemma answers_eq h r w w' : answers h r w' -> w' = w -> answers h r w.
Proof. intros H <-. exact H. Qed.

Lemma answers_transmits h r ws : answers h r ws -> transmits h (snd r) ws.
Proof. intros (fs & Hs & Hw & _). exists fs. split; assumption. Qed.

Lemma answers_sampled h r ws :
  answers h r ws -> last (sampled (emitted h (snd r))) = Some (fst r).
Proof.
  intros (fs & Hs & _ & Hl). unfold sampled. rewrite (sends_decode _ _ _ Hs). exact Hl.
Qed.

Ltac transmit_chain :=
  lazymatch goal with
  | |- transmits ?h ?h _ => apply transmits_refl
  | |- transmits _ (hvp_write_ _ _ _) _ =>
      eapply transmits_trans; [ | apply hvp_write_transmits ]; transmit_chain
  | |- transmits _ (hvp_wait_on_SDO _) _ =>
      eapply transmits_trans; [ | apply wait_transmits ]; transmit_chain
  | |- transmits _ (delay _ _) _ =>
      eapply transmits_trans; [ | apply delay_transmits ]; transmit_chain
  end.

Ltac transmit := eapply transmits_eq; [ transmit_chain | reflexivity ].

Lemma hvpChipErase_transmits h :
  transmits h (hvpChipErase h) [(0x80, 0x4c); (0x00, 0x64); (0x00, 0x6c)].
Proof. unfold hvpChipErase. transmit. Qed.

(** *** Fuse and lock bytes *)

Lemma mask_or_complement (m bits : Z) :
  (m = 0xff \/ m = 0x01 \/ m = 0x03) -> is_u8 bits ->
  u8 (Z.lor bits (Z.lnot m)) = Z.lor bits (Z.lxor 0xff m).
Proof.
  intros Hm Hb. apply Z.eqb_eq. revert bits Hb.
  destruct Hm as [->|[->| ->]];
    apply (forall_u8 (fun b => u8 (Z.lor b (Z.lnot _)) =? Z.lor b (Z.lxor 255 _)));
    vm_compute; reflexivity.
Qed.

Lemma hvpWrFuseBitsLO_transmits bits h :
  transmits h (hvpWrFuseBitsLO bits h)
    [(0x40, 0x4c); (u8 (Z.lor bits (Z.lnot FUSEL_MASK)), 0x2c); (0, 0x64); (0, 0x6c)].
Proof.
  unfold hvpWrFuseBitsLO. eapply transmits_eq; [transmit_chain|].
  cbn [app]. rewrite (u8_id (u8 _)) by apply u8_range. reflexivity.
Qed.

Lemma hvpWrFuseBitsHI_transmits bits h :
  transmits h (hvpWrFuseBitsHI bits h)
    [(0x40, 0x4c); (u8 (Z.lor bits (Z.lnot FUSEH_MASK)), 0x2c); (0, 0x74); (0, 0x7c)].
Proof.
  unfold hvpWrFuseBitsHI. eapply transmits_eq; [transmit_chain|].
  cbn [app]. rewrite (u8_id (u8 _)) by apply u8_range. reflexivity.
Qed.

Lemma hvpWrFuseBitsEX_transmits bits h :
  transmits h (hvpWrFuseBitsEX bits h)
    [(0x40, 0x4c); (u8 (Z.lor bits (Z.lnot FUSEE_MASK)), 0x2c); (0, 0x66); (0, 0x6e)].
Proof.
  unfold hvpWrFuseBitsEX. eapply transmits_eq; [transmit_chain|].
  cbn [app]. rewrite (u8_id (u8 _)) by apply u8_range. reflexivity.
Qed.

Lemma hvpWrLockBits_transmits bits h :
  transmits h (hvpWrLockBits bits h)
    [(0x20, 0x4c); (u8 (Z.lor bits (Z.lnot LOCKB_MASK)), 0x2c); (0, 0x64); (0, 0x6c)].
Proof.
  unfold hvpWrLockBits. eapply transmits_eq; [transmit_chain|].
  cbn [app]. rewrite (u8_id (u8 _)) by apply u8_range. reflexivity.
Qed.

Ltac answer :=
  eapply answers_eq; [ apply hvp_write_answers; transmit_chain | reflexivity ].

Lemma hvpRdFuseBitsLO_answers h :
  answers h (hvpRdFuseBitsLO h) [(0x04, 0x4c); (0, 0x68); (0, 0x6c)].
Proof. unfold hvpRdFuseBitsLO. answer. Qed.

Lemma hvpRdFuseBitsHI_answers h :
  answers h (hvpRdFuseBitsHI h) [(0x04, 0x4c); (0, 0x7a); (0, 0x7e)].
Proof. unfold hvpRdFuseBitsHI. answer. Qed.

Lemma hvpRdFuseBitsEX_answers h :
  answers h (hvpRdFuseBitsEX h) [(0x04, 0x4c); (0, 0x6a); (0, 0x6e)].
Proof. unfold hvpRdFuseBitsEX. answer. Qed.

Lemma hvpRdLockBits_answers h :
  answers h (hvpRdLockBits h) [(0x04, 0x4c); (0, 0x78); (0, 0x7c)].
Proof. unfold hvpRdLockBits. answer. Qed.

Lemma hvpSignatureByte0_answers h :
  answers h (hvpSignatureByte0 h) [(0x08, 0x4c); (0, 0x0c); (0, 0x68); (0, 0x6c)].
Proof. unfold hvpSignatureByte0. answer. Qed.

Lemma hvpSignatureByte1_answers h :
  answers h (hvpSignatureByte1 h) [(0x08, 0x4c); (1, 0x0c); (0, 0x68); (0, 0x6c)].
Proof. unfold hvpSignatureByte1. answer. Qed.

Lemma hvpSignatureByte2_answers h :
  answers h (hvpSignatureByte2 h) [(0x08, 0x4c); (2, 0x0c); (0, 0x68); (0, 0x6c)].
Proof. unfold hvpSignatureByte2. answer. Qed.

(** C1.  Every fuse or lock write transmits, with the load-data
    instruction 0x2c, the requested byte ORed with the 8-bit complement of
    the field's mask (low 0xFF, high 0xFF, extended 0x01, lock 0x03), and
    every fuse or lock read returns the byte sampled on SDO during its
    last frame as it is. *)
Theorem fuse_lock_write_masked_read_raw (bits : Z) (h : hw) :
  is_u8 bits ->
  (sent (emitted h (hvpWrFuseBitsLO bits h)) =
     [(0x40, 0x4c); (Z.lor bits (Z.lxor 0xff 0xff), 0x2c); (0, 0x64); (0, 0x6c)] /\
   sent (emitted h (hvpWrFuseBitsHI bits h)) =
     [(0x40, 0x4c); (Z.lor bits (Z.lxor 0xff 0xff), 0x2c); (0, 0x74); (0, 0x7c)] /\
   sent (emitted h (hvpWrFuseBitsEX bits h)) =
     [(0x40, 0x4c); (Z.lor bits (Z.lxor 0xff 0x01), 0x2c); (0, 0x66); (0, 0x6e)] /\
   sent (emitted h (hvpWrLockBits bits h)) =
     [(0x20, 0x4c); (Z.lor bits (Z.lxor 0xff 0x03), 0x2c); (0, 0x64); (0, 0x6c)]) /\
  (last (sampled (emitted h (snd (hvpRdFuseBitsLO h)))) = Some (fst (hvpRdFuseBitsLO h)) /\
   last (sampled (emitted h (snd (hvpRdFuseBitsHI h)))) = Some (fst (hvpRdFuseBitsHI h)) /\
   last (sampled (emitted h (snd (hvpRdFuseBitsEX h)))) = Some (fst (hvpRdFuseBitsEX h)) /\
   last (sampled (emitted h (snd (hvpRdLockBits h)))) = Some (fst (hvpRdLockBits h))).
Proof.
  intros Hb. split; [repeat split|repeat split].
  - rewrite (transmits_sent _ _ _ (hvpWrFuseBitsLO_transmits bits h)).
    unfold FUSEL_MASK. rewrite mask_or_complement by auto. reflexivity.
  - rewrite (transmits_sent _ _ _ (hvpWrFuseBitsHI_transmits bits h)).
    unfold FUSEH_MASK. rewrite mask_or_complement by auto. reflexivity.
  - rewrite (transmits_sent _ _ _ (hvpWrFuseBitsEX_transmits bits h)).
    unfold FUSEE_MASK. rewrite mask_or_complement by auto. reflexivity.
  - rewrite (transmits_sent _ _ _ (hvpWrLockBits_transmits bits h)).
    unfold LOCKB_MASK. rewrite mask_or_complement by auto. reflexivity.
  - exact (answers_sampled _ _ _ (hvpRdFuseBitsLO_answers h)).
  - exact (answers_sampled _ _ _ (hvpRdFuseBitsHI_answers h)).
  - exact (answers_sampled _ _ _ (hvpRdFuseBitsEX_answers h)).
  - exact (answers_sampled _ _ _ (hvpRdLockBits_answers h)).
Qed.

(** writing 0x00 to the extended fuse puts 0xFE on the wire *)
Lemma fuse_lock_write_masked_read_raw_witness :
  sent (emitted bench (hvpWrFuseBitsEX 0 bench)) =
    [(0x40, 0x4c); (0xfe, 0x2c); (0, 0x66); (0, 0x6e)].
Proof.
  refine (proj1 (proj2 (proj2 (proj1
    (fuse_lock_write_masked_read_raw 0 bench _))))).
  unfold is_u8. lia.
Defined.

(** *** Flash page writes *)

Lemma load_nth mem i d : load mem i = Some d -> nth i mem 0 = d.
Proof. unfold load. intros H. apply nth_lookup_Some with (d := 0) in H. exact H. Qed.

Lemma load_in_range (mem : list Z) i : (i < length mem)%nat -> exists d, load mem i = Some d.
Proof. intros H. apply lookup_lt_is_Some_2 in H. destruct H as [d Hd]. exists d. exact Hd. Qed.

Lemma flash_commit_transmits a h :
  transmits h (flash_commit a h) (commit_frames (u8 a)).
Proof. unfold flash_commit. transmit. Qed.

Lemma hvpWrFlash_loop_transmits W : forall address mem dst h,
  (dst + 2 * W <= length mem)%nat ->
  exists h', hvpWrFlash_loop W address mem dst h = Some h' /\
             transmits h h' (flash_words W address mem dst).
Proof.
  induction W as [|W IH]; intros address mem dst h Hlen.
  - exists h. split; [reflexivity|apply transmits_refl].
  - cbn [hvpWrFlash_loop flash_words].
    destruct (load_in_range mem dst) as [d0 Hd0]; [lia|].
    destruct (load_in_range mem (S dst)) as [d1 Hd1]; [lia|].
    rewrite Hd0. cbn [mbind option_bind]. rewrite Hd1. cbn [mbind option_bind].
    rewrite (load_nth _ _ _ Hd0), (load_nth _ _ _ Hd1).
    set (b := u8 address). set (a := u8 (Z.shiftr (u16 address) 8)).
    set (h1 := hvp_write_ 0 124 _).
    assert (H1 : transmits h h1 (word_frames b (u8 d0) (u8 d1))).
    { subst h1. eapply transmits_eq; [transmit_chain|]. cbn [app].
      subst b. rewrite (u8_id (u8 _)) by apply u8_range. reflexivity. }
    set (h2 := if hvp_eop b FLASH_PAGE_MASK || (W =? 0)%nat then flash_commit a h1 else h1).
    assert (H2 : transmits h1 h2
              (if (Z.land b 0x1f =? 0x1f) || (W =? 0)%nat then commit_frames a else [])).
    { subst h2. unfold hvp_eop, FLASH_PAGE_MASK.
      destruct ((Z.land b 31 =? 31) || (W =? 0)%nat).
      - replace (commit_frames a) with (commit_frames (u8 a))
          by (subst a; rewrite (u8_id (u8 _)) by apply u8_range; reflexivity).
        apply flash_commit_transmits.
      - apply transmits_refl. }
    destruct (IH (u16 (address + 1)) mem (S (S dst)) h2) as (h' & Hh' & H3); [lia|].
    exists h'. split; [exact Hh'|].
    eapply transmits_trans; [exact H1|].
    eapply transmits_trans; [exact H2|exact H3].
Qed.

Lemma hvpWrFlash_transmits W address mem dst h :
  (dst + 2 * W <= length mem)%nat ->
  exists h', hvpWrFlash address W mem dst h = Some h' /\
             transmits h h' ([(0x10, 0x4c)] ++ flash_words W address mem dst ++ [(0, 0x4c)]).
Proof.
  intros Hlen. unfold hvpWrFlash.
  destruct (hvpWrFlash_loop_transmits W address mem dst (hvp_write_ 16 76 h) Hlen)
    as (h1 & Hh1 & Ht).
  rewrite Hh1. cbn [mbind option_bind]. eexists. split; [reflexivity|].
  eapply transmits_eq.
  - eapply transmits_trans; [apply hvp_write_transmits|].
    eapply transmits_trans; [exact Ht|apply hvp_write_transmits].
  - reflexivity.
Qed.








(** *** The universal command *)

Lemma key_bytes r0 r1 :
  is_u8 r0 -> is_u8 r1 -> Z.lor (u16 (Z.shiftl r0 8)) r1 = 256 * r0 + r1.
Proof.
  unfold is_u8. intros H0 H1.
  assert (Hl : Z.land (Z.shiftl r0 8) r1 = 0).
  { apply Z.bits_inj'. intros n Hn. rewrite Z.land_spec, Z.bits_0.
    destruct (Z.lt_ge_cases n 8) as [Hlt|Hge].
    - rewrite Z.shiftl_spec_low by lia. reflexivity.
    - rewrite (Z.bits_above_log2 r1 n); [apply andb_false_r|lia|].
      destruct (Z.eq_dec r1 0) as [->|Hne]; [cbn; lia|].
      apply Z.lt_le_trans with 8; [|lia]. apply Z.log2_lt_pow2; lia. }
  assert (Hs : Z.shiftl r0 8 = 256 * r0).
  { rewrite Z.shiftl_mul_pow2 by lia. change (2 ^ 8) with 256. lia. }
  rewrite u16_id by (unfold is_u16; lia).
  rewrite <- (Z.lxor_lor _ _ Hl), <- (Z.add_nocarry_lxor _ _ Hl). lia.
Qed.

Lemma universal_perform r0 r1 r2 r3 tail h :
  is_u8 r0 -> is_u8 r1 ->
  universal (r0 :: r1 :: r2 :: r3 :: tail) h = Some (perform (recognize r0 r1 r2) r3 h).
Proof.
  intros H0 H1. unfold universal, load. cbn [lookup list_lookup mbind option_bind].
  rewrite key_bytes by assumption. unfold is_u8 in H0, H1. unfold recognize.
  destruct (Z.eqb_spec (256 * r0 + r1) 0x5800) as [E|E].
  { replace r0 with 0x58 by lia. replace r1 with 0 by lia. cbn [Z.eqb Pos.eqb andb perform]. reflexivity. }
  destruct (Z.eqb_spec (256 * r0 + r1) 0x5000) as [E1|E1].
  { replace r0 with 0x50 by lia. replace r1 with 0 by lia. cbn [Z.eqb Pos.eqb andb perform]. reflexivity. }
  destruct (Z.eqb_spec (256 * r0 + r1) 0x5808) as [E2|E2].
  { replace r0 with 0x58 by lia. replace r1 with 8 by lia. cbn [Z.eqb Pos.eqb andb perform]. reflexivity. }
  destruct (Z.eqb_spec (256 * r0 + r1) 0x5008) as [E3|E3].
  { replace r0 with 0x50 by lia. replace r1 with 8 by lia. cbn [Z.eqb Pos.eqb andb perform]. reflexivity. }
  destruct (Z.eqb_spec (256 * r0 + r1) 0xace0) as [E4|E4].
  { replace r0 with 0xac by lia. replace r1 with 0xe0 by lia. cbn [Z.eqb Pos.eqb andb perform]. reflexivity. }
  destruct (Z.eqb_spec (256 * r0 + r1) 0xaca0) as [E5|E5].
  { replace r0 with 0xac by lia. replace r1 with 0xa0 by lia. cbn [Z.eqb Pos.eqb andb perform]. reflexivity. }
  destruct (Z.eqb_spec (256 * r0 + r1) 0xaca8) as [E6|E6].
  { replace r0 with 0xac by lia. replace r1 with 0xa8 by lia. cbn [Z.eqb Pos.eqb andb perform]. reflexivity. }
  destruct (Z.eqb_spec (256 * r0 + r1) 0xaca4) as [E7|E7].
  { replace r0 with 0xac by lia. replace r1 with 0xa4 by lia. cbn [Z.eqb Pos.eqb andb perform]. reflexivity. }
  destruct (Z.eqb_spec (256 * r0 + r1) 0x3000) as [E8|E8].
  { replace r0 with 0x30 by lia. replace r1 with 0 by lia.
    cbn [Z.eqb Pos.eqb andb].
    destruct (r2 =? 0); [cbn [perform]; reflexivity|].
    destruct (r2 =? 1); [cbn [perform]; reflexivity|].
    destruct (r2 =? 2); cbn [perform]; reflexivity. }
  destruct (Z.eqb_spec (256 * r0 + r1) 0xac80) as [E9|E9].
  { replace r0 with 0xac by lia. replace r1 with 0x80 by lia. cbn [Z.eqb Pos.eqb andb perform]. reflexivity. }
  repeat match goal with
  | |- context [?a =? ?b] => destruct (Z.eqb_spec a b); try lia
  end; cbn [andb perform]; reflexivity.
Qed.

Lemma perform_read_answers op r3 h :
  is_read op = true -> exists ws, answers h (perform op r3 h) ws.
Proof.
  destruct op; try discriminate; intros _; eexists; cbn [perform].
  - apply hvpRdLockBits_answers.
  - apply hvpRdFuseBitsLO_answers.
  - apply hvpRdFuseBitsHI_answers.
  - apply hvpRdFuseBitsEX_answers.
  - apply hvpSignatureByte0_answers.
  - apply hvpSignatureByte1_answers.
  - apply hvpSignatureByte2_answers.
Qed.

Lemma perform_transmits op r3 h :
  is_u8 r3 -> transmits h (snd (perform op r3 h)) (frames_of op r3).
Proof.
  intros H3.
  assert (Hff : u8 (Z.lor r3 (Z.lnot 0xff)) = r3).
  { rewrite mask_or_complement by auto. change (Z.lxor 255 255) with 0. apply Z.lor_0_r. }
  destruct op; cbn [perform frames_of snd].
  - apply answers_transmits, hvpRdLockBits_answers.
  - apply answers_transmits, hvpRdFuseBitsLO_answers.
  - apply answers_transmits, hvpRdFuseBitsHI_answers.
  - apply answers_transmits, hvpRdFuseBitsEX_answers.
  - eapply transmits_eq; [apply hvpWrLockBits_transmits|].
    unfold LOCKB_MASK. rewrite mask_or_complement by auto. reflexivity.
  - eapply transmits_eq; [apply hvpWrFuseBitsLO_transmits|].
    unfold FUSEL_MASK. rewrite Hff. reflexivity.
  - eapply transmits_eq; [apply hvpWrFuseBitsHI_transmits|].
    unfold FUSEH_MASK. rewrite Hff. reflexivity.
  - eapply transmits_eq; [apply hvpWrFuseBitsEX_transmits|].
    unfold FUSEE_MASK. rewrite mask_or_complement by auto. reflexivity.
  - apply answers_transmits, hvpSignatureByte0_answers.
  - apply answers_transmits, hvpSignatureByte1_answers.
  - apply answers_transmits, hvpSignatureByte2_answers.
  - apply hvpChipErase_transmits.
  - apply transmits_refl.
Qed.

(** C7.  The universal command does what its first two bytes (and, for
    a signature read, the third) select.  Whatever the board, the target
    receives exactly the frames of the selected operation: the three
    frames of a lock or fuse read, the four frames of a signature read
    with the index asked for, the four frames of a lock or fuse write
    with the data byte of the tuple (ORed with the complement of the
    field's mask), the three frames of the chip erase, and no frame at
    all for any other tuple.  A read returns the byte sampled from the
    target during its last frame; a write or the chip erase returns 0;
    any other tuple returns 0 and leaves the board as it was.  The tuple
    AC E0 00 07 writes the lock bits and returns 0. *)
Theorem universal_contract (r0 r1 r2 r3 : Z) (tail : list Z) (h : hw) :
  is_u8 r0 -> is_u8 r1 -> is_u8 r2 -> is_u8 r3 ->
  let op := recognize r0 r1 r2 in
  exists v h',
    universal (r0 :: r1 :: r2 :: r3 :: tail) h = Some (v, h') /\
    (v, h') = perform op r3 h /\
    sent (emitted h h') = frames_of op r3 /\
    (is_read op = true -> last (sampled (emitted h h')) = Some v) /\
    (is_read op = false -> v = 0) /\
    (op = NoOp -> h' = h) /\
    (op = WrLock ->
       sent (emitted h h') =
         [(0x20, 0x4c); (Z.lor r3 (Z.lxor 0xff 0x03), 0x2c); (0, 0x64); (0, 0x6c)]).
Proof.
  intros H0 H1 H2 H3 op.
  exists (fst (perform op r3 h)), (snd (perform op r3 h)).
  rewrite <- surjective_pairing.
  split; [apply universal_perform; assumption|].
  split; [reflexivity|].
  split; [apply transmits_sent, perform_transmits; exact H3|].
  repeat split.
  - intros Hr. destruct (perform_read_answers op r3 h Hr) as [ws Hws].
    apply (answers_sampled _ _ _ Hws).
  - intros Hr. destruct op; try discriminate; reflexivity.
  - intros ->. reflexivity.
  - intros ->. cbn [perform fst snd].
    rewrite (transmits_sent _ _ _ (hvpWrLockBits_transmits r3 h)).
    unfold LOCKB_MASK. rewrite mask_or_complement by auto. reflexivity.
Qed.

(** the tuple AC E0 00 07 *)
Lemma universal_contract_witness :
  (is_u8 0xac /\ is_u8 0xe0 /\ is_u8 0x00 /\ is_u8 0x07) /\
  exists v h',
    universal [0xac; 0xe0; 0x00; 0x07] bench = Some (v, h') /\
    (v, h') = (0, hvpWrLockBits 0x07 bench) /\
    sent (emitted bench h') = [(0x20, 0x4c); (0xff, 0x2c); (0, 0x64); (0, 0x6c)] /\
    (false = true -> last (sampled (emitted bench h')) = Some v) /\
    (false = false -> v = 0) /\
    (WrLock = NoOp -> h' = bench) /\
    (WrLock = WrLock ->
       sent (emitted bench h') = [(0x20, 0x4c); (0xff, 0x2c); (0, 0x64); (0, 0x6c)]).
Proof.
  assert (H0 : is_u8 0xac) by (unfold is_u8; lia).
  assert (H1 : is_u8 0xe0) by (unfold is_u8; lia).
  assert (H2 : is_u8 0x00) by (unfold is_u8; lia).
  assert (H3 : is_u8 0x07) by (unfold is_u8; lia).
  split; [exact (conj H0 (conj H1 (conj H2 H3)))|].
  exact (universal_contract 0xac 0xe0 0x00 0x07 [] bench H0 H1 H2 H3).
Defined.

(** * Facts about the bridge *)

Arguments hvp_write : simpl never.
Arguments hvp_write_ : simpl never.
Arguments hvp_wait_on_SDO : simpl never.
Arguments hvpStandbyMode : simpl never.
Arguments hvpProgramMode : simpl never.
Arguments hvpChipErase : simpl never.
Arguments hvpWrFuseBitsLO : simpl never.
Arguments hvpWrFuseBitsHI : simpl never.
Arguments hvpWrFuseBitsEX : simpl never.
Arguments hvpRdFuseBitsLO : simpl never.
Arguments hvpRdFuseBitsHI : simpl never.
Arguments hvpRdFuseBitsEX : simpl never.
Arguments hvpWrLockBits : simpl never.
Arguments hvpRdLockBits : simpl never.
Arguments hvpSignatureByte0 : simpl never.
Arguments hvpSignatureByte1 : simpl never.
Arguments hvpSignatureByte2 : simpl never.
Arguments hvpWrFlash : simpl never.
Arguments hvpRdFlash : simpl never.
Arguments hvpWrEEPROM : simpl never.
Arguments hvpRdEEPROM : simpl never.
Arguments universal : simpl never.
Arguments load : simpl never.
Arguments store : simpl never.
Arguments putbn : simpl never.
Arguments getbn : simpl never.
Arguments command_of : simpl never.

Lemma store_length mem i v mem' : store mem i v = Some mem' -> length mem' = length mem.
Proof.
  unfold store. destruct (i <? length mem)%nat; [|discriminate].
  intros [= <-]. apply length_insert.
Qed.

Lemma store_in_range mem i v :
  (i < length mem)%nat -> store mem i v = Some (<[i:=v]> mem).
Proof.
  intros H. unfold store. apply Nat.ltb_lt in H. rewrite H. reflexivity.
Qed.

Lemma store_frame mem i v mem' j :
  store mem i v = Some mem' -> j <> i -> mem' !! j = mem !! j.
Proof.
  unfold store. destruct (i <? length mem)%nat; [|discriminate].
  intros [= <-] Hj. apply list_lookup_insert_ne. congruence.
Qed.

(** what [getbn] leaves behind: the line has moved on, at most one read
    timed out, and that is the case exactly when the result is negative *)
Lemma getbn_loop_inv n : forall c0 mem p st c mem' st',
  getbn_loop n c0 mem p st = Some (c, mem', st') ->
  0 <= c0 ->
  exists r' k,
    st' = with_line r' (k + timeouts st) st /\
    length mem' = length mem /\
    (forall j, (j < p \/ p + n <= j)%nat -> mem' !! j = mem !! j) /\
    ((c < 0 /\ k = 1%nat) \/ (0 <= c /\ k = 0%nat)).
Proof.
  induction n as [|n IH]; intros c0 mem p st c mem' st' H Hc0.
  - cbn in H. injection H as <- <- <-. exists (rx st), 0%nat.
    split; [destruct st; reflexivity|]. split; [reflexivity|].
    split; [reflexivity|]. right. split; [exact Hc0|reflexivity].
  - cbn [getbn_loop] in H. unfold getch in H.
    destruct st as [h m a d e b r t k0]. cbn [rx] in H.
    destruct r as [|[x|] r]; cbn in H.
    + injection H as <- <- <-. exists [], 1%nat. cbn.
      split; [reflexivity|]. split; [reflexivity|]. split; [reflexivity|].
      left. split; [lia|reflexivity].
    + destruct (Z.ltb_spec (u8 x) 0) as [Hneg|_];
        [pose proof (u8_range x) as Hx; unfold is_u8 in Hx; lia|].
      destruct (store mem p (u8 (u8 x))) as [mem1|] eqn:Hst; [|discriminate H].
      cbn [mbind option_bind] in H.
      apply IH in H; [|pose proof (u8_range x) as Hx; unfold is_u8 in Hx; lia].
      destruct H as (r' & k & -> & Hlen & Hfr & Hc).
      exists r', k. cbn. split; [reflexivity|].
      split; [rewrite Hlen; eapply store_length; exact Hst|].
      split; [|exact Hc].
      intros j Hj. rewrite Hfr by lia. eapply store_frame; [exact Hst|lia].
    + injection H as <- <- <-. exists r, 1%nat. cbn.
      split; [reflexivity|]. split; [reflexivity|]. split; [reflexivity|].
      left. split; [lia|reflexivity].
Qed.

Lemma getbn_inv n mem st c mem' st' :
  getbn mem n st = Some (c, mem', st') ->
  exists r' k,
    st' = with_line r' (k + timeouts st) st /\
    length mem' = length mem /\
    (forall j, (n <= j)%nat -> mem' !! j = mem !! j) /\
    ((c < 0 /\ k = 1%nat) \/ (0 <= c /\ k = 0%nat)).
Proof.
  intros H. apply getbn_loop_inv in H; [|lia].
  destruct H as (r' & k & Hst & Hlen & Hfr & Hc).
  exists r', k. repeat split; try assumption. intros j Hj. apply Hfr. lia.
Qed.

(** [getbn] cannot fault while it stays inside the memory it fills *)
Lemma getbn_loop_total n : forall c0 mem p st,
  (p + n <= length mem)%nat -> exists res, getbn_loop n c0 mem p st = Some res.
Proof.
  induction n as [|n IH]; intros c0 mem p st Hlen; [eexists; reflexivity|].
  cbn [getbn_loop]. destruct (getch st) as [c st1].
  destruct (c <? 0); [eexists; reflexivity|].
  rewrite store_in_range by lia. cbn [mbind option_bind].
  apply IH. rewrite length_insert. lia.
Qed.

Lemma getbn_total n mem st :
  (n <= length mem)%nat -> exists res, getbn mem n st = Some res.
Proof. intros H. apply getbn_loop_total. lia. Qed.

Lemma getch_cases st :
  exists c r k,
    getch st = (c, with_line r (k + timeouts st) st) /\
    ((c = -1 /\ k = 1%nat) \/ (is_u8 c /\ k = 0%nat)).
Proof.
  unfold getch. destruct st as [h m a d e b r t k0]. cbn [rx].
  destruct r as [|[x|] r].
  - exists (-1), [], 1%nat. split; [reflexivity|left; split; reflexivity].
  - exists (u8 x), r, 0%nat. split; [reflexivity|right; split; [apply u8_range|reflexivity]].
  - exists (-1), r, 1%nat. split; [reflexivity|left; split; reflexivity].
Qed.

Lemma set_programming_mode_off st :
  set_programming_mode 0 st = (0, set_mode 0 (call hvpStandbyMode st)).
Proof. reflexivity. Qed.

Lemma set_programming_mode_on st :
  set_programming_mode 1 st =
  (1, set_mode 1 (if _mode st =? 0 then call hvpProgramMode st else st)).
Proof. unfold set_programming_mode. cbn. destruct (_mode st =? 0); reflexivity. Qed.

Lemma set_programming_mode_query st : set_programming_mode 0xff st = (_mode st, st).
Proof. reflexivity. Qed.

(** unfold the plumbing of the bridge, leaving the sequencer calls alone *)
Ltac plumb_in H :=
  rewrite ?set_programming_mode_off, ?set_programming_mode_on,
          ?set_programming_mode_query in H;
  cbv [loop_case framed or_abort ready not_set_up GETN empty_reply abort
       no_sync_reply failure_reply not_E_or_F call call_rd putch putstr
       set_hwst set_mode set_address set_device set_extras set_buffer set_rx
       set_tx tick_timeout with_line hwst _mode address device extras buffer
       rx tx timeouts mbind option_bind fst snd devicecode] in H.

Ltac plumb :=
  rewrite ?set_programming_mode_off, ?set_programming_mode_on,
          ?set_programming_mode_query;
  cbv [loop_case framed or_abort ready not_set_up GETN empty_reply abort
       no_sync_reply failure_reply not_E_or_F call call_rd putch putstr
       set_hwst set_mode set_address set_device set_extras set_buffer set_rx
       set_tx tick_timeout with_line hwst _mode address device extras buffer
       rx tx timeouts mbind option_bind fst snd devicecode].

Lemma hvpStandbyMode_lines h : lines (hvpStandbyMode h) = standby_lines.
Proof.
  rewrite hvpStandbyMode_replay, replay_lines.
  destruct (lines h) as [[? ?] [? ?] [? ?] [? ?] [? ?] [? ?]].
  reflexivity.
Qed.

Lemma putbn_inv mem n : forall p st st',
  putbn mem p n st = Some st' ->
  exists bs, st' = set_tx (tx st ++ bs) st /\ length bs = n.
Proof.
  induction n as [|n IH]; intros p st st' H.
  - change (Some st = Some st') in H. injection H as <-. exists [].
    rewrite app_nil_r. split; [destruct st; reflexivity|reflexivity].
  - change (putbn mem p (S n) st)
      with (c ← load mem p; putbn mem (S p) n (putch c st)) in H.
    destruct (load mem p) as [c|]; [|discriminate H].
    cbn [mbind option_bind] in H. apply IH in H. destruct H as (bs & -> & Hlen).
    exists (u8 c :: bs). split; [|cbn; lia].
    destruct st. cbn. rewrite <- app_assoc. reflexivity.
Qed.

(** *** Transport timeouts *)

Ltac use_getbn H :=
  match type of H with
  | context [getbn ?mem ?n ?st] =>
      let Hg := fresh "Hg" in
      destruct (getbn mem n st) as [[[? ?] ?]|] eqn:Hg;
        [|plumb_in H; match type of H with None = Some _ => discriminate H end];
      apply getbn_inv in Hg;
      let r := fresh "r" in let k := fresh "k" in
      let Hlen := fresh "Hlen" in let Hfr := fresh "Hfr" in let Hc := fresh "Hc" in
      destruct Hg as (r & k & -> & Hlen & Hfr & [[Hc ->]|[Hc ->]])
  end.

Ltac use_getch H :=
  match type of H with
  | context [getch ?st] =>
      let c := fresh "c" in let r := fresh "r" in let k := fresh "k" in
      let Hg := fresh "Hg" in let Hc := fresh "Hc" in
      destruct (getch_cases st) as (c & r & k & Hg & [[-> ->]|[Hc ->]]);
      rewrite Hg in H; clear Hg
  end.

Ltac split_on H :=
  match type of H with
  | context [?c <? 0] =>
      destruct (Z.ltb_spec c 0); [try (unfold is_u8 in *; lia)|try (unfold is_u8 in *; lia)]
  | context [match ?x with _ => _ end] =>
      lazymatch x with
      | context [match _ with _ => _ end] => fail
      | _ => destruct x eqn:?
      end
  end.

Ltac use_putbn H :=
  match type of H with
  | context [putbn ?mem ?p ?n ?st] =>
      let Hp := fresh "Hp" in let bs := fresh "bs" in let Hl := fresh "Hl" in
      destruct (putbn mem p n st) eqn:Hp;
        [|plumb_in H; match type of H with None = Some _ => discriminate H end];
      apply putbn_inv in Hp; destruct Hp as (bs & -> & Hl)
  end.

Ltac crunch H :=
  repeat first
    [ match type of H with None = Some _ => discriminate H end
    | progress (plumb_in H)
    | use_getbn H
    | use_getch H
    | use_putbn H
    | split_on H ].

Ltac seal1 c := generalize c; let f := fresh "op" in intro f.

(** hide the sequencer behind variables: the bridge never looks inside *)
Ltac seal H :=
  cbv beta iota delta [loop_case] in H;
  revert H;
  seal1 hvpProgramMode; seal1 hvpChipErase;
  seal1 hvpWrFuseBitsLO; seal1 hvpWrFuseBitsHI; seal1 hvpWrFuseBitsEX;
  seal1 hvpRdFuseBitsLO; seal1 hvpRdFuseBitsHI; seal1 hvpRdFuseBitsEX;
  seal1 hvpWrLockBits; seal1 hvpRdLockBits;
  seal1 hvpSignatureByte0; seal1 hvpSignatureByte1; seal1 hvpSignatureByte2;
  seal1 hvpWrFlash; seal1 hvpRdFlash; seal1 hvpWrEEPROM; seal1 hvpRdEEPROM;
  seal1 universal;
  intro H.

(** C4 (as the sketch has it).  When a read times out after the command
    byte has been taken, the bridge puts the board in standby, clears the
    programming-mode flag and then sends the no-sync token, and nothing
    else. *)
Theorem timeout_aborts_then_no_sync
    (custom : state -> option state) (st st' : state) (c : Z) (r : list (option Z)) :
  rx st = Some c :: r ->
  command_of (u8 c) <> CUSTOM_FUSE_CMD ->
  loop custom st = Some st' ->
  timeouts st' <> timeouts st ->
  _mode st' = 0 /\
  lines (hwst st') = standby_lines /\
  tx st' = tx st ++ [STK_NOSYNC].
Proof.
  intros Hrx Hcmd H Hto. unfold loop, ch_available in H. rewrite Hrx in H.
  unfold getch in H. rewrite Hrx in H.
  destruct st as [h m a d e b r0 t k0]. cbn in Hrx. subst r0.
  cbv [set_rx hwst _mode address device extras buffer rx tx timeouts] in H.
  cbn [hwst tx timeouts] in *.
  destruct (command_of (u8 c)) eqn:Hc; [congruence|..]; clear Hc Hcmd c.
  all: seal H; crunch H.
  all: injection H as <-; plumb_in Hto; cbn [Nat.add] in Hto; plumb.
  all: lazymatch type of Hto with
       | ?x <> ?x => exfalso; apply Hto; reflexivity
       | _ => split; [reflexivity|split; [apply hvpStandbyMode_lines|reflexivity]]
       end.
Qed.

(** a chip erase whose sentinel never arrives, in programming mode:
    the reply is the no-sync token *)
Lemma timeout_aborts_then_no_sync_witness :
  exists st',
    loop no_custom (session 1 0 [Some 0x52]) = Some st' /\
    timeouts st' <> 0%nat /\
    _mode st' = 0 /\ lines (hwst st') = standby_lines /\ tx st' = [STK_NOSYNC].
Proof.
  eexists. split; [reflexivity|]. split; [cbn; lia|].
  refine (timeout_aborts_then_no_sync no_custom (session 1 0 [Some 0x52]) _ 0x52 []
            eq_refl _ eq_refl _).
  - vm_compute. discriminate.
  - cbn. lia.
Defined.

Lemma u8_not_negative x : (u8 x <? 0) = false.
Proof. apply Z.ltb_ge. pose proof (u8_range x) as H. unfold is_u8 in H. lia. Qed.

Lemma byte_not_negative x : is_u8 x -> (x <? 0) = false.
Proof. unfold is_u8. intros H. apply Z.ltb_ge. lia. Qed.

Lemma set_rx_rx st : set_rx (rx st) st = st.
Proof. destruct st; reflexivity. Qed.

Lemma set_rx_set_rx r r' st : set_rx r (set_rx r' st) = set_rx r st.
Proof. reflexivity. Qed.

(** [getbn] on a line that holds all the bytes it asks for: they
    replace, one for one, what the memory held *)
Lemma getbn_loop_exact bs : forall c0 pre old post st rest,
  rx st = map Some bs ++ rest ->
  length old = length bs ->
  getbn_loop (length bs) c0 (pre ++ old ++ post) (length pre) st =
  Some (default c0 (last (map u8 bs)), pre ++ map u8 bs ++ post, set_rx rest st).
Proof.
  induction bs as [|x bs IH]; intros c0 pre old post st rest Hrx Hlen.
  - destruct old; [|discriminate]. cbn in Hrx |- *. rewrite <- Hrx, set_rx_rx.
    reflexivity.
  - destruct old as [|o old]; [discriminate|]. cbn [length] in Hlen.
    cbn [length getbn_loop]. unfold getch. rewrite Hrx. cbn [map app].
    rewrite u8_not_negative.
    rewrite store_in_range by (rewrite length_app; cbn [length]; lia).
    cbn [mbind option_bind].
    replace (<[length pre:=u8 (u8 x)]> (pre ++ o :: old ++ post))
      with ((pre ++ [u8 x]) ++ old ++ post).
    + replace (S (length pre)) with (length (pre ++ [u8 x]))
        by (rewrite length_app; cbn; lia).
      rewrite (IH (u8 x) (pre ++ [u8 x]) old post _ rest); [|reflexivity|lia].
      rewrite set_rx_set_rx, <- app_assoc. cbn [app].
      f_equal. f_equal. f_equal.
      rewrite last_cons. destruct (last (map u8 bs)); reflexivity.
    + rewrite <- app_assoc. cbn [app].
      replace (length pre) with (length pre + 0)%nat at 1 by lia.
      rewrite insert_app_r. cbn. rewrite (u8_id (u8 x)) by apply u8_range. reflexivity.
Qed.

Lemma getbn_exact bs mem st rest :
  rx st = map Some bs ++ rest ->
  (length bs <= length mem)%nat ->
  getbn mem (length bs) st =
  Some (default 0 (last (map u8 bs)), map u8 bs ++ drop (length bs) mem, set_rx rest st).
Proof.
  intros Hrx Hlen. unfold getbn.
  rewrite <- (take_drop (length bs) mem) at 1.
  apply (getbn_loop_exact bs 0 [] (take (length bs) mem)); [exact Hrx|].
  rewrite length_take. lia.
Qed.

Lemma map_u8_bytes bs : Forall is_u8 bs -> map u8 bs = bs.
Proof.
  induction 1 as [|x bs Hx _ IH]; [reflexivity|].
  cbn. rewrite IH, u8_id by exact Hx. reflexivity.
Qed.

(** *** Frames whose sentinel is wrong *)

Lemma last_snoc_default (bs : list Z) x : default 0 (last (map u8 (bs ++ [x]))) = u8 x.
Proof. rewrite map_app. cbn [map]. rewrite last_snoc. reflexivity. Qed.

Lemma last_u8_not_negative (bs : list Z) : (default 0 (last (map u8 bs)) <? 0) = false.
Proof.
  destruct bs as [|x bs] using rev_ind; [reflexivity|].
  rewrite last_snoc_default. apply u8_not_negative.
Qed.

Lemma last_byte_not_negative (bs : list Z) :
  Forall is_u8 bs -> (default 0 (last bs) <? 0) = false.
Proof.
  intros H. rewrite <- (map_u8_bytes bs H). apply last_u8_not_negative.
Qed.

Lemma GETN_exact bs st rest :
  rx st = map Some bs ++ rest ->
  (length bs <= length (buffer st))%nat ->
  GETN (length bs) st =
  Some (default 0 (last (map u8 bs)),
        set_buffer (map u8 bs ++ drop (length bs) (buffer st)) (set_rx rest st)).
Proof.
  intros Hrx Hlen. unfold GETN. rewrite (getbn_exact bs _ st rest Hrx Hlen).
  reflexivity.
Qed.

(** [GETN] reading a payload and the byte at the sentinel position *)
Lemma GETN_frame n payload x st rest :
  n = S (length payload) ->
  rx st = map Some payload ++ Some x :: rest ->
  (n <= length (buffer st))%nat ->
  GETN n st =
  Some (u8 x,
        set_buffer (map u8 (payload ++ [x]) ++ drop n (buffer st)) (set_rx rest st)).
Proof.
  intros -> Hrx Hlen.
  replace (S (length payload)) with (length (payload ++ [x]))
    by (rewrite length_app; cbn; lia).
  rewrite (GETN_exact (payload ++ [x]) st rest).
  - rewrite last_snoc_default. reflexivity.
  - rewrite map_app, <- app_assoc. exact Hrx.
  - rewrite length_app. cbn. lia.
Qed.

Lemma u16_int16 x : u16 (int16 x) = u16 x.
Proof.
  unfold u16, int16.
  rewrite <- Zminus_mod_idemp_l, Z.mod_mod by lia.
  rewrite Zminus_mod_idemp_l. f_equal. lia.
Qed.

Lemma load_address_value lo hi :
  is_u8 lo -> is_u8 hi -> u16 (int16 (lo + int16 (256 * hi))) = lo + 256 * hi.
Proof.
  unfold is_u8. intros Hlo Hhi. rewrite u16_int16. unfold u16.
  rewrite <- Zplus_mod_idemp_r. fold (u16 (int16 (256 * hi))).
  rewrite u16_int16. unfold u16. rewrite Zplus_mod_idemp_r.
  apply Z.mod_small. lia.
Qed.

Lemma page_length_value hi lo :
  is_u8 hi -> is_u8 lo -> 256 * hi + lo <= 256 ->
  int16 (int16 (256 * hi) + lo) = 256 * hi + lo.
Proof.
  unfold is_u8. intros Hhi Hlo Hle.
  rewrite (int16_id (256 * hi)) by lia. apply int16_id. lia.
Qed.

(** run the plumbing of the bridge on a line whose next bytes are known *)
Ltac run :=
  cbv [framed or_abort ready not_set_up empty_reply abort
       no_sync_reply failure_reply getch call call_rd putch putstr
       set_hwst set_mode set_address set_device set_extras set_buffer set_rx
       set_tx tick_timeout with_line hwst _mode address device extras buffer
       rx tx timeouts mbind option_bind fst snd devicecode].

Ltac seal_goal :=
  cbv beta iota delta [loop_case];
  seal1 hvpProgramMode; seal1 hvpChipErase;
  seal1 hvpWrFuseBitsLO; seal1 hvpWrFuseBitsHI; seal1 hvpWrFuseBitsEX;
  seal1 hvpRdFuseBitsLO; seal1 hvpRdFuseBitsHI; seal1 hvpRdFuseBitsEX;
  seal1 hvpWrLockBits; seal1 hvpRdLockBits;
  seal1 hvpSignatureByte0; seal1 hvpSignatureByte1; seal1 hvpSignatureByte2;
  seal1 hvpWrFlash; seal1 hvpRdFlash; seal1 hvpWrEEPROM; seal1 hvpRdEEPROM;
  seal1 universal.

(** the byte [bad] at the sentinel position is read with [getch] *)
Ltac bad_by_getch Hbad Hne :=
  run; rewrite ?u8_not_negative, ?last_u8_not_negative;
  rewrite (u8_id _ Hbad), Hne;
  eexists; split; [reflexivity|];
  cbv [desync_effect hwst _mode address device extras rx tx timeouts];
  repeat split; reflexivity.

(** the byte [bad] at the sentinel position is the last one [GETN] reads *)
Ltac bad_by_GETN payload bad rest Hbad Hne :=
  erewrite (GETN_frame _ payload bad _ rest);
    [ | cbn [length]; reflexivity | reflexivity | cbn [buffer length]; lia ];
  run; rewrite ?u8_not_negative;
  rewrite (u8_id _ Hbad), Hne;
  eexists; split; [reflexivity|];
  cbv [desync_effect hwst _mode address device extras rx tx timeouts];
  repeat split; reflexivity.

Ltac explode payload Hok :=
  repeat (destruct payload as [|? payload]; cbn [length Nat.eqb] in Hok;
          try discriminate Hok);
  cbn [map app].

(** C3 (as the sketch has it).  A frame whose byte at the sentinel
    position is not 0x20 is answered with the no-sync token alone, and no
    read times out.  The commands that check the sentinel before they act
    leave the board, the programming-mode flag, the address cursor and
    both records untouched; leave-programming-mode, load-address and the
    two set-device commands have acted before the sentinel is read. *)
Theorem desync_reply (custom : state -> option state) (st : state)
    (c : Z) (payload : list Z) (bad : Z) (rest : list (option Z)) :
  wf st ->
  Forall is_u8 payload -> is_u8 bad -> bad <> CRC_EOP ->
  payload_ok (command_of (u8 c)) payload = true ->
  rx st = Some c :: map Some payload ++ Some bad :: rest ->
  exists st',
    loop custom st = Some st' /\
    tx st' = tx st ++ [STK_NOSYNC] /\
    rx st' = rest /\
    timeouts st' = timeouts st /\
    desync_effect (command_of (u8 c)) payload st st'.
Proof.
  intros (Hb & Hd & He) Hpl Hbad Hne Hok Hrx.
  apply Z.eqb_neq in Hne.
  destruct st as [h m a d e b r0 t k0]. cbn [rx buffer device extras] in *. subst r0.
  unfold loop, ch_available, getch. cbn [rx].
  cbv [set_rx hwst _mode address device extras buffer rx tx timeouts].
  unfold sizeof_buffer in Hb. unfold sizeof_device in Hd. unfold sizeof_extras in He.
  destruct (command_of (u8 c)) eqn:Hcmd; cbn [payload_ok] in Hok;
    try discriminate Hok; seal_goal.
  - (* chip erase *) explode payload Hok. bad_by_getch Hbad Hne.
  - (* read signature *) explode payload Hok. bad_by_getch Hbad Hne.
  - (* program fuse *) explode payload Hok.
    bad_by_GETN [z; z0] bad rest Hbad Hne.
  - explode payload Hok. bad_by_GETN [z; z0; z1] bad rest Hbad Hne.
  - explode payload Hok. bad_by_getch Hbad Hne.
  - explode payload Hok. bad_by_getch Hbad Hne.
  - explode payload Hok. bad_by_getch Hbad Hne.
  - explode payload Hok. bad_by_GETN [z] bad rest Hbad Hne.
  - (* load address *) explode payload Hok.
    inversion Hpl as [|? ? Hlo Hpl']; subst. inversion Hpl' as [|? ? Hhi _]; subst.
    run. rewrite !u8_not_negative.
    rewrite (u8_id _ Hbad), (u8_id _ Hlo), (u8_id _ Hhi), Hne.
    rewrite load_address_value by assumption.
    eexists; split; [reflexivity|].
    cbv [desync_effect hwst _mode address device extras rx tx timeouts nth].
    repeat split; reflexivity.
  - explode payload Hok. bad_by_GETN [z; z0; z1; z2] bad rest Hbad Hne.
  - explode payload Hok. bad_by_GETN [z; z0] bad rest Hbad Hne.
  - explode payload Hok. bad_by_GETN [z] bad rest Hbad Hne.
  - explode payload Hok. bad_by_getch Hbad Hne.
  - explode payload Hok. bad_by_getch Hbad Hne.
  - (* program page *)
    destruct payload as [|hi [|lo [|ty data]]]; try discriminate Hok.
    apply andb_prop in Hok. destruct Hok as [Hle Hlen].
    apply Z.leb_le in Hle. apply Z.eqb_eq in Hlen.
    inversion Hpl as [|? ? Hhi Hpl']; subst. inversion Hpl' as [|? ? Hlo _]; subst.
    cbn [map app]. run. rewrite !u8_not_negative.
    rewrite (u8_id _ Hhi), (u8_id _ Hlo).
    rewrite page_length_value by assumption.
    rewrite Z.gtb_ltb.
    replace (256 <? 256 * hi + lo) with false by (symmetry; apply Z.ltb_ge; lia).
    erewrite (GETN_frame _ (ty :: data) bad _ rest);
      [ | cbn [length]; rewrite u16_id by (unfold is_u16; lia); lia
        | reflexivity
        | cbn [buffer]; rewrite u16_id by (unfold is_u16; lia); lia ].
    run. rewrite ?u8_not_negative. rewrite (u8_id _ Hbad), Hne.
    eexists; split; [reflexivity|].
    cbv [desync_effect hwst _mode address device extras rx tx timeouts].
    repeat split; reflexivity.
  - (* read page *)
    destruct payload as [|hi [|lo [|ty [|]]]]; try discriminate Hok.
    apply Z.leb_le in Hok.
    inversion Hpl as [|? ? Hhi Hpl']; subst. inversion Hpl' as [|? ? Hlo _]; subst.
    cbn [map app]. run. rewrite !u8_not_negative.
    rewrite (u8_id _ Hhi), (u8_id _ Hlo).
    rewrite page_length_value by assumption.
    rewrite Z.gtb_ltb.
    replace (256 <? 256 * hi + lo) with false by (symmetry; apply Z.ltb_ge; lia).
    bad_by_GETN [ty] bad rest Hbad Hne.
  - explode payload Hok. bad_by_GETN [z] bad rest Hbad Hne.
  - (* set parameter *) explode payload Hok.
    change (Some z :: Some z0 :: Some bad :: rest)
      with (map Some [z; z0] ++ Some bad :: rest).
    erewrite (GETN_exact [z; z0] _ (Some bad :: rest));
      [ | reflexivity | cbn [buffer length]; lia ].
    cbv [mbind option_bind or_abort]. rewrite last_u8_not_negative.
    bad_by_getch Hbad Hne.
  - (* set device *)
    apply Nat.eqb_eq in Hok.
    change sizeof_device with 20%nat. rewrite <- Hok.
    erewrite (getbn_exact payload _ _ (Some bad :: rest));
      [ | reflexivity | cbn [device]; lia ].
    rewrite drop_ge by (cbn [device]; lia).
    rewrite app_nil_r, map_u8_bytes by exact Hpl.
    cbv [mbind option_bind]. rewrite (last_byte_not_negative payload Hpl).
    bad_by_getch Hbad Hne.
  - (* set device, extended *)
    apply Nat.eqb_eq in Hok.
    change sizeof_extras with 5%nat. rewrite <- Hok.
    erewrite (getbn_exact payload _ _ (Some bad :: rest));
      [ | reflexivity | cbn [extras]; lia ].
    rewrite drop_ge by (cbn [extras]; lia).
    rewrite app_nil_r, map_u8_bytes by exact Hpl.
    cbv [mbind option_bind]. rewrite (last_byte_not_negative payload Hpl).
    bad_by_getch Hbad Hne.
  - explode payload Hok. bad_by_getch Hbad Hne.
  - (* leave *) explode payload Hok.
    rewrite set_programming_mode_off. bad_by_getch Hbad Hne.
  - explode payload Hok. bad_by_getch Hbad Hne.
  - explode payload Hok. bad_by_getch Hbad Hne.
  - explode payload Hok. bad_by_getch Hbad Hne.
  - explode payload Hok. bad_by_getch Hbad Hne.
Qed.

(** a chip erase with 0x99 where the sentinel belongs, in programming
    mode at address 7 *)
Lemma desync_reply_witness :
  (wf (session 1 7 [Some 0x52; Some 0x99]) /\ is_u8 0x99 /\ 0x99 <> CRC_EOP) /\
  exists st',
    loop no_custom (session 1 7 [Some 0x52; Some 0x99]) = Some st' /\
    tx st' = [STK_NOSYNC] /\ rx st' = [] /\ timeouts st' = 0%nat /\
    desync_effect STK_CHIP_ERASE [] (session 1 7 [Some 0x52; Some 0x99]) st'.
Proof.
  assert (Hwf : wf (session 1 7 [Some 0x52; Some 0x99])) by (repeat split).
  assert (Hb : is_u8 0x99) by (unfold is_u8; lia).
  assert (Hn : 0x99 <> CRC_EOP) by discriminate.
  split; [exact (conj Hwf (conj Hb Hn))|].
  exact (desync_reply no_custom (session 1 7 [Some 0x52; Some 0x99]) 0x52 [] 0x99 []
           Hwf (List.Forall_nil _) Hb Hn eq_refl eq_refl).
Defined.

(** load-address 0x1234 with 0x00 where the sentinel belongs: the reply
    is the no-sync token, yet the address cursor has moved *)
Lemma desync_reply_counterexample :
  exists st',
    loop no_custom (session 0 0 [Some 0x55; Some 0x34; Some 0x12; Some 0x00]) = Some st' /\
    tx st' = [STK_NOSYNC] /\
    address st' = 0x1234 /\
    address st' <> address (session 0 0 [Some 0x55; Some 0x34; Some 0x12; Some 0x00]).
Proof.
  eexists. split; [reflexivity|]. split; [reflexivity|].
  split; [reflexivity|discriminate].
Qed.

(** a chip erase whose sentinel never arrives: a token is sent after the
    read has timed out *)
Lemma timeout_aborts_then_no_sync_counterexample :
  exists st',
    loop no_custom (session 1 0 [Some 0x52]) = Some st' /\
    timeouts st' = 1%nat /\
    tx (session 1 0 [Some 0x52]) = [] /\
    tx st' = [STK_NOSYNC].
Proof.
  eexists. split; [reflexivity|]. repeat split.
Qed.

(** *** Programming mode is entered on request only *)

Lemma sentinel_is_sentinel : (CRC_EOP =? CRC_EOP) = true.
Proof. reflexivity. Qed.

Lemma sentinel_byte : is_u8 CRC_EOP.
Proof. unfold is_u8, CRC_EOP. lia. Qed.

(** the sentinel is read with [getch], the flag is off *)
Ltac refused_by_getch :=
  run; rewrite ?u8_not_negative;
  rewrite (u8_id _ sentinel_byte), sentinel_is_sentinel;
  eexists; split; [reflexivity|];
  cbv [hwst _mode address device extras rx tx timeouts];
  rewrite <- ?app_assoc; repeat split; reflexivity.

(** the sentinel is the last byte [GETN] reads, the flag is off *)
Ltac refused_by_GETN payload rest :=
  erewrite (GETN_frame _ payload CRC_EOP _ rest);
    [ | cbn [length]; reflexivity | reflexivity | cbn [buffer length]; lia ];
  run; rewrite ?u8_not_negative;
  rewrite (u8_id _ sentinel_byte), sentinel_is_sentinel;
  eexists; split; [reflexivity|];
  cbv [hwst _mode address device extras rx tx timeouts];
  rewrite <- ?app_assoc; repeat split; reflexivity.

Lemma refused_when_off (custom : state -> option state) (st : state)
    (c : Z) (payload : list Z) (rest : list (option Z)) :
  wf st -> Forall is_u8 payload ->
  payload_ok (command_of (u8 c)) payload = true ->
  needs_progmode (command_of (u8 c)) = true ->
  _mode st = 0 ->
  rx st = Some c :: map Some payload ++ Some CRC_EOP :: rest ->
  exists st',
    loop custom st = Some st' /\
    tx st' = tx st ++ [STK_INSYNC; STK_FAILED] /\
    hwst st' = hwst st /\ _mode st' = 0 /\ rx st' = rest /\
    address st' = address st.
Proof.
  intros (Hb & Hd & He) Hpl Hok Hneed Hm Hrx.
  destruct st as [h m a d e b r0 t k0]. cbn [rx buffer device extras _mode] in *.
  subst r0 m.
  unfold loop, ch_available, getch. cbn [rx].
  cbv [set_rx hwst _mode address device extras buffer rx tx timeouts].
  unfold sizeof_buffer in Hb.
  destruct (command_of (u8 c)) eqn:Hcmd; cbn [payload_ok] in Hok;
    try discriminate Hok; try discriminate Hneed; seal_goal.
  - explode payload Hok. refused_by_getch.
  - explode payload Hok. refused_by_getch.
  - explode payload Hok. refused_by_GETN [z; z0] rest.
  - explode payload Hok. refused_by_GETN [z; z0; z1] rest.
  - explode payload Hok. refused_by_getch.
  - explode payload Hok. refused_by_getch.
  - explode payload Hok. refused_by_getch.
  - explode payload Hok. refused_by_GETN [z] rest.
  - explode payload Hok. refused_by_GETN [z; z0; z1; z2] rest.
  - explode payload Hok. refused_by_GETN [z] rest.
  - explode payload Hok. refused_by_getch.
  - explode payload Hok. refused_by_getch.
  - destruct payload as [|hi [|lo [|ty data]]]; try discriminate Hok.
    apply andb_prop in Hok. destruct Hok as [Hle Hlen].
    apply Z.leb_le in Hle. apply Z.eqb_eq in Hlen.
    inversion Hpl as [|? ? Hhi Hpl']; subst. inversion Hpl' as [|? ? Hlo _]; subst.
    cbn [map app]. run. rewrite !u8_not_negative.
    rewrite (u8_id _ Hhi), (u8_id _ Hlo).
    rewrite page_length_value by assumption.
    rewrite Z.gtb_ltb.
    replace (256 <? 256 * hi + lo) with false by (symmetry; apply Z.ltb_ge; lia).
    erewrite (GETN_frame _ (ty :: data) CRC_EOP _ rest);
      [ | cbn [length]; rewrite u16_id by (unfold is_u16; lia); lia
        | reflexivity
        | cbn [buffer]; rewrite u16_id by (unfold is_u16; lia); lia ].
    run. rewrite ?u8_not_negative.
    rewrite (u8_id _ sentinel_byte), sentinel_is_sentinel.
    eexists; split; [reflexivity|].
    cbv [hwst _mode address device extras rx tx timeouts].
    rewrite <- ?app_assoc. repeat split; reflexivity.
  - destruct payload as [|hi [|lo [|ty [|]]]]; try discriminate Hok.
    apply Z.leb_le in Hok.
    inversion Hpl as [|? ? Hhi Hpl']; subst. inversion Hpl' as [|? ? Hlo _]; subst.
    cbn [map app]. run. rewrite !u8_not_negative.
    rewrite (u8_id _ Hhi), (u8_id _ Hlo).
    rewrite page_length_value by assumption.
    rewrite Z.gtb_ltb.
    replace (256 <? 256 * hi + lo) with false by (symmetry; apply Z.ltb_ge; lia).
    refused_by_GETN [ty] rest.
Qed.

Lemma mode_changes_on_request (custom : state -> option state) (st st' : state)
    (c : Z) (r : list (option Z)) :
  rx st = Some c :: r ->
  command_of (u8 c) <> CUSTOM_FUSE_CMD ->
  loop custom st = Some st' ->
  _mode st' <> _mode st ->
  (command_of (u8 c) = STK_ENTER_PROGMODE /\ _mode st' = 1) \/
  (_mode st' = 0 /\
   (command_of (u8 c) = STK_LEAVE_PROGMODE \/ timeouts st' <> timeouts st)).
Proof.
  intros Hrx Hcmd H Hm. unfold loop, ch_available in H. rewrite Hrx in H.
  unfold getch in H. rewrite Hrx in H.
  destruct st as [h m a d e b r0 t k0]. cbn in Hrx. subst r0.
  cbv [set_rx hwst _mode address device extras buffer rx tx timeouts] in H.
  cbn [_mode timeouts] in *.
  destruct (command_of (u8 c)) eqn:Hc; [congruence|..]; clear Hc Hcmd c.
  all: seal H; crunch H.
  all: injection H as <-; plumb_in Hm; plumb; cbn [Nat.add].
  all: lazymatch type of Hm with
       | ?x <> ?x => exfalso; apply Hm; reflexivity
       | _ => first [ left; split; reflexivity
                    | right; split; [reflexivity|left; reflexivity]
                    | right; split; [reflexivity|right; lia] ]
       end.
Qed.

Lemma custom_pass_clears_flag (custom : state -> option state) (st st' : state)
    (c : Z) (r : list (option Z)) :
  rx st = Some c :: r ->
  command_of (u8 c) = CUSTOM_FUSE_CMD ->
  loop custom st = Some st' ->
  _mode st' = 0 /\ lines (hwst st') = standby_lines.
Proof.
  intros Hrx Hcmd H. unfold loop, ch_available, getch in H. rewrite Hrx, Hcmd in H.
  cbv beta iota delta [loop_case] in H.
  destruct (custom (set_rx r st)) as [st1|]; [|discriminate H].
  cbn [mbind option_bind] in H. rewrite set_programming_mode_off in H.
  injection H as <-. destruct st1.
  cbv [snd call set_mode set_hwst hwst _mode].
  split; [reflexivity|apply hvpStandbyMode_lines].
Qed.

(** C6 (as the sketch has it).  A command that needs programming mode
    and arrives while the flag is off is refused: the reply is in-sync,
    failed, the board is not touched and the flag stays off, for the
    precondition check only reads the flag.  The flag changes on request
    only: it is set by the enter-programming-mode command alone, and it
    is cleared by the leave command, by the abort after a read timed out,
    and at the end of the interactive fuse command, which always leaves
    the flag off and the lines in standby whatever the dialogue did. *)
Theorem progmode_on_request_only (custom : state -> option state) :
  (forall st c payload rest,
     wf st -> Forall is_u8 payload ->
     payload_ok (command_of (u8 c)) payload = true ->
     needs_progmode (command_of (u8 c)) = true ->
     _mode st = 0 ->
     rx st = Some c :: map Some payload ++ Some CRC_EOP :: rest ->
     exists st',
       loop custom st = Some st' /\
       tx st' = tx st ++ [STK_INSYNC; STK_FAILED] /\
       hwst st' = hwst st /\ _mode st' = 0 /\ rx st' = rest /\
       address st' = address st) /\
  (forall st st' c r,
     rx st = Some c :: r ->
     loop custom st = Some st' ->
     _mode st' <> _mode st ->
     (command_of (u8 c) = STK_ENTER_PROGMODE /\ _mode st' = 1) \/
     (_mode st' = 0 /\
      (command_of (u8 c) = STK_LEAVE_PROGMODE \/
       command_of (u8 c) = CUSTOM_FUSE_CMD \/
       timeouts st' <> timeouts st))) /\
  (forall st st' c r,
     rx st = Some c :: r ->
     command_of (u8 c) = CUSTOM_FUSE_CMD ->
     loop custom st = Some st' ->
     _mode st' = 0 /\ lines (hwst st') = standby_lines).
Proof.
  split; [|split].
  - intros. eapply refused_when_off; eassumption.
  - intros st st' c r Hrx H Hm.
    assert (Hdec : command_of (u8 c) = CUSTOM_FUSE_CMD \/
                   command_of (u8 c) <> CUSTOM_FUSE_CMD)
      by (destruct (command_of (u8 c)); first [left; reflexivity|right; discriminate]).
    destruct Hdec as [Hc|Hc].
    + right. split; [|right; left; exact Hc].
      apply (custom_pass_clears_flag custom st st' c r Hrx Hc H).
    + destruct (mode_changes_on_request custom st st' c r Hrx Hc H Hm)
        as [He|[H0 [Hl|Ht]]].
      * left. exact He.
      * right. split; [exact H0|left; exact Hl].
      * right. split; [exact H0|right; right; exact Ht].
  - intros. eapply custom_pass_clears_flag; eassumption.
Qed.

(** a read-signature command while the flag is off *)
Lemma progmode_on_request_only_witness :
  (wf (session 0 0 [Some 0x75; Some 0x20]) /\
   _mode (session 0 0 [Some 0x75; Some 0x20]) = 0) /\
  exists st',
    loop no_custom (session 0 0 [Some 0x75; Some 0x20]) = Some st' /\
    tx st' = [STK_INSYNC; STK_FAILED] /\
    hwst st' = bench /\ _mode st' = 0 /\ rx st' = [] /\ address st' = 0.
Proof.
  assert (Hwf : wf (session 0 0 [Some 0x75; Some 0x20])) by (repeat split).
  split; [split; [exact Hwf|reflexivity]|].
  exact (proj1 (progmode_on_request_only no_custom)
           (session 0 0 [Some 0x75; Some 0x20]) 0x75 [] []
           Hwf (List.Forall_nil _) eq_refl eq_refl eq_refl eq_refl).
Defined.

(** a chip erase while the flag is off: no attempt to enter programming
    mode is made, the command fails *)
Lemma progmode_on_request_only_counterexample :
  exists st',
    loop no_custom (session 0 0 [Some 0x52; Some 0x20]) = Some st' /\
    tx st' = [STK_INSYNC; STK_FAILED] /\
    _mode st' = 0 /\
    hwst st' = hwst (session 0 0 [Some 0x52; Some 0x20]).
Proof.
  eexists. split; [reflexivity|]. repeat split.
Qed.

(** *** Leaving programming mode twice *)

Lemma leave_step (custom : state -> option state) (st : state)
    (rest : list (option Z)) :
  rx st = Some 0x51 :: Some CRC_EOP :: rest ->
  loop custom st =
  Some (State (hvpStandbyMode (hwst st)) 0 (address st) (device st) (extras st)
              (buffer st) rest (tx st ++ [STK_INSYNC; STK_OK]) (timeouts st)).
Proof.
  intros Hrx. destruct st as [h m a d e b r0 t k0]. cbn [rx] in Hrx. subst r0.
  unfold loop, ch_available, getch. cbn [rx].
  cbv [set_rx hwst _mode address device extras buffer rx tx timeouts].
  change (command_of (u8 0x51)) with STK_LEAVE_PROGMODE.
  cbv beta iota delta [loop_case]. rewrite set_programming_mode_off. run.
  change (u8 CRC_EOP <? 0) with false. change (u8 CRC_EOP =? CRC_EOP) with true.
  cbv beta iota. rewrite <- app_assoc. reflexivity.
Qed.

Lemma transitions_standby (evs : list event) :
  transitions standby_lines (standby_events ++ evs) = transitions standby_lines evs.
Proof. reflexivity. Qed.

Lemma transitions_standby_rounds (n : nat) :
  transitions standby_lines (standby_rounds n) = 0%nat.
Proof.
  induction n as [|n IH]; [reflexivity|].
  cbn [standby_rounds]. rewrite transitions_standby. exact IH.
Qed.

Lemma leave_rounds (custom : state -> option state) (n : nat) :
  forall (st : state) (rest : list (option Z)),
  rx st = leave_requests n rest ->
  loops custom n st =
  Some (State (replay (standby_rounds n) (hwst st))
              (match n with O => _mode st | S _ => 0 end)
              (address st) (device st) (extras st) (buffer st) rest
              (tx st ++ empty_replies n) (timeouts st)).
Proof.
  induction n as [|n IH]; intros st rest Hrx.
  - destruct st. cbn in *. subst. rewrite app_nil_r. reflexivity.
  - cbn [leave_requests] in Hrx. cbn [loops].
    rewrite (leave_step _ _ _ Hrx). cbn [mbind option_bind].
    rewrite (IH _ rest) by reflexivity.
    cbn [hwst _mode address device extras buffer tx timeouts standby_rounds
         empty_replies].
    rewrite replay_app, hvpStandbyMode_replay, <- app_assoc.
    destruct n; reflexivity.
Qed.

(** C9.  Leave-programming-mode requests that arrive while the flag is
    off and the lines are as the last standby left them are all accepted;
    after any number of them the flag is still off, the lines are in the
    same states, and none of the pin operations they caused changed a
    line. *)
Theorem leave_when_idle_changes_nothing (custom : state -> option state)
    (n : nat) (st : state) (rest : list (option Z)) :
  _mode st = 0 ->
  lines (hwst st) = standby_lines ->
  rx st = leave_requests n rest ->
  exists st',
    loops custom n st = Some st' /\
    _mode st' = 0 /\
    lines (hwst st') = lines (hwst st) /\
    transitions (lines (hwst st)) (emitted (hwst st) (hwst st')) = 0%nat /\
    tx st' = tx st ++ empty_replies n /\
    rx st' = rest.
Proof.
  intros Hm Hl Hrx. eexists. split; [apply leave_rounds; exact Hrx|].
  cbn [hwst _mode tx rx]. rewrite emitted_replay, Hl.
  repeat split.
  - destruct n; [exact Hm|reflexivity].
  - destruct n as [|n]; [cbn; exact Hl|].
    cbn [standby_rounds]. rewrite replay_app, replay_lines.
    rewrite <- hvpStandbyMode_replay, hvpStandbyMode_lines.
    clear. induction n as [|n IH]; [reflexivity|].
    cbn [standby_rounds]. rewrite fold_left_app. exact IH.
  - apply transitions_standby_rounds.
Qed.

(** three requests in a row on the bench *)
Lemma leave_when_idle_changes_nothing_witness :
  exists st',
    loops no_custom 3 (session 0 0 (leave_requests 3 [])) = Some st' /\
    _mode st' = 0 /\
    lines (hwst st') = lines bench /\
    transitions (lines bench) (emitted bench (hwst st')) = 0%nat /\
    tx st' = empty_replies 3 /\
    rx st' = [].
Proof.
  exact (leave_when_idle_changes_nothing no_custom 3
           (session 0 0 (leave_requests 3 [])) [] eq_refl eq_refl eq_refl).
Defined.

(** *** The memory routines and the buffer *)

Lemma hvp_write_sends_eq sdi sii h v h' :
  hvp_write sdi sii h = (v, h') -> sends h h' [Frame (u8 sdi) (u8 sii) v].
Proof.
  intros E. pose proof (hvp_write_sends sdi sii h) as H. rewrite E in H. exact H.
Qed.

Lemma u8_literals :
  u8 0 = 0 /\ u8 0x0c = 0x0c /\ u8 0x1c = 0x1c /\ u8 0x68 = 0x68 /\
  u8 0x6c = 0x6c /\ u8 0x78 = 0x78 /\ u8 0x7c = 0x7c /\ u8 0x4c = 0x4c.
Proof. repeat split. Qed.

Lemma hvpRdFlash_loop_heard W : forall address mem dst h,
  (dst + 2 * W <= length mem)%nat ->
  exists fs mem' h',
    hvpRdFlash_loop W address mem dst h = Some (mem', h') /\
    sends h h' fs /\ map wire fs = flash_reads W address /\
    length mem' = length mem /\
    (forall j, (j < dst \/ dst + 2 * W <= j)%nat -> mem' !! j = mem !! j) /\
    (forall i, (i < 2 * W)%nat -> mem' !! (dst + i)%nat = answered fs !! i).
Proof.
  induction W as [|W IH]; intros address mem dst h Hlen.
  - exists [], mem, h. split; [reflexivity|]. split; [apply sends_refl|].
    repeat split; intros; lia.
  - cbn [hvpRdFlash_loop flash_reads].
    destruct (hvp_write__sends (u8 address) 0x0c h) as (v1 & S1).
    set (h1 := hvp_write_ (u8 address) 0x0c h) in *.
    destruct (hvp_write__sends (u8 (Z.shiftr (u16 address) 8)) 0x1c h1) as (v2 & S2).
    set (h2 := hvp_write_ _ 0x1c h1) in *.
    destruct (hvp_write__sends 0 0x68 h2) as (v3 & S3).
    set (h3 := hvp_write_ 0 0x68 h2) in *.
    destruct (hvp_write 0 0x6c h3) as [lo h4] eqn:E4.
    pose proof (hvp_write_sends_eq _ _ _ _ _ E4) as S4.
    rewrite store_in_range by lia. cbn [mbind option_bind].
    destruct (hvp_write__sends 0 0x78 h4) as (v5 & S5).
    set (h5 := hvp_write_ 0 0x78 h4) in *.
    destruct (hvp_write 0 0x7c h5) as [hi h6] eqn:E6.
    pose proof (hvp_write_sends_eq _ _ _ _ _ E6) as S6.
    rewrite store_in_range by (rewrite length_insert; lia). cbn [mbind option_bind].
    destruct (IH (u16 (address + 1)) (<[S dst:=hi]> (<[dst:=lo]> mem)) (S (S dst)) h6)
      as (fs & mem' & h' & Hrun & Hs & Hw & Hl & Hout & Hin).
    { rewrite !length_insert. lia. }
    rewrite !length_insert in Hl.
    destruct u8_literals as (L0 & Lc & L1c & L68 & L6c & L78 & L7c & L4c).
    rewrite L0, Lc, L1c, L68, L6c, L78, L7c in *.
    rewrite !(u8_id (u8 _)) in * by apply u8_range.
    eexists (_ :: _ :: _ :: _ :: _ :: _ :: fs), mem', h'.
    split; [exact Hrun|].
    split.
    { apply (sends_trans _ _ _ [_] _ S1). apply (sends_trans _ _ _ [_] _ S2).
      apply (sends_trans _ _ _ [_] _ S3). apply (sends_trans _ _ _ [_] _ S4).
      apply (sends_trans _ _ _ [_] _ S5). apply (sends_trans _ _ _ [_] _ S6).
      exact Hs. }
    split; [cbn [map wire f_sdi f_sii app]; rewrite Hw; reflexivity|].
    split; [exact Hl|].
    split.
    + intros j Hj. rewrite Hout by lia.
      rewrite !list_lookup_insert_ne by lia. reflexivity.
    + intros i Hi. unfold answered.
      cbn [List.filter is_answer f_sii Z.eqb Pos.eqb orb map f_sdo].
      destruct i as [|[|i]].
      * rewrite Nat.add_0_r, Hout by lia.
        rewrite list_lookup_insert_ne by lia.
        rewrite list_lookup_insert_eq by lia. reflexivity.
      * replace (dst + 1)%nat with (S dst) by lia. rewrite Hout by lia.
        rewrite list_lookup_insert_eq by (rewrite length_insert; lia). reflexivity.
      * replace (dst + S (S i))%nat with (S (S dst) + i)%nat by lia.
        rewrite Hin by lia. reflexivity.
Qed.

Lemma hvpRdFlash_heard W address mem dst h :
  (dst + 2 * W <= length mem)%nat ->
  exists fs mem' h',
    hvpRdFlash address W mem dst h = Some (mem', h') /\
    sends h h' fs /\
    map wire fs = [(0x02, 0x4c)] ++ flash_reads W address ++ [(0x00, 0x4c)] /\
    length mem' = length mem /\
    (forall j, (j < dst \/ dst + 2 * W <= j)%nat -> mem' !! j = mem !! j) /\
    (forall i, (i < 2 * W)%nat -> mem' !! (dst + i)%nat = answered fs !! i).
Proof.
  intros Hlen. unfold hvpRdFlash.
  destruct (hvp_write__sends 0x02 0x4c h) as (v1 & S1).
  set (h1 := hvp_write_ 0x02 0x4c h) in *.
  destruct (hvpRdFlash_loop_heard W address mem dst h1 Hlen)
    as (fs & mem' & h' & Hrun & Hs & Hw & Hl & Hout & Hin).
  rewrite Hrun. cbn [mbind option_bind].
  destruct (hvp_write__sends 0x00 0x4c h') as (v2 & S2).
  change (u8 2) with 2 in S1. change (u8 0) with 0 in S2.
  change (u8 0x4c) with 0x4c in S1, S2.
  exists (Frame 2 0x4c v1 :: fs ++ [Frame 0 0x4c v2]), mem', (hvp_write_ 0 0x4c h').
  split; [reflexivity|].
  split.
  { apply (sends_trans _ _ _ [_] _ S1). eapply sends_trans; [exact Hs|exact S2]. }
  split; [cbn [map wire f_sdi f_sii app]; rewrite map_app, Hw; reflexivity|].
  split; [exact Hl|]. split; [exact Hout|].
  intros i Hi. rewrite Hin by exact Hi. unfold answered.
  cbn [List.filter is_answer f_sii Z.eqb Pos.eqb orb].
  rewrite List.filter_app. cbn [List.filter is_answer f_sii Z.eqb Pos.eqb orb].
  rewrite app_nil_r. reflexivity.
Qed.

Lemma hvpRdEEPROM_loop_heard B : forall address mem dst h,
  (dst + B <= length mem)%nat ->
  exists fs mem' h',
    hvpRdEEPROM_loop B address mem dst h = Some (mem', h') /\
    sends h h' fs /\ map wire fs = eeprom_reads B address /\
    length mem' = length mem /\
    (forall j, (j < dst \/ dst + B <= j)%nat -> mem' !! j = mem !! j) /\
    (forall i, (i < B)%nat -> mem' !! (dst + i)%nat = answered fs !! i).
Proof.
  induction B as [|B IH]; intros address mem dst h Hlen.
  - exists [], mem, h. split; [reflexivity|]. split; [apply sends_refl|].
    repeat split; intros; lia.
  - cbn [hvpRdEEPROM_loop eeprom_reads].
    destruct (hvp_write__sends (u8 address) 0x0c h) as (v1 & S1).
    set (h1 := hvp_write_ (u8 address) 0x0c h) in *.
    destruct (hvp_write__sends (u8 (Z.shiftr (u16 address) 8)) 0x1c h1) as (v2 & S2).
    set (h2 := hvp_write_ _ 0x1c h1) in *.
    destruct (hvp_write__sends 0 0x68 h2) as (v3 & S3).
    set (h3 := hvp_write_ 0 0x68 h2) in *.
    destruct (hvp_write 0 0x6c h3) as [v h4] eqn:E4.
    pose proof (hvp_write_sends_eq _ _ _ _ _ E4) as S4.
    rewrite store_in_range by lia. cbn [mbind option_bind].
    destruct (IH (u16 (address + 1)) (<[dst:=v]> mem) (S dst) h4)
      as (fs & mem' & h' & Hrun & Hs & Hw & Hl & Hout & Hin).
    { rewrite !length_insert. lia. }
    rewrite !length_insert in Hl.
    destruct u8_literals as (L0 & Lc & L1c & L68 & L6c & L78 & L7c & L4c).
    rewrite L0, Lc, L1c, L68, L6c in *.
    rewrite !(u8_id (u8 _)) in * by apply u8_range.
    eexists (_ :: _ :: _ :: _ :: fs), mem', h'.
    split; [exact Hrun|].
    split.
    { apply (sends_trans _ _ _ [_] _ S1). apply (sends_trans _ _ _ [_] _ S2).
      apply (sends_trans _ _ _ [_] _ S3). apply (sends_trans _ _ _ [_] _ S4).
      exact Hs. }
    split; [cbn [map wire f_sdi f_sii app]; rewrite Hw; reflexivity|].
    split; [exact Hl|].
    split.
    + intros j Hj. rewrite Hout by lia.
      rewrite !list_lookup_insert_ne by lia. reflexivity.
    + intros i Hi. unfold answered.
      cbn [List.filter is_answer f_sii Z.eqb Pos.eqb orb map f_sdo].
      destruct i as [|i].
      * rewrite Nat.add_0_r, Hout by lia.
        rewrite list_lookup_insert_eq by lia. reflexivity.
      * replace (dst + S i)%nat with (S dst + i)%nat by lia.
        rewrite Hin by lia. reflexivity.
Qed.

Lemma hvpRdEEPROM_heard B address mem dst h :
  (dst + B <= length mem)%nat ->
  exists fs mem' h',
    hvpRdEEPROM address B mem dst h = Some (mem', h') /\
    sends h h' fs /\
    map wire fs = [(0x03, 0x4c)] ++ eeprom_reads B address ++ [(0x00, 0x4c)] /\
    length mem' = length mem /\
    (forall j, (j < dst \/ dst + B <= j)%nat -> mem' !! j = mem !! j) /\
    (forall i, (i < B)%nat -> mem' !! (dst + i)%nat = answered fs !! i).
Proof.
  intros Hlen. unfold hvpRdEEPROM.
  destruct (hvp_write__sends 0x03 0x4c h) as (v1 & S1).
  set (h1 := hvp_write_ 0x03 0x4c h) in *.
  destruct (hvpRdEEPROM_loop_heard B address mem dst h1 Hlen)
    as (fs & mem' & h' & Hrun & Hs & Hw & Hl & Hout & Hin).
  rewrite Hrun. cbn [mbind option_bind].
  destruct (hvp_write__sends 0x00 0x4c h') as (v2 & S2).
  change (u8 3) with 3 in S1. change (u8 0) with 0 in S2.
  change (u8 0x4c) with 0x4c in S1, S2.
  exists (Frame 3 0x4c v1 :: fs ++ [Frame 0 0x4c v2]), mem', (hvp_write_ 0 0x4c h').
  split; [reflexivity|].
  split.
  { apply (sends_trans _ _ _ [_] _ S1). eapply sends_trans; [exact Hs|exact S2]. }
  split; [cbn [map wire f_sdi f_sii app]; rewrite map_app, Hw; reflexivity|].
  split; [exact Hl|]. split; [exact Hout|].
  intros i Hi. rewrite Hin by exact Hi. unfold answered.
  cbn [List.filter is_answer f_sii Z.eqb Pos.eqb orb].
  rewrite List.filter_app. cbn [List.filter is_answer f_sii Z.eqb Pos.eqb orb].
  rewrite app_nil_r. reflexivity.
Qed.

Lemma eeprom_commit_transmits h :
  transmits h (eeprom_commit h) [(0, 0x64); (0, 0x6c)].
Proof. unfold eeprom_commit. transmit. Qed.

Lemma hvpWrEEPROM_loop_transmits B : forall address mem dst h,
  (dst + B <= length mem)%nat ->
  exists h', hvpWrEEPROM_loop B address mem dst h = Some h' /\
             transmits h h' (eeprom_bytes B address mem dst).
Proof.
  induction B as [|B IH]; intros address mem dst h Hlen.
  - exists h. split; [reflexivity|apply transmits_refl].
  - cbn [hvpWrEEPROM_loop eeprom_bytes].
    destruct (load_in_range mem dst) as [d Hd]; [lia|].
    rewrite Hd. cbn [mbind option_bind].
    rewrite (load_nth _ _ _ Hd).
    set (b := u8 address). set (a := u8 (Z.shiftr (u16 address) 8)).
    set (h1 := hvp_write_ 0 0x6c _).
    assert (H1 : transmits h h1 [(b, 0x0c); (a, 0x1c); (u8 d, 0x2c); (0, 0x6d); (0, 0x6c)]).
    { subst h1. eapply transmits_eq; [transmit_chain|]. cbn [app].
      subst a b. rewrite !(u8_id (u8 _)) by apply u8_range. reflexivity. }
    set (h2 := if hvp_eop b EEPROM_PAGE_MASK || (B =? 0)%nat then eeprom_commit h1 else h1).
    assert (H2 : transmits h1 h2
              (if (Z.land b 0x03 =? 0x03) || (B =? 0)%nat then [(0, 0x64); (0, 0x6c)] else [])).
    { subst h2. unfold hvp_eop, EEPROM_PAGE_MASK.
      destruct ((Z.land b 3 =? 3) || (B =? 0)%nat).
      - apply eeprom_commit_transmits.
      - apply transmits_refl. }
    destruct (IH (u16 (address + 1)) mem (S dst) h2) as (h' & Hh' & H3); [lia|].
    exists h'. split; [exact Hh'|].
    eapply transmits_trans; [exact H1|].
    eapply transmits_trans; [exact H2|exact H3].
Qed.

Lemma hvpWrEEPROM_transmits B address mem dst h :
  (dst + B <= length mem)%nat ->
  exists h', hvpWrEEPROM address B mem dst h = Some h' /\
             transmits h h' ([(0x11, 0x4c)] ++ eeprom_bytes B address mem dst ++ [(0, 0x4c)]).
Proof.
  intros Hlen. unfold hvpWrEEPROM.
  destruct (hvpWrEEPROM_loop_transmits B address mem dst (hvp_write_ 0x11 0x4c h) Hlen)
    as (h' & Hh' & Ht).
  rewrite Hh'. cbn [mbind option_bind]. eexists. split; [reflexivity|].
  eapply transmits_trans; [apply (hvp_write_transmits 0x11 0x4c)|].
  eapply transmits_trans; [exact Ht|apply (hvp_write_transmits 0 0x4c)].
Qed.

(** [putbn] writes the bytes of the buffer it is pointed at, in order *)
Lemma putbn_exact mem n : forall p st,
  (p + n <= length mem)%nat ->
  putbn mem p n st = Some (set_tx (tx st ++ map u8 (take n (drop p mem))) st).
Proof.
  induction n as [|n IH]; intros p st Hlen.
  - cbn [take map]. rewrite app_nil_r. destruct st; reflexivity.
  - change (putbn mem p (S n) st) with (c ← load mem p; putbn mem (S p) n (putch c st)).
    destruct (load_in_range mem p) as [c Hc]; [lia|].
    rewrite Hc. cbn [mbind option_bind]. rewrite IH by lia.
    unfold load in Hc.
    rewrite (drop_S _ _ _ Hc). cbn [take map].
    destruct st. cbv [putch set_tx tx hwst _mode address device extras buffer rx timeouts].
    rewrite <- app_assoc. reflexivity.
Qed.

(** *** Page requests and the buffer *)

Lemma words_of_length (v : Z) :
  0 <= v <= 256 ->
  int16 (Z.quot (int16 (v + 1)) 2) = (v + 1) / 2 /\ 0 <= (v + 1) / 2 <= 128 /\
  v <= 2 * ((v + 1) / 2).
Proof.
  intros Hv. rewrite (int16_id (v + 1)) by lia.
  rewrite Z.quot_div_nonneg by lia.
  pose proof (Z.div_mod (v + 1) 2 ltac:(lia)) as E.
  pose proof (Z.mod_pos_bound (v + 1) 2 ltac:(lia)) as Hm.
  rewrite int16_id by lia. split; [reflexivity|]. lia.
Qed.

(** a branch ends: the pass is over and the memory is as required *)
Ltac leaf :=
  eexists; split; [reflexivity|];
  unfold keeps; cbn [buffer device extras];
  repeat split; try assumption; try reflexivity.

Lemma prog_page_in_buffer (custom : state -> option state) (st : state)
    (c hi lo : Z) (r : list (option Z)) :
  length (buffer st) = sizeof_buffer -> is_u8 hi -> is_u8 lo ->
  256 * hi + lo <= 256 ->
  command_of (u8 c) = STK_PROG_PAGE ->
  rx st = Some c :: Some hi :: Some lo :: r ->
  exists st', loop custom st = Some st' /\
              keeps (Z.to_nat (256 * hi + lo + 2)) st st'.
Proof.
  intros Hb Hhi Hlo Hle Hcmd Hrx.
  destruct st as [h m a d e b r0 t k0]. cbn [rx buffer] in *. subst r0.
  unfold sizeof_buffer in Hb.
  unfold loop, ch_available, getch. cbn [rx].
  cbv [set_rx hwst _mode address device extras buffer rx tx timeouts].
  rewrite Hcmd. cbv beta iota delta [loop_case]. run.
  rewrite !u8_not_negative. rewrite (u8_id _ Hhi), (u8_id _ Hlo).
  rewrite page_length_value by assumption.
  rewrite Z.gtb_ltb.
  replace (256 <? 256 * hi + lo) with false by (symmetry; apply Z.ltb_ge; lia).
  assert (Hv : 0 <= 256 * hi + lo) by (unfold is_u8 in *; lia).
  set (v := 256 * hi + lo) in *.
  rewrite (u16_id (v + 2)) by (unfold is_u16; lia).
  set (st3 := State h m a d e b r t k0).
  destruct (getbn_total (Z.to_nat (v + 2)) b st3) as [[[c' mem'] st4] Hg]; [lia|].
  destruct (getbn_inv _ _ _ _ _ _ Hg) as (r' & k' & -> & Hl & Hfr & _).
  unfold GETN. change (buffer st3) with b. rewrite Hg. cbn [mbind option_bind].
  subst st3. clear Hg.
  rewrite ?set_programming_mode_query, ?set_programming_mode_off. run.
  destruct (c' <? 0); [leaf|]. destruct (c' =? CRC_EOP); [|leaf].
  destruct (m =? 0); [leaf|].
  unfold not_E_or_F. cbn [buffer].
  destruct (load_in_range mem' 0) as [b0 Hb0]; [lia|].
  rewrite Hb0. cbn [mbind option_bind].
  destruct (negb _); [leaf|]. run. rewrite ?Hb0. cbn [mbind option_bind].
  destruct (words_of_length v ltac:(lia)) as (Ew & Hw & _).
  destruct (b0 =? 70).
  - rewrite Ew. rewrite (u16_id ((v + 1) / 2)) by (unfold is_u16; lia).
    destruct (hvpWrFlash_transmits (Z.to_nat ((v + 1) / 2)) a mem' 1 h) as (h' & Hh' & _);
      [lia|].
    rewrite Hh'. cbn [mbind option_bind]. leaf.
  - rewrite (u16_id v) by (unfold is_u16; lia).
    destruct (hvpWrEEPROM_transmits (Z.to_nat v) a mem' 1 h) as (h' & Hh' & _); [lia|].
    rewrite Hh'. cbn [mbind option_bind]. leaf.
Qed.

Lemma read_page_in_buffer (custom : state -> option state) (st : state)
    (c hi lo : Z) (r : list (option Z)) :
  length (buffer st) = sizeof_buffer -> is_u8 hi -> is_u8 lo ->
  256 * hi + lo <= 256 ->
  command_of (u8 c) = STK_READ_PAGE ->
  rx st = Some c :: Some hi :: Some lo :: r ->
  exists st', loop custom st = Some st' /\
              keeps (Nat.max 2 (2 * Z.to_nat ((256 * hi + lo + 1) / 2))) st st'.
Proof.
  intros Hb Hhi Hlo Hle Hcmd Hrx.
  destruct st as [h m a d e b r0 t k0]. cbn [rx buffer] in *. subst r0.
  unfold sizeof_buffer in Hb.
  unfold loop, ch_available, getch. cbn [rx].
  cbv [set_rx hwst _mode address device extras buffer rx tx timeouts].
  rewrite Hcmd. cbv beta iota delta [loop_case]. run.
  rewrite !u8_not_negative. rewrite (u8_id _ Hhi), (u8_id _ Hlo).
  rewrite page_length_value by assumption.
  rewrite Z.gtb_ltb.
  replace (256 <? 256 * hi + lo) with false by (symmetry; apply Z.ltb_ge; lia).
  assert (Hv : 0 <= 256 * hi + lo) by (unfold is_u8 in *; lia).
  set (v := 256 * hi + lo) in *.
  set (st3 := State h m a d e b r t k0).
  destruct (getbn_total 2 b st3) as [[[c' mem'] st4] Hg]; [lia|].
  destruct (getbn_inv _ _ _ _ _ _ Hg) as (r' & k' & -> & Hl & Hfr & _).
  unfold GETN. change (buffer st3) with b. rewrite Hg. cbn [mbind option_bind].
  subst st3. clear Hg.
  rewrite ?set_programming_mode_query, ?set_programming_mode_off. run.
  assert (Hfr' : forall j, (Nat.max 2 (2 * Z.to_nat ((v + 1) / 2)) <= j)%nat ->
                           mem' !! j = b !! j) by (intros; apply Hfr; lia).
  destruct (c' <? 0); [leaf|]. destruct (c' =? CRC_EOP); [|leaf].
  destruct (m =? 0); [leaf|].
  unfold not_E_or_F. cbn [buffer].
  destruct (load_in_range mem' 0) as [b0 Hb0]; [lia|].
  rewrite Hb0. cbn [mbind option_bind].
  destruct (negb _); [leaf|]. run. rewrite ?Hb0. cbn [mbind option_bind].
  destruct (words_of_length v ltac:(lia)) as (Ew & Hw & Hev).
  destruct (b0 =? 70).
  - rewrite Ew. rewrite (u16_id ((v + 1) / 2)) by (unfold is_u16; lia).
    rewrite (u16_id ((v + 1) / 2 * 2)) by (unfold is_u16; lia).
    destruct (hvpRdFlash_heard (Z.to_nat ((v + 1) / 2)) a mem' 0 h)
      as (fs & mem2 & h' & Hrun & _ & _ & Hl2 & Hout & _); [lia|].
    rewrite Hrun. cbn [mbind option_bind]. run.
    rewrite putbn_exact by lia. cbn [mbind option_bind]. run.
    eexists; split; [reflexivity|].
    unfold keeps; cbn [buffer device extras].
    repeat split; [congruence|].
    intros j Hj. rewrite Hout by lia. apply Hfr. lia.
  - rewrite (u16_id v) by (unfold is_u16; lia).
    destruct (hvpRdEEPROM_heard (Z.to_nat v) a mem' 0 h)
      as (fs & mem2 & h' & Hrun & _ & _ & Hl2 & Hout & _); [lia|].
    rewrite Hrun. cbn [mbind option_bind]. run.
    rewrite putbn_exact by lia. cbn [mbind option_bind]. run.
    eexists; split; [reflexivity|].
    unfold keeps; cbn [buffer device extras].
    repeat split; [congruence|].
    intros j Hj. rewrite Hout by lia. apply Hfr. lia.
Qed.

(** A page program or page read request whose declared length is
    at most 256 never leaves the buffer: every pass through [loop] that
    starts with such a request completes without a memory fault, whatever
    follows on the serial line; the buffer keeps its 258 cells, and the
    cells it changes lie among the first length + 2 for a page program,
    among the first max 2 (2 * ceil (length / 2)) for a page read, both at
    most 258. *)
Theorem page_requests_stay_in_buffer (custom : state -> option state)
    (st : state) (c hi lo : Z) (r : list (option Z)) :
  wf st -> is_u8 hi -> is_u8 lo ->
  256 * hi + lo <= 256 ->
  command_of (u8 c) = STK_PROG_PAGE \/ command_of (u8 c) = STK_READ_PAGE ->
  rx st = Some c :: Some hi :: Some lo :: r ->
  (touched (command_of (u8 c)) (256 * hi + lo) <= sizeof_buffer)%nat /\
  exists st',
    loop custom st = Some st' /\ wf st' /\
    forall j, (touched (command_of (u8 c)) (256 * hi + lo) <= j)%nat ->
              buffer st' !! j = buffer st !! j.
Proof.
  intros (Hb & Hd & He) Hhi Hlo Hle Hcmd Hrx.
  assert (Hv : 0 <= 256 * hi + lo) by (unfold is_u8 in *; lia).
  destruct (words_of_length (256 * hi + lo) ltac:(lia)) as (_ & Hw & _).
  destruct Hcmd as [Hcmd|Hcmd].
  - destruct (prog_page_in_buffer custom st c hi lo r Hb Hhi Hlo Hle Hcmd Hrx)
      as (st' & Hrun & Hlen & Hd' & He' & Hfr).
    rewrite Hcmd. unfold touched, sizeof_buffer. split; [lia|].
    exists st'. split; [exact Hrun|]. split; [|exact Hfr].
    unfold wf. rewrite Hlen, Hd', He'. auto.
  - destruct (read_page_in_buffer custom st c hi lo r Hb Hhi Hlo Hle Hcmd Hrx)
      as (st' & Hrun & Hlen & Hd' & He' & Hfr).
    rewrite Hcmd. unfold touched, sizeof_buffer. split; [lia|].
    exists st'. split; [exact Hrun|]. split; [|exact Hfr].
    unfold wf. rewrite Hlen, Hd', He'. auto.
Qed.

(** a flash page program of three bytes, in programming mode *)
Lemma page_requests_stay_in_buffer_witness :
  exists st',
    loop no_custom
      (session 1 0 [Some 0x64; Some 0; Some 3; Some 0x46; Some 1; Some 2; Some 3;
                    Some 0x20]) = Some st' /\
    wf st' /\
    forall j, (5 <= j)%nat -> buffer st' !! j = repeat 0 258 !! j.
Proof.
  assert (Hwf : wf (session 1 0 [Some 0x64; Some 0; Some 3; Some 0x46; Some 1;
                                 Some 2; Some 3; Some 0x20])) by (repeat split).
  exact (proj2 (page_requests_stay_in_buffer no_custom _ 0x64 0 3 _ Hwf
                  ltac:(unfold is_u8; lia) ltac:(unfold is_u8; lia) ltac:(lia)
                  (or_introl eq_refl) eq_refl)).
Defined.

(** *** Byte order of the two-byte fields *)

Lemma load_address_little_endian (custom : state -> option state) (st : state)
    (b0 b1 : Z) (rest : list (option Z)) :
  is_u8 b0 -> is_u8 b1 ->
  rx st = Some 0x55 :: Some b0 :: Some b1 :: Some CRC_EOP :: rest ->
  exists st',
    loop custom st = Some st' /\
    address st' = b0 + 256 * b1 /\
    tx st' = tx st ++ [STK_INSYNC; STK_OK] /\ rx st' = rest.
Proof.
  intros H0 H1 Hrx.
  destruct st as [h m a d e b r0 t k0]. cbn [rx] in Hrx. subst r0.
  unfold loop, ch_available, getch. cbn [rx].
  cbv [set_rx hwst _mode address device extras buffer rx tx timeouts].
  change (command_of (u8 0x55)) with STK_LOAD_ADDRESS.
  cbv beta iota delta [loop_case]. run.
  rewrite !u8_not_negative. rewrite (u8_id _ H0), (u8_id _ H1).
  rewrite (u8_id _ sentinel_byte), sentinel_is_sentinel.
  eexists. split; [reflexivity|]. cbn [address tx rx].
  rewrite <- app_assoc.
  split; [|split; reflexivity].
  rewrite <- (load_address_value b0 b1 H0 H1). reflexivity.
Qed.

Lemma prog_page_big_endian (custom : state -> option state) (st : state)
    (hi lo ty : Z) (data : list Z) (rest : list (option Z)) :
  wf st -> is_u8 hi -> is_u8 lo -> _mode st <> 0 ->
  ty = 0x45 \/ ty = 0x46 ->
  Z.of_nat (length data) = 256 * hi + lo ->
  256 * hi + lo <= 256 ->
  rx st = Some 0x64 :: Some hi :: Some lo :: Some ty :: map Some data ++
          Some CRC_EOP :: rest ->
  exists st',
    loop custom st = Some st' /\
    tx st' = tx st ++ [STK_INSYNC; STK_OK] /\ rx st' = rest /\
    address st' = u16 (address st + page_advance ty (256 * hi + lo)).
Proof.
  intros (Hb & _ & _) Hhi Hlo Hm Hty Hlen Hle Hrx.
  destruct st as [h m a d e b r0 t k0]. cbn [rx buffer _mode address tx] in *. subst r0.
  unfold sizeof_buffer in Hb.
  unfold loop, ch_available, getch. cbn [rx].
  cbv [set_rx hwst _mode address device extras buffer rx tx timeouts].
  change (command_of (u8 0x64)) with STK_PROG_PAGE.
  cbv beta iota delta [loop_case]. run.
  rewrite !u8_not_negative. rewrite (u8_id _ Hhi), (u8_id _ Hlo).
  rewrite page_length_value by assumption.
  rewrite Z.gtb_ltb.
  replace (256 <? 256 * hi + lo) with false by (symmetry; apply Z.ltb_ge; lia).
  set (v := 256 * hi + lo) in *.
  assert (Hv : 0 <= v) by lia.
  rewrite (u16_id (v + 2)) by (unfold is_u16; lia).
  erewrite (GETN_frame _ (ty :: data) CRC_EOP _ rest);
    [ | cbn [length]; lia | reflexivity | cbn [buffer]; lia ].
  run. rewrite ?u8_not_negative.
  rewrite (u8_id _ sentinel_byte), sentinel_is_sentinel.
  rewrite ?set_programming_mode_query. run.
  rewrite (proj2 (Z.eqb_neq m 0) Hm).
  unfold not_E_or_F. cbn [buffer app map].
  change (load (u8 ty :: ?l) 0) with (Some (u8 ty)).
  cbn [mbind option_bind].
  destruct (words_of_length v ltac:(lia)) as (Ew & Hw & _).
  set (mem := u8 ty :: _).
  assert (Hmem : length mem = 258%nat).
  { subst mem. cbn [length]. rewrite length_app, length_map, length_app, length_drop.
    cbn [length]. lia. }
  unfold page_advance.
  destruct Hty as [-> | ->];
    change (u8 69) with 69; change (u8 70) with 70; cbn [Z.eqb Pos.eqb orb negb]; run.
  - rewrite (u16_id v) by (unfold is_u16; lia).
    destruct (hvpWrEEPROM_transmits (Z.to_nat v) a mem 1 h) as (h' & Hh' & _); [lia|].
    rewrite Hh'. cbn [mbind option_bind].
    eexists. split; [reflexivity|]. cbn [tx rx address].
    rewrite <- app_assoc. repeat split; reflexivity.
  - rewrite Ew. rewrite (u16_id ((v + 1) / 2)) by (unfold is_u16; lia).
    destruct (hvpWrFlash_transmits (Z.to_nat ((v + 1) / 2)) a mem 1 h) as (h' & Hh' & _);
      [lia|].
    rewrite Hh'. cbn [mbind option_bind].
    eexists. split; [reflexivity|]. cbn [tx rx address].
    rewrite <- app_assoc. repeat split; reflexivity.
Qed.

Lemma read_page_big_endian (custom : state -> option state) (st : state)
    (hi lo ty : Z) (rest : list (option Z)) :
  wf st -> is_u8 hi -> is_u8 lo -> _mode st <> 0 ->
  ty = 0x45 \/ ty = 0x46 ->
  256 * hi + lo <= 256 ->
  rx st = Some 0x74 :: Some hi :: Some lo :: Some ty :: Some CRC_EOP :: rest ->
  exists st' data,
    loop custom st = Some st' /\
    tx st' = tx st ++ [STK_INSYNC] ++ data ++ [STK_OK] /\
    Z.of_nat (length data) = page_returned ty (256 * hi + lo) /\
    rx st' = rest /\
    address st' = u16 (address st + page_advance ty (256 * hi + lo)).
Proof.
  intros (Hb & _ & _) Hhi Hlo Hm Hty Hle Hrx.
  destruct st as [h m a d e b r0 t k0]. cbn [rx buffer _mode address tx] in *. subst r0.
  unfold sizeof_buffer in Hb.
  unfold loop, ch_available, getch. cbn [rx].
  cbv [set_rx hwst _mode address device extras buffer rx tx timeouts].
  change (command_of (u8 0x74)) with STK_READ_PAGE.
  cbv beta iota delta [loop_case]. run.
  rewrite !u8_not_negative. rewrite (u8_id _ Hhi), (u8_id _ Hlo).
  rewrite page_length_value by assumption.
  rewrite Z.gtb_ltb.
  replace (256 <? 256 * hi + lo) with false by (symmetry; apply Z.ltb_ge; lia).
  assert (Hv : 0 <= 256 * hi + lo) by (unfold is_u8 in *; lia).
  set (v := 256 * hi + lo) in *.
  erewrite (GETN_frame _ [ty] CRC_EOP _ rest);
    [ | cbn [length]; lia | reflexivity | cbn [buffer]; lia ].
  run. rewrite ?u8_not_negative.
  rewrite (u8_id _ sentinel_byte), sentinel_is_sentinel.
  rewrite ?set_programming_mode_query. run.
  rewrite (proj2 (Z.eqb_neq m 0) Hm).
  unfold not_E_or_F. cbn [buffer app map].
  change (load (u8 ty :: ?l) 0) with (Some (u8 ty)).
  cbn [mbind option_bind].
  destruct (words_of_length v ltac:(lia)) as (Ew & Hw & _).
  set (mem := u8 ty :: _).
  assert (Hmem : length mem = 258%nat).
  { subst mem. cbn [length]. rewrite length_drop. lia. }
  unfold page_advance, page_returned.
  destruct Hty as [-> | ->];
    change (u8 69) with 69; change (u8 70) with 70; cbn [Z.eqb Pos.eqb orb negb]; run.
  - rewrite (u16_id v) by (unfold is_u16; lia).
    destruct (hvpRdEEPROM_heard (Z.to_nat v) a mem 0 h)
      as (fs & mem2 & h' & Hrun & _ & _ & Hl2 & _); [lia|].
    rewrite Hrun. cbn [mbind option_bind]. run.
    rewrite putbn_exact by lia. cbn [mbind option_bind]. run.
    eexists. exists (map u8 (take (Z.to_nat v) (drop 0 mem2))).
    split; [reflexivity|]. cbn [tx rx address].
    rewrite <- !app_assoc. split; [reflexivity|].
    split; [|split; reflexivity].
    rewrite length_map, length_take, length_drop. lia.
  - rewrite Ew. rewrite (u16_id ((v + 1) / 2)) by (unfold is_u16; lia).
    rewrite (u16_id ((v + 1) / 2 * 2)) by (unfold is_u16; lia).
    destruct (hvpRdFlash_heard (Z.to_nat ((v + 1) / 2)) a mem 0 h)
      as (fs & mem2 & h' & Hrun & _ & _ & Hl2 & _); [lia|].
    rewrite Hrun. cbn [mbind option_bind]. run.
    rewrite putbn_exact by lia. cbn [mbind option_bind]. run.
    eexists. exists (map u8 (take (Z.to_nat ((v + 1) / 2 * 2)) (drop 0 mem2))).
    split; [reflexivity|]. cbn [tx rx address].
    rewrite <- !app_assoc. split; [reflexivity|].
    split; [|split; reflexivity].
    rewrite length_map, length_take, length_drop. lia.
Qed.

(** C8 (as the sketch has it).  The operand of the load-address command
    is received least significant byte first: the address becomes the
    first byte plus 256 times the second.  The length of a page program
    or page read is received most significant byte first: in programming
    mode a page program of memory type E or F consumes 256 * hi + lo data
    bytes, a page read returns that many (made even for flash), and both
    advance the address by that length, in words for flash. *)
Theorem address_little_endian_length_big_endian (custom : state -> option state) :
  (forall st b0 b1 rest,
     is_u8 b0 -> is_u8 b1 ->
     rx st = Some 0x55 :: Some b0 :: Some b1 :: Some CRC_EOP :: rest ->
     exists st',
       loop custom st = Some st' /\
       address st' = b0 + 256 * b1 /\
       tx st' = tx st ++ [STK_INSYNC; STK_OK] /\ rx st' = rest) /\
  (forall st hi lo ty data rest,
     wf st -> is_u8 hi -> is_u8 lo -> _mode st <> 0 ->
     ty = 0x45 \/ ty = 0x46 ->
     Z.of_nat (length data) = 256 * hi + lo ->
     256 * hi + lo <= 256 ->
     rx st = Some 0x64 :: Some hi :: Some lo :: Some ty :: map Some data ++
             Some CRC_EOP :: rest ->
     exists st',
       loop custom st = Some st' /\
       tx st' = tx st ++ [STK_INSYNC; STK_OK] /\ rx st' = rest /\
       address st' = u16 (address st + page_advance ty (256 * hi + lo))) /\
  (forall st hi lo ty rest,
     wf st -> is_u8 hi -> is_u8 lo -> _mode st <> 0 ->
     ty = 0x45 \/ ty = 0x46 ->
     256 * hi + lo <= 256 ->
     rx st = Some 0x74 :: Some hi :: Some lo :: Some ty :: Some CRC_EOP :: rest ->
     exists st' data,
       loop custom st = Some st' /\
       tx st' = tx st ++ [STK_INSYNC] ++ data ++ [STK_OK] /\
       Z.of_nat (length data) = page_returned ty (256 * hi + lo) /\
       rx st' = rest /\
       address st' = u16 (address st + page_advance ty (256 * hi + lo))).
Proof.
  split; [|split].
  - intros. eapply load_address_little_endian; eassumption.
  - intros. eapply prog_page_big_endian; eassumption.
  - intros. eapply read_page_big_endian; eassumption.
Qed.

(** an EEPROM page read of 256 = 0x0100 bytes *)
Lemma address_little_endian_length_big_endian_witness :
  exists st' data,
    loop no_custom
      (session 1 7 [Some 0x74; Some 1; Some 0; Some 0x45; Some 0x20]) = Some st' /\
    tx st' = [STK_INSYNC] ++ data ++ [STK_OK] /\
    Z.of_nat (length data) = 256 /\
    rx st' = [] /\
    address st' = 263.
Proof.
  assert (Hwf : wf (session 1 7 [Some 0x74; Some 1; Some 0; Some 0x45; Some 0x20]))
    by (repeat split).
  exact (proj2 (proj2 (address_little_endian_length_big_endian no_custom))
           (session 1 7 [Some 0x74; Some 1; Some 0; Some 0x45; Some 0x20])
           1 0 0x45 [] Hwf ltac:(unfold is_u8; lia) ltac:(unfold is_u8; lia)
           ltac:(discriminate) (or_introl eq_refl) ltac:(lia) eq_refl).
Defined.

(** load address with the bytes 0x12, 0x34: read big-endian the address
    would be 0x1234 *)
Lemma address_little_endian_length_big_endian_counterexample :
  exists st',
    loop no_custom (session 0 0 [Some 0x55; Some 0x12; Some 0x34; Some 0x20]) = Some st' /\
    tx st' = [STK_INSYNC; STK_OK] /\
    address st' = 0x3412 /\ address st' <> 0x1234.
Proof.
  eexists. split; [reflexivity|]. repeat split. discriminate.
Qed.

(** *** Read data memory *)

(** C5 (what the sketch does).  In programming mode the command 0x71,
    well framed, runs the flash read of one word at the address: the
    target is sent the read-flash command (0x02, 0x4c) and the frames of
    one flash word, never the read-EEPROM command (0x03, 0x4c); the reply
    is in-sync, the low byte of that flash word, ok, and the address
    advances by one. *)
Theorem read_data_reads_flash (custom : state -> option state) (st : state)
    (rest : list (option Z)) :
  wf st -> _mode st <> 0 ->
  rx st = Some 0x71 :: Some CRC_EOP :: rest ->
  exists st' b,
    loop custom st = Some st' /\
    sent (emitted (hwst st) (hwst st')) =
      [(0x02, 0x4c); (u8 (address st), 0x0c);
       (u8 (Z.shiftr (u16 (address st)) 8), 0x1c);
       (0, 0x68); (0, 0x6c); (0, 0x78); (0, 0x7c); (0, 0x4c)] /\
    answered (decode (emitted (hwst st) (hwst st'))) !! 0%nat = Some b /\
    tx st' = tx st ++ [STK_INSYNC; u8 b; STK_OK] /\
    address st' = u16 (address st + 1) /\
    rx st' = rest.
Proof.
  intros (Hb & _ & _) Hm Hrx.
  destruct st as [h m a d e b r0 t k0]. cbn [rx buffer _mode address tx hwst] in *.
  subst r0. unfold sizeof_buffer in Hb.
  unfold loop, ch_available, getch. cbn [rx].
  cbv [set_rx hwst _mode address device extras buffer rx tx timeouts].
  change (command_of (u8 0x71)) with STK_READ_DATA.
  cbv beta iota delta [loop_case]. run.
  rewrite !u8_not_negative.
  rewrite (u8_id _ sentinel_byte), sentinel_is_sentinel.
  rewrite ?set_programming_mode_query. run.
  rewrite (proj2 (Z.eqb_neq m 0) Hm).
  destruct (hvpRdFlash_heard 1 a b 0 h)
    as (fs & mem' & h' & Hrun & Hs & Hw & Hl & _ & Hin); [lia|].
  rewrite Hrun. cbn [mbind option_bind].
  destruct (load_in_range mem' 0) as [b0 Hb0]; [lia|].
  rewrite Hb0. cbn [mbind option_bind].
  exists (State h' m (u16 (a + 1)) d e mem' rest
            (((t ++ [u8 STK_INSYNC]) ++ [u8 b0]) ++ [u8 STK_OK]) k0), b0.
  split; [reflexivity|]. cbn [hwst tx address rx].
  unfold sent. rewrite (sends_decode _ _ _ Hs).
  change (map (fun f => (f_sdi f, f_sii f)) fs) with (map wire fs). rewrite Hw.
  split; [reflexivity|].
  split; [rewrite <- (Hin 0%nat) by lia; exact Hb0|].
  rewrite <- !app_assoc. repeat split; reflexivity.
Qed.

(** the request 0x71 0x20 at address 5 on the bench *)
Lemma read_data_reads_flash_witness :
  exists st' b,
    loop no_custom (session 1 5 [Some 0x71; Some 0x20]) = Some st' /\
    sent (emitted bench (hwst st')) =
      [(0x02, 0x4c); (5, 0x0c); (0, 0x1c);
       (0, 0x68); (0, 0x6c); (0, 0x78); (0, 0x7c); (0, 0x4c)] /\
    answered (decode (emitted bench (hwst st'))) !! 0%nat = Some b /\
    tx st' = [STK_INSYNC; u8 b; STK_OK] /\
    address st' = 6 /\
    rx st' = [].
Proof.
  assert (Hwf : wf (session 1 5 [Some 0x71; Some 0x20])) by (repeat split).
  exact (read_data_reads_flash no_custom (session 1 5 [Some 0x71; Some 0x20]) []
           Hwf ltac:(discriminate) eq_refl).
Defined.

(** ** Further properties of the sequencer *)





Lemma hvpProgramMode_lines h : lines (hvpProgramMode h) = program_lines.
Proof.
  rewrite hvpProgramMode_replay, replay_lines.
  destruct (lines h) as [[? ?] [? ?] [? ?] [? ?] [? ?] [? ?]].
  reflexivity.
Qed.

(** Whatever the lines were, [hvpProgramMode] ends with the supply on,
    the reset transistor off (12 V on the target's reset pin), SDI and SII
    driven low and SDO released; the supply is switched on exactly once,
    at a moment when SDI, SII and SDO are all driven low and reset is
    held; the clock stays low throughout, and [hvpStandbyMode] afterwards
    restores the standby configuration. *)
Theorem program_mode_power_sequence (h : hw) :
  lines (hvpProgramMode h) = program_lines /\
  lines (hvpStandbyMode (hvpProgramMode h)) = standby_lines /\
  clock_pulses (emitted h (hvpStandbyMode (hvpProgramMode h))) = 0%nat /\
  decode (emitted h (hvpStandbyMode (hvpProgramMode h))) = [] /\
  exists pre post,
    emitted h (hvpProgramMode h) = pre ++ EvWrite VCC HIGH :: post /\
    lines (replay pre h) = power_up_lines /\
    List.filter is_power_on (pre ++ post) = [].
Proof.
  split; [apply hvpProgramMode_lines|].
  split; [apply hvpStandbyMode_lines|].
  split; [|split].
  - rewrite hvpStandbyMode_replay, hvpProgramMode_replay, <- replay_app, emitted_replay.
    reflexivity.
  - apply sends_decode.
    apply (sends_trans _ _ _ [] [] (hvpProgramMode_sends h) (hvpStandbyMode_sends _)).
  - rewrite hvpProgramMode_replay, emitted_replay.
    exists (firstn 13 program_events), (skipn 14 program_events).
    split; [reflexivity|]. split; [|reflexivity].
    rewrite replay_lines.
    destruct (lines h) as [[? ?] [? ?] [? ?] [? ?] [? ?] [? ?]].
    reflexivity.
Qed.







(** [hvpRdFlash] sends the read-flash command and, per word, the address
    and the two read instructions; it stores the bytes the target
    answered with, low byte first, from the given offset on, and leaves
    the rest of the buffer alone. *)
Theorem flash_read_fills_buffer (address : Z) (W : nat) (mem : list Z) (dst : nat) (h : hw) :
  (dst + 2 * W <= length mem)%nat ->
  exists mem' h',
    hvpRdFlash address W mem dst h = Some (mem', h') /\
    sent (emitted h h') = [(0x02, 0x4c)] ++ flash_reads W address ++ [(0x00, 0x4c)] /\
    length mem' = length mem /\
    (forall j, (j < dst \/ dst + 2 * W <= j)%nat -> mem' !! j = mem !! j) /\
    (forall i, (i < 2 * W)%nat ->
       mem' !! (dst + i)%nat = answered (decode (emitted h h')) !! i).
Proof.
  intros Hlen.
  destruct (hvpRdFlash_heard W address mem dst h Hlen)
    as (fs & mem' & h' & Hrun & Hs & Hw & Hl & Hout & Hin).
  exists mem', h'. split; [exact Hrun|].
  unfold sent. rewrite (sends_decode _ _ _ Hs).
  split; [exact Hw|]. split; [exact Hl|]. split; [exact Hout|exact Hin].
Qed.

Lemma flash_read_fills_buffer_witness :
  exists mem' h',
    hvpRdFlash 0x1ff 2 [7; 7; 7; 7; 7; 7] 1 bench = Some (mem', h') /\
    sent (emitted bench h') =
      [(0x02, 0x4c);
       (0xff, 0x0c); (0x01, 0x1c); (0, 0x68); (0, 0x6c); (0, 0x78); (0, 0x7c);
       (0x00, 0x0c); (0x02, 0x1c); (0, 0x68); (0, 0x6c); (0, 0x78); (0, 0x7c);
       (0x00, 0x4c)] /\
    length mem' = 6%nat /\
    (forall j, (j < 1 \/ 1 + 2 * 2 <= j)%nat -> mem' !! j = [7; 7; 7; 7; 7; 7] !! j) /\
    (forall i, (i < 2 * 2)%nat ->
       mem' !! (1 + i)%nat = answered (decode (emitted bench h')) !! i).
Proof.
  exact (flash_read_fills_buffer 0x1ff 2 [7; 7; 7; 7; 7; 7] 1 bench
           ltac:(cbn [length]; lia)).
Defined.

(** [hvpRdEEPROM] sends the read-EEPROM command and, per byte, the
    address and the read instruction; it stores the bytes the target
    answered with from the given offset on, and leaves the rest of the
    buffer alone. *)
Theorem eeprom_read_fills_buffer (address : Z) (B : nat) (mem : list Z) (dst : nat) (h : hw) :
  (dst + B <= length mem)%nat ->
  exists mem' h',
    hvpRdEEPROM address B mem dst h = Some (mem', h') /\
    sent (emitted h h') = [(0x03, 0x4c)] ++ eeprom_reads B address ++ [(0x00, 0x4c)] /\
    length mem' = length mem /\
    (forall j, (j < dst \/ dst + B <= j)%nat -> mem' !! j = mem !! j) /\
    (forall i, (i < B)%nat ->
       mem' !! (dst + i)%nat = answered (decode (emitted h h')) !! i).
Proof.
  intros Hlen.
  destruct (hvpRdEEPROM_heard B address mem dst h Hlen)
    as (fs & mem' & h' & Hrun & Hs & Hw & Hl & Hout & Hin).
  exists mem', h'. split; [exact Hrun|].
  unfold sent. rewrite (sends_decode _ _ _ Hs).
  split; [exact Hw|]. split; [exact Hl|]. split; [exact Hout|exact Hin].
Qed.

Lemma eeprom_read_fills_buffer_witness :
  exists mem' h',
    hvpRdEEPROM 0xffff 2 [7; 7; 7] 0 bench = Some (mem', h') /\
    sent (emitted bench h') =
      [(0x03, 0x4c);
       (0xff, 0x0c); (0xff, 0x1c); (0, 0x68); (0, 0x6c);
       (0x00, 0x0c); (0x00, 0x1c); (0, 0x68); (0, 0x6c);
       (0x00, 0x4c)] /\
    length mem' = 3%nat /\
    (forall j, (j < 0 \/ 0 + 2 <= j)%nat -> mem' !! j = [7; 7; 7] !! j) /\
    (forall i, (i < 2)%nat ->
       mem' !! (0 + i)%nat = answered (decode (emitted bench h')) !! i).
Proof.
  exact (eeprom_read_fills_buffer 0xffff 2 [7; 7; 7] 0 bench ltac:(cbn [length]; lia)).
Defined.

(** [hvpFetchEEPROM] is [hvpRdEEPROM] for one byte: the same board
    afterwards, and the byte returned is the byte stored. *)
Theorem fetch_is_read_of_one_byte (address : Z) (mem : list Z) (dst : nat) (h : hw) :
  (dst < length mem)%nat ->
  hvpRdEEPROM address 1 mem dst h =
  Some (<[dst := fst (hvpFetchEEPROM address h)]> mem, snd (hvpFetchEEPROM address h)).
Proof.
  intros Hlen. unfold hvpRdEEPROM, hvpFetchEEPROM.
  cbv beta iota zeta delta [hvpRdEEPROM_loop].
  destruct (hvp_write 0 108 _) as [v h4].
  rewrite store_in_range by exact Hlen. cbn [mbind option_bind fst snd]. reflexivity.
Qed.

Lemma fetch_is_read_of_one_byte_witness :
  hvpRdEEPROM 0x21 1 [7; 7; 7] 2 bench =
  Some (<[2%nat := fst (hvpFetchEEPROM 0x21 bench)]> [7; 7; 7],
        snd (hvpFetchEEPROM 0x21 bench)).
Proof.
  exact (fetch_is_read_of_one_byte 0x21 [7; 7; 7] 2 bench ltac:(cbn [length]; lia)).
Defined.




(** ** Further properties of the serial helpers *)

Lemma getbn_loop_prefix bs : forall m c0 pre old post st rest,
  rx st = map Some bs ++ rest ->
  length old = length bs ->
  getbn_loop (length bs + m) c0 (pre ++ old ++ post) (length pre) st =
  getbn_loop m (default c0 (last (map u8 bs))) (pre ++ map u8 bs ++ post)
             (length pre + length bs) (set_rx rest st).
Proof.
  induction bs as [|x bs IH]; intros m c0 pre old post st rest Hrx Hlen.
  - destruct old; [|discriminate]. cbn in Hrx |- *. rewrite <- Hrx, set_rx_rx.
    rewrite Nat.add_0_r. reflexivity.
  - destruct old as [|o old]; [discriminate|]. cbn [length] in Hlen.
    cbn [length Nat.add getbn_loop]. unfold getch. rewrite Hrx. cbn [map app].
    rewrite u8_not_negative.
    rewrite store_in_range by (rewrite length_app; cbn [length]; lia).
    cbn [mbind option_bind].
    replace (<[length pre:=u8 (u8 x)]> (pre ++ o :: old ++ post))
      with ((pre ++ [u8 x]) ++ old ++ post).
    + replace (S (length pre)) with (length (pre ++ [u8 x]))
        by (rewrite length_app; cbn; lia).
      rewrite (IH m (u8 x) (pre ++ [u8 x]) old post _ rest); [|reflexivity|lia].
      rewrite set_rx_set_rx, <- app_assoc. cbn [app].
      rewrite length_app. cbn [length].
      replace (length pre + 1 + length bs)%nat with (length pre + S (length bs))%nat by lia.
      f_equal. rewrite last_cons. destruct (last (map u8 bs)); reflexivity.
    + rewrite <- app_assoc. cbn [app].
      replace (length pre) with (length pre + 0)%nat at 1 by lia.
      rewrite insert_app_r. cbn. rewrite (u8_id (u8 x)) by apply u8_range. reflexivity.
Qed.

Lemma getbn_loop_silent m c0 mem p st :
  silent (rx st) ->
  getbn_loop (S m) c0 mem p st = Some (-1, mem, tick_timeout (set_rx (tl (rx st)) st)).
Proof.
  intros Hs. cbn [getbn_loop]. unfold getch.
  destruct (rx st) as [|[c|] r] eqn:Hrx; [|destruct Hs|].
  - cbn [tl]. rewrite <- Hrx, set_rx_rx. reflexivity.
  - reflexivity.
Qed.

(** [getbn] stores the bytes that arrive, in order, from the start of the
    memory it is given and touches nothing else.  When all [n] bytes
    arrive it returns the last one; when the line falls silent before
    that, it returns -1 at once, having used up one 900 ms window, and the
    bytes received so far stay stored. *)
Theorem getbn_stores_what_arrives (bs : list Z) (mem : list Z) (n : nat) (st : state)
    (rest : list (option Z)) :
  rx st = map Some bs ++ rest ->
  (n <= length mem)%nat ->
  (length bs = n ->
     getbn mem n st =
     Some (default 0 (last (map u8 bs)), map u8 bs ++ drop n mem, set_rx rest st)) /\
  ((length bs < n)%nat -> silent rest ->
     getbn mem n st =
     Some (-1, map u8 bs ++ drop (length bs) mem, tick_timeout (set_rx (tl rest) st))).
Proof.
  intros Hrx Hn. split.
  - intros <-. apply getbn_exact; assumption.
  - intros Hlt Hs. unfold getbn.
    replace n with (length bs + S (n - length bs - 1))%nat at 1 by lia.
    rewrite <- (take_drop (length bs) mem) at 1.
    etransitivity;
      [apply (getbn_loop_prefix bs (S (n - length bs - 1)) 0 [] (take (length bs) mem)
                (drop (length bs) mem) st rest Hrx); rewrite length_take; lia|].
    rewrite getbn_loop_silent by exact Hs.
    cbn [app rx set_rx]. reflexivity.
Qed.

(** two of four bytes arrive *)
Lemma getbn_stores_what_arrives_witness :
  getbn [9; 9; 9; 9; 9] 2 (session 0 0 [Some 0x141; Some 2; None; Some 3]) =
    Some (2, [0x41; 2; 9; 9; 9], session 0 0 [None; Some 3]) /\
  getbn [9; 9; 9; 9; 9] 4 (session 0 0 [Some 0x141; Some 2; None; Some 3]) =
    Some (-1, [0x41; 2; 9; 9; 9], tick_timeout (session 0 0 [Some 3])).
Proof.
  split.
  - exact (proj1 (getbn_stores_what_arrives [0x141; 2] [9; 9; 9; 9; 9] 2
                    (session 0 0 [Some 0x141; Some 2; None; Some 3]) [None; Some 3]
                    eq_refl ltac:(cbn [length]; lia)) eq_refl).
  - exact (proj2 (getbn_stores_what_arrives [0x141; 2] [9; 9; 9; 9; 9] 4
                    (session 0 0 [Some 0x141; Some 2; None; Some 3]) [None; Some 3]
                    eq_refl ltac:(cbn [length]; lia)) ltac:(cbn [length]; lia) I).
Defined.

Lemma map_u8_idem (bs : list Z) : map u8 (map u8 bs) = map u8 bs.
Proof.
  rewrite map_map. apply map_ext. intros x. apply u8_id, u8_range.
Qed.

(** What [getbn] has stored, [putbn] sends back: the bytes received,
    each cut to eight bits, in order. *)
Theorem putbn_echoes_getbn (bs : list Z) (mem : list Z) (st : state)
    (rest : list (option Z)) :
  rx st = map Some bs ++ rest ->
  (length bs <= length mem)%nat ->
  exists c mem' st1,
    getbn mem (length bs) st = Some (c, mem', st1) /\
    putbn mem' 0 (length bs) st1 =
    Some (set_tx (tx st ++ map u8 bs) (set_rx rest st)).
Proof.
  intros Hrx Hlen. eexists _, _, _.
  split; [apply getbn_exact; eassumption|].
  rewrite putbn_exact
    by (rewrite length_app, length_map, length_drop; lia).
  rewrite drop_0. rewrite take_app_length' by (rewrite length_map; reflexivity).
  rewrite map_u8_idem. reflexivity.
Qed.

Lemma putbn_echoes_getbn_witness :
  exists c mem' st1,
    getbn [9; 9; 9] 2 (session 0 0 [Some 0x141; Some 2; Some 3]) = Some (c, mem', st1) /\
    putbn mem' 0 2 st1 = Some (set_tx [0x41; 2] (session 0 0 [Some 3])).
Proof.
  exact (putbn_echoes_getbn [0x141; 2] [9; 9; 9]
           (session 0 0 [Some 0x141; Some 2; Some 3]) [Some 3] eq_refl
           ltac:(cbn [length]; lia)).
Defined.

(** ** Further properties of the bridge *)

Lemma answered_one t tok : is_status tok = true -> answered_from t (t ++ [tok]).
Proof. intros H. exists [], tok. split; [reflexivity|exact H]. Qed.

Lemma answered_more t xs t' : answered_from (t ++ xs) t' -> answered_from t t'.
Proof.
  intros (bs & tok & -> & H). exists (xs ++ bs), tok.
  split; [rewrite <- !app_assoc; reflexivity|exact H].
Qed.

(** The board and the flag are left alone by every command that is not
    asked to touch them: by the house-keeping commands always, and by
    every command but enter and leave while the flag is off, as long as
    no read timed out. *)
Theorem board_idle_unless_asked (custom : state -> option state) (st st' : state)
    (c : Z) (r : list (option Z)) :
  rx st = Some c :: r ->
  command_of (u8 c) <> CUSTOM_FUSE_CMD ->
  command_of (u8 c) <> STK_ENTER_PROGMODE ->
  command_of (u8 c) <> STK_LEAVE_PROGMODE ->
  is_housekeeping (command_of (u8 c)) = true \/ _mode st = 0 ->
  loop custom st = Some st' ->
  timeouts st' = timeouts st ->
  hwst st' = hwst st /\ _mode st' = _mode st.
Proof.
  intros Hrx Hc1 Hc2 Hc3 Hcase H Hto. unfold loop, ch_available in H. rewrite Hrx in H.
  unfold getch in H. rewrite Hrx in H.
  destruct st as [h m a d e b r0 t k0]. cbn in Hrx. subst r0.
  cbv [set_rx hwst _mode address device extras buffer rx tx timeouts] in H.
  cbn [hwst _mode timeouts] in *.
  destruct (command_of (u8 c)) eqn:Hc; try congruence; clear Hc Hc1 Hc2 Hc3 c.
  all: destruct Hcase as [Hk|Hm]; [try discriminate Hk|try subst m].
  all: seal H; crunch H.
  all: injection H as <-; plumb_in Hto; cbn [Nat.add] in Hto; plumb.
  all: first [ split; reflexivity | exfalso; lia ].
Qed.

Lemma board_idle_unless_asked_witness :
  exists st',
    loop no_custom (session 0 0 [Some 0x75; Some 0x20]) = Some st' /\
    hwst st' = bench /\ _mode st' = 0.
Proof.
  eexists. split; [reflexivity|].
  exact (board_idle_unless_asked no_custom (session 0 0 [Some 0x75; Some 0x20]) _
           0x75 [Some 0x20] eq_refl ltac:(discriminate) ltac:(discriminate)
           ltac:(discriminate) (or_intror eq_refl) eq_refl eq_refl).
Defined.

(** Every pass that reads a command byte other than the interactive one
    sends a reply, and the reply ends in one of the status tokens ok,
    failed, unknown, no-device, no-sync; what was sent before stays. *)
Theorem every_command_is_answered (custom : state -> option state) (st st' : state)
    (c : Z) (r : list (option Z)) :
  rx st = Some c :: r ->
  command_of (u8 c) <> CUSTOM_FUSE_CMD ->
  loop custom st = Some st' ->
  answered_from (tx st) (tx st').
Proof.
  intros Hrx Hcmd H. unfold loop, ch_available in H. rewrite Hrx in H.
  unfold getch in H. rewrite Hrx in H.
  destruct st as [h m a d e b r0 t k0]. cbn in Hrx. subst r0.
  cbv [set_rx hwst _mode address device extras buffer rx tx timeouts] in H.
  cbn [tx] in *.
  destruct (command_of (u8 c)) eqn:Hc; [congruence|..]; clear Hc Hcmd c.
  all: seal H; crunch H.
  all: injection H as <-; plumb.
  all: repeat first [ apply answered_one; reflexivity | eapply answered_more ].
Qed.

Lemma every_command_is_answered_witness :
  exists st',
    loop no_custom (session 0 0 [Some 0x31; Some 0x20]) = Some st' /\
    answered_from [] (tx st').
Proof.
  eexists. split; [reflexivity|].
  exact (every_command_is_answered no_custom (session 0 0 [Some 0x31; Some 0x20]) _
           0x31 [Some 0x20] eq_refl ltac:(discriminate) eq_refl).
Defined.

(** Whatever the interactive fuse dialogue does, the pass that ran it
    ends in standby: the flag is off and the lines are in the standby
    configuration; [loop] itself sends nothing and reads nothing more. *)
Theorem custom_command_ends_in_standby (custom : state -> option state) (st st1 : state)
    (c : Z) (r : list (option Z)) :
  rx st = Some c :: r ->
  command_of (u8 c) = CUSTOM_FUSE_CMD ->
  custom (set_rx r st) = Some st1 ->
  exists st',
    loop custom st = Some st' /\
    _mode st' = 0 /\ lines (hwst st') = standby_lines /\
    hwst st' = hvpStandbyMode (hwst st1) /\
    tx st' = tx st1 /\ rx st' = rx st1 /\ address st' = address st1.
Proof.
  intros Hrx Hcmd Hcustom. unfold loop, ch_available, getch. rewrite Hrx, Hcmd.
  cbv beta iota delta [loop_case]. rewrite Hcustom. cbn [mbind option_bind].
  rewrite set_programming_mode_off. eexists. split; [reflexivity|].
  cbn [snd]. destruct st1. cbv [call set_mode set_hwst hwst _mode tx rx address].
  split; [reflexivity|]. split; [apply hvpStandbyMode_lines|].
  split; [reflexivity|]. split; [reflexivity|]. split; reflexivity.
Qed.

Lemma custom_command_ends_in_standby_witness :
  exists st',
    loop no_custom (session 1 0 [Some 0x5A; Some 0x31]) = Some st' /\
    _mode st' = 0 /\ lines (hwst st') = standby_lines /\
    hwst st' = hvpStandbyMode bench /\
    tx st' = [] /\ rx st' = [Some 0x31] /\ address st' = 0.
Proof.
  exact (custom_command_ends_in_standby no_custom (session 1 0 [Some 0x5A; Some 0x31])
           (session 1 0 [Some 0x31]) 0x5A [Some 0x31] eq_refl eq_refl eq_refl).
Defined.

(** Enter programming mode, well framed.  Without a device (device code
    0) the request is refused with no-device and nothing changes.  With a
    device the flag is set to 1 and the reply is ok; the power-up
    sequence runs only if the flag was off. *)
Theorem enter_progmode_needs_a_device (custom : state -> option state) (st : state)
    (rest : list (option Z)) :
  rx st = Some 0x50 :: Some CRC_EOP :: rest ->
  exists st',
    loop custom st = Some st' /\ rx st' = rest /\
    if devicecode st =? 0
    then tx st' = tx st ++ [STK_INSYNC; STK_NODEVICE] /\
         hwst st' = hwst st /\ _mode st' = _mode st
    else tx st' = tx st ++ [STK_INSYNC; STK_OK] /\ _mode st' = 1 /\
         hwst st' = if _mode st =? 0 then hvpProgramMode (hwst st) else hwst st.
Proof.
  intros Hrx.
  destruct st as [h m a d e b r0 t k0]. cbn [rx] in Hrx. subst r0.
  unfold loop, ch_available, getch. cbn [rx].
  cbv [set_rx hwst _mode address device extras buffer rx tx timeouts].
  change (command_of (u8 0x50)) with STK_ENTER_PROGMODE.
  cbv beta iota delta [loop_case]. run.
  rewrite !u8_not_negative.
  rewrite (u8_id _ sentinel_byte), sentinel_is_sentinel.
  destruct (nth 0 d 0 =? 0) eqn:Hd.
  - eexists. split; [reflexivity|]. cbn [rx tx hwst _mode].
    rewrite <- app_assoc. repeat split; reflexivity.
  - rewrite set_programming_mode_on. cbn [_mode].
    destruct (m =? 0); run;
      (eexists; split; [reflexivity|]; cbn [rx tx hwst _mode];
       rewrite <- app_assoc; repeat split; reflexivity).
Qed.

Lemma enter_progmode_needs_a_device_witness :
  exists st',
    loop no_custom (session 0 0 [Some 0x50; Some 0x20]) = Some st' /\ rx st' = [] /\
    tx st' = [STK_INSYNC; STK_OK] /\ _mode st' = 1 /\
    hwst st' = hvpProgramMode bench.
Proof.
  exact (enter_progmode_needs_a_device no_custom (session 0 0 [Some 0x50; Some 0x20])
           [] eq_refl).
Defined.

(** After [setup], from any state of the board: the lines are in
    standby, the flag is off and no device is configured, so the first
    request to enter programming mode is refused with no-device; the
    target has not been clocked and its supply has not been switched
    on. *)
Theorem after_setup_enter_is_refused (custom : state -> option state)
    (feed : list bool) (spin : nat) (rest : list (option Z)) :
  exists st',
    loop custom (setup (power_on feed spin (Some 0x50 :: Some CRC_EOP :: rest))) = Some st' /\
    tx st' = [STK_INSYNC; STK_NODEVICE] /\ rx st' = rest /\
    _mode st' = 0 /\ lines (hwst st') = standby_lines /\
    decode (trace (hwst st')) = [] /\
    List.filter is_power_on (trace (hwst st')) = [].
Proof.
  eexists. split; [reflexivity|]. repeat split.
Qed.

(** *** Device parameters, page lengths, single reads *)

Lemma getbn_cut_short (bs : list Z) (mem : list Z) (n : nat) (st : state)
    (rest : list (option Z)) :
  rx st = map Some bs ++ None :: rest ->
  (length bs < n)%nat -> (n <= length mem)%nat ->
  getbn mem n st =
  Some (-1, map u8 bs ++ drop (length bs) mem, tick_timeout (set_rx rest st)).
Proof.
  intros Hrx Hlt Hn. unfold getbn.
  replace n with (length bs + S (n - length bs - 1))%nat at 1 by lia.
  rewrite <- (take_drop (length bs) mem) at 1.
  etransitivity;
    [apply (getbn_loop_prefix bs (S (n - length bs - 1)) 0 [] (take (length bs) mem)
              (drop (length bs) mem) st (None :: rest) Hrx); rewrite length_take; lia|].
  rewrite getbn_loop_silent by exact I.
  cbn [app rx set_rx tl]. reflexivity.
Qed.

Lemma set_device_cut_short_step (custom : state -> option state) (st : state)
    (bs : list Z) (rest : list (option Z)) :
  (length bs < sizeof_device)%nat -> length (device st) = sizeof_device ->
  rx st = Some 0x42 :: map Some bs ++ None :: rest ->
  loop custom st =
  Some (State (hvpStandbyMode (hwst st)) 0 (address st)
              (<[0%nat:=0]> (map u8 bs ++ drop (length bs) (device st)))
              (extras st) (buffer st) rest (tx st ++ [STK_NOSYNC])
              (S (timeouts st))).
Proof.
  intros Hlt Hd Hrx.
  destruct st as [h m a d e b r0 t k0]. cbn [rx device] in *. subst r0.
  unfold sizeof_device in *.
  unfold loop, ch_available, getch. cbn [rx].
  cbv [set_rx hwst _mode address device extras buffer rx tx timeouts].
  change (command_of (u8 0x42)) with STK_SET_DEVICE.
  cbv beta iota delta [loop_case]. cbn [device]. unfold sizeof_device.
  rewrite (getbn_cut_short bs d 20 _ rest) by (try reflexivity; lia).
  cbn [mbind option_bind]. change (-1 <? 0) with true. cbv iota.
  run. rewrite set_programming_mode_off. run. reflexivity.
Qed.

(** A set-device request that is cut short by a timeout marks the
    device as unset: the pass aborts to standby with no-sync, and the
    enter request that follows is refused with no-device, whatever device
    was configured before. *)
Theorem set_device_cut_short_unsets_device (custom : state -> option state) (st : state)
    (bs : list Z) (rest : list (option Z)) :
  length (device st) = sizeof_device ->
  (length bs < sizeof_device)%nat ->
  rx st = Some 0x42 :: map Some bs ++ None :: Some 0x50 :: Some CRC_EOP :: rest ->
  exists st',
    loops custom 2 st = Some st' /\
    tx st' = tx st ++ [STK_NOSYNC; STK_INSYNC; STK_NODEVICE] /\
    devicecode st' = 0 /\ _mode st' = 0 /\
    hwst st' = hvpStandbyMode (hwst st) /\
    rx st' = rest /\ timeouts st' = S (timeouts st).
Proof.
  intros Hd Hlt Hrx. cbn [loops].
  rewrite (set_device_cut_short_step custom st bs _ Hlt Hd Hrx).
  cbn [mbind option_bind].
  unfold loop, ch_available, getch. cbn [rx].
  cbv [set_rx hwst _mode address device extras buffer rx tx timeouts].
  change (command_of (u8 0x50)) with STK_ENTER_PROGMODE.
  cbv beta iota delta [loop_case]. run.
  rewrite !u8_not_negative.
  rewrite (u8_id _ sentinel_byte), sentinel_is_sentinel.
  destruct st as [h m a d e b r0 t k0]. cbn [hwst device tx timeouts] in *.
  assert (H0 : nth 0 (<[0%nat:=0]> (map u8 bs ++ drop (length bs) d)) 0 = 0).
  { destruct bs as [|x bs]; [|reflexivity].
    cbn [map app length]. rewrite drop_0. destruct d; [discriminate|reflexivity]. }
  rewrite H0. change (0 =? 0) with true. cbv iota.
  eexists. split; [reflexivity|].
  cbn [tx hwst _mode rx timeouts]. unfold devicecode. cbn [device].
  rewrite <- !app_assoc. repeat split; try reflexivity. exact H0.
Qed.

Lemma set_device_cut_short_unsets_device_witness :
  exists st',
    loops no_custom 2
      (session 1 0 [Some 0x42; Some 0x14; Some 1; None; Some 0x50; Some 0x20]) = Some st' /\
    tx st' = [STK_NOSYNC; STK_INSYNC; STK_NODEVICE] /\
    devicecode st' = 0 /\ _mode st' = 0 /\
    hwst st' = hvpStandbyMode bench /\
    rx st' = [] /\ timeouts st' = 1%nat.
Proof.
  exact (set_device_cut_short_unsets_device no_custom
           (session 1 0 [Some 0x42; Some 0x14; Some 1; None; Some 0x50; Some 0x20])
           [0x14; 1] [] eq_refl ltac:(cbn [length]; unfold sizeof_device; lia) eq_refl).
Defined.

(** A page request whose length field, read most significant byte
    first, is between 257 and 32767 is refused at once with no-sync:
    nothing is stored, the board and the address are untouched, and the
    rest of the request stays on the line. *)
Theorem page_length_over_256_is_refused (custom : state -> option state) (st : state)
    (c hi lo : Z) (r : list (option Z)) :
  command_of (u8 c) = STK_PROG_PAGE \/ command_of (u8 c) = STK_READ_PAGE ->
  is_u8 hi -> is_u8 lo ->
  256 < 256 * hi + lo < 32768 ->
  rx st = Some c :: Some hi :: Some lo :: r ->
  loop custom st =
  Some (State (hwst st) (_mode st) (address st) (device st) (extras st) (buffer st)
              r (tx st ++ [STK_NOSYNC]) (timeouts st)).
Proof.
  intros Hcmd Hhi Hlo Hv Hrx.
  destruct st as [h m a d e b r0 t k0]. cbn [rx] in Hrx. subst r0.
  unfold loop, ch_available, getch. cbn [rx].
  cbv [set_rx hwst _mode address device extras buffer rx tx timeouts].
  assert (Hgt : (int16 (int16 (256 * hi) + lo) >? 256) = true).
  { unfold is_u8 in *. rewrite (int16_id (256 * hi)) by lia.
    rewrite int16_id by lia. rewrite Z.gtb_ltb. apply Z.ltb_lt. lia. }
  destruct Hcmd as [-> | ->]; cbv beta iota delta [loop_case]; run;
    rewrite !u8_not_negative, (u8_id _ Hhi), (u8_id _ Hlo), Hgt; reflexivity.
Qed.

Lemma page_length_over_256_is_refused_witness :
  loop no_custom (session 1 0 [Some 0x74; Some 1; Some 1; Some 0x45; Some 0x20]) =
  Some (State bench 1 0 (0x14 :: repeat 0 19) (repeat 0 5) (repeat 0 258)
              [Some 0x45; Some 0x20] [STK_NOSYNC] 0).
Proof.
  exact (page_length_over_256_is_refused no_custom
           (session 1 0 [Some 0x74; Some 1; Some 1; Some 0x45; Some 0x20])
           0x74 1 1 [Some 0x45; Some 0x20] (or_intror eq_refl)
           ltac:(unfold is_u8; lia) ltac:(unfold is_u8; lia) ltac:(lia) eq_refl).
Defined.

Lemma hvpRdEEPROM_loop_overrun B : forall address mem dst h,
  (dst <= length mem)%nat -> (length mem < dst + B)%nat ->
  hvpRdEEPROM_loop B address mem dst h = None.
Proof.
  induction B as [|B IH]; intros address mem dst h Hle Hlt; [lia|].
  cbv beta iota zeta delta [hvpRdEEPROM_loop]. fold hvpRdEEPROM_loop.
  destruct (hvp_write 0 108 _) as [v h4].
  destruct (Nat.eq_dec dst (length mem)) as [->|Hne].
  - unfold store. rewrite Nat.ltb_irrefl. reflexivity.
  - rewrite store_in_range by lia. cbn [mbind option_bind].
    apply IH; rewrite length_insert; lia.
Qed.

(** The length check compares the signed 16-bit [v]: a length field
    whose first byte is 0x80 or more makes [v] negative and passes.  An
    EEPROM page read with such a length, in programming mode, then asks
    [hvpRdEEPROM] for at least 32768 bytes and runs past the end of the
    258-byte buffer. *)
Theorem page_length_sign_wrap_overruns (custom : state -> option state) (st : state)
    (hi lo : Z) (rest : list (option Z)) :
  wf st -> is_u8 hi -> is_u8 lo -> 0x80 <= hi -> _mode st <> 0 ->
  rx st = Some 0x74 :: Some hi :: Some lo :: Some 0x45 :: Some CRC_EOP :: rest ->
  (int16 (int16 (256 * hi) + lo) >? 256) = false /\
  32768 <= u16 (int16 (int16 (256 * hi) + lo)) /\
  loop custom st = None.
Proof.
  intros (Hb & _ & _) Hhi Hlo H80 Hm Hrx.
  unfold is_u8 in Hhi, Hlo.
  assert (Hv : int16 (int16 (256 * hi) + lo) = 256 * hi + lo - 65536).
  { unfold int16.
    replace ((256 * hi + 32768) mod 65536) with (256 * hi - 32768)
      by (apply Z.mod_unique with 1; lia).
    replace ((256 * hi - 32768 - 32768 + lo + 32768) mod 65536)
      with (256 * hi + lo - 32768)
      by (apply Z.mod_unique with 0; lia).
    lia. }
  assert (Hu : u16 (256 * hi + lo - 65536) = 256 * hi + lo).
  { unfold u16. symmetry. apply Z.mod_unique with (-1); lia. }
  split; [rewrite Hv, Z.gtb_ltb; apply Z.ltb_ge; lia|].
  split; [rewrite Hv, Hu; lia|].
  destruct st as [h m a d e b r0 t k0]. cbn [rx buffer _mode] in *. subst r0.
  unfold sizeof_buffer in Hb.
  unfold loop, ch_available, getch. cbn [rx].
  cbv [set_rx hwst _mode address device extras buffer rx tx timeouts].
  change (command_of (u8 0x74)) with STK_READ_PAGE.
  cbv beta iota delta [loop_case]. run.
  rewrite !u8_not_negative.
  rewrite (u8_id hi), (u8_id lo) by (unfold is_u8; lia).
  rewrite Hv. rewrite Z.gtb_ltb.
  replace (256 <? 256 * hi + lo - 65536) with false by (symmetry; apply Z.ltb_ge; lia).
  erewrite (GETN_frame _ [0x45] CRC_EOP _ rest);
    [ | cbn [length]; lia | reflexivity | cbn [buffer]; lia ].
  run. rewrite ?u8_not_negative.
  rewrite (u8_id _ sentinel_byte), sentinel_is_sentinel.
  rewrite ?set_programming_mode_query. run.
  rewrite (proj2 (Z.eqb_neq m 0) Hm).
  unfold not_E_or_F. cbn [buffer app map].
  change (load (u8 69 :: ?l) 0) with (Some (u8 69)).
  cbn [mbind option_bind]. change (u8 69) with 69.
  cbn [Z.eqb Pos.eqb orb negb]. run. rewrite Hu.
  unfold hvpRdEEPROM.
  rewrite hvpRdEEPROM_loop_overrun; [reflexivity|lia|].
  cbn [length]. rewrite length_drop. lia.
Qed.

Lemma page_length_sign_wrap_overruns_witness :
  (int16 (int16 (256 * 0x80) + 0) >? 256) = false /\
  32768 <= u16 (int16 (int16 (256 * 0x80) + 0)) /\
  loop no_custom (session 1 0 [Some 0x74; Some 0x80; Some 0; Some 0x45; Some 0x20]) = None.
Proof.
  assert (Hwf : wf (session 1 0 [Some 0x74; Some 0x80; Some 0; Some 0x45; Some 0x20]))
    by (repeat split).
  exact (page_length_sign_wrap_overruns no_custom
           (session 1 0 [Some 0x74; Some 0x80; Some 0; Some 0x45; Some 0x20])
           0x80 0 [] Hwf ltac:(unfold is_u8; lia) ltac:(unfold is_u8; lia)
           ltac:(lia) ltac:(discriminate) eq_refl).
Defined.

(** In programming mode the command 0x70, well framed, reads one flash
    word at the address: the reply is in-sync, the two bytes the target
    answered with, low byte first, and ok; the address advances by one
    word. *)
Theorem read_flash_returns_one_word (custom : state -> option state) (st : state)
    (rest : list (option Z)) :
  wf st -> _mode st <> 0 ->
  rx st = Some 0x70 :: Some CRC_EOP :: rest ->
  exists st' b0 b1,
    loop custom st = Some st' /\
    sent (emitted (hwst st) (hwst st')) =
      [(0x02, 0x4c); (u8 (address st), 0x0c);
       (u8 (Z.shiftr (u16 (address st)) 8), 0x1c);
       (0, 0x68); (0, 0x6c); (0, 0x78); (0, 0x7c); (0, 0x4c)] /\
    answered (decode (emitted (hwst st) (hwst st'))) !! 0%nat = Some b0 /\
    answered (decode (emitted (hwst st) (hwst st'))) !! 1%nat = Some b1 /\
    tx st' = tx st ++ [STK_INSYNC; u8 b0; u8 b1; STK_OK] /\
    address st' = u16 (address st + 1) /\
    rx st' = rest.
Proof.
  intros (Hb & _ & _) Hm Hrx.
  destruct st as [h m a d e b r0 t k0]. cbn [rx buffer _mode address tx hwst] in *.
  subst r0. unfold sizeof_buffer in Hb.
  unfold loop, ch_available, getch. cbn [rx].
  cbv [set_rx hwst _mode address device extras buffer rx tx timeouts].
  change (command_of (u8 0x70)) with STK_READ_FLASH.
  cbv beta iota delta [loop_case]. run.
  rewrite !u8_not_negative.
  rewrite (u8_id _ sentinel_byte), sentinel_is_sentinel.
  rewrite ?set_programming_mode_query. run.
  rewrite (proj2 (Z.eqb_neq m 0) Hm).
  destruct (hvpRdFlash_heard 1 a b 0 h)
    as (fs & mem' & h' & Hrun & Hs & Hw & Hl & _ & Hin); [lia|].
  rewrite Hrun. cbn [mbind option_bind].
  destruct (load_in_range mem' 0) as [b0 Hb0]; [lia|].
  destruct (load_in_range mem' 1) as [b1 Hb1]; [lia|].
  rewrite Hb0. cbn [mbind option_bind]. rewrite Hb1. cbn [mbind option_bind].
  exists (State h' m (u16 (a + 1)) d e mem' rest
            ((((t ++ [u8 STK_INSYNC]) ++ [u8 b0]) ++ [u8 b1]) ++ [u8 STK_OK]) k0), b0, b1.
  split; [reflexivity|]. cbn [hwst tx address rx].
  unfold sent. rewrite (sends_decode _ _ _ Hs).
  change (map (fun f => (f_sdi f, f_sii f)) fs) with (map wire fs). rewrite Hw.
  split; [reflexivity|].
  split; [rewrite <- (Hin 0%nat) by lia; exact Hb0|].
  split; [rewrite <- (Hin 1%nat) by lia; exact Hb1|].
  rewrite <- !app_assoc. repeat split; reflexivity.
Qed.

Lemma read_flash_returns_one_word_witness :
  exists st' b0 b1,
    loop no_custom (session 1 0x1234 [Some 0x70; Some 0x20]) = Some st' /\
    sent (emitted bench (hwst st')) =
      [(0x02, 0x4c); (0x34, 0x0c); (0x12, 0x1c);
       (0, 0x68); (0, 0x6c); (0, 0x78); (0, 0x7c); (0, 0x4c)] /\
    answered (decode (emitted bench (hwst st'))) !! 0%nat = Some b0 /\
    answered (decode (emitted bench (hwst st'))) !! 1%nat = Some b1 /\
    tx st' = [STK_INSYNC; u8 b0; u8 b1; STK_OK] /\
    address st' = 0x1235 /\
    rx st' = [].
Proof.
  assert (Hwf : wf (session 1 0x1234 [Some 0x70; Some 0x20])) by (repeat split).
  exact (read_flash_returns_one_word no_custom (session 1 0x1234 [Some 0x70; Some 0x20]) []
           Hwf ltac:(discriminate) eq_refl).
Defined.

Lemma answers_answered h r w1 w2 w3 x :
  answers h r [w1; w2; w3; (x, 0x6c)] ->
  is_answer (Frame 0 (snd w1) 0) = false ->
  is_answer (Frame 0 (snd w2) 0) = false ->
  is_answer (Frame 0 (snd w3) 0) = false ->
  exists fs, sends h (snd r) fs /\ map wire fs = [w1; w2; w3; (x, 0x6c)] /\
             answered fs = [fst r].
Proof.
  intros (fs & Hs & Hw & Hl) H1 H2 H3. exists fs. split; [exact Hs|]. split; [exact Hw|].
  destruct fs as [|f1 [|f2 [|f3 [|f4 [|]]]]]; try discriminate Hw.
  cbn [map] in Hw. unfold wire in Hw. injection Hw as <- <- <- Hx Hi.
  cbn [snd] in H1, H2, H3. unfold is_answer in H1, H2, H3. cbn [f_sii] in H1, H2, H3.
  unfold answered. cbn [List.filter]. unfold is_answer. rewrite H1, H2, H3, Hi.
  cbn [Z.eqb Pos.eqb orb map]. cbn [map last f_sdo] in Hl. congruence.
Qed.

Lemma answered_app fa fb : answered (fa ++ fb) = answered fa ++ answered fb.
Proof. unfold answered. rewrite List.filter_app, map_app. reflexivity. Qed.

(** In programming mode the read-signature command, well framed, asks
    the target for the signature bytes 0, 1 and 2 in this order and
    replies in-sync, the three bytes the target answered with, ok. *)
Theorem read_sign_returns_three_bytes (custom : state -> option state) (st : state)
    (rest : list (option Z)) :
  _mode st <> 0 ->
  rx st = Some 0x75 :: Some CRC_EOP :: rest ->
  exists st',
    loop custom st = Some st' /\
    sent (emitted (hwst st) (hwst st')) =
      [(0x08, 0x4c); (0, 0x0c); (0, 0x68); (0, 0x6c);
       (0x08, 0x4c); (1, 0x0c); (0, 0x68); (0, 0x6c);
       (0x08, 0x4c); (2, 0x0c); (0, 0x68); (0, 0x6c)] /\
    tx st' = tx st ++ [STK_INSYNC] ++
             map u8 (answered (decode (emitted (hwst st) (hwst st')))) ++ [STK_OK] /\
    length (answered (decode (emitted (hwst st) (hwst st')))) = 3%nat /\
    rx st' = rest /\ address st' = address st.
Proof.
  intros Hm Hrx.
  destruct st as [h m a d e b r0 t k0]. cbn [rx _mode address tx hwst] in *. subst r0.
  unfold loop, ch_available, getch. cbn [rx].
  cbv [set_rx hwst _mode address device extras buffer rx tx timeouts].
  change (command_of (u8 0x75)) with STK_READ_SIGN.
  cbv beta iota delta [loop_case]. run.
  rewrite !u8_not_negative.
  rewrite (u8_id _ sentinel_byte), sentinel_is_sentinel.
  rewrite ?set_programming_mode_query. run.
  rewrite (proj2 (Z.eqb_neq m 0) Hm).
  destruct (answers_answered _ _ _ _ _ _ (hvpSignatureByte0_answers h))
    as (f0 & S0 & W0 & A0); try reflexivity.
  destruct (hvpSignatureByte0 h) as [s0 h0]. cbn [fst snd] in *.
  destruct (answers_answered _ _ _ _ _ _ (hvpSignatureByte1_answers h0))
    as (f1 & S1 & W1 & A1); try reflexivity.
  destruct (hvpSignatureByte1 h0) as [s1 h1]. cbn [fst snd] in *.
  destruct (answers_answered _ _ _ _ _ _ (hvpSignatureByte2_answers h1))
    as (f2 & S2 & W2 & A2); try reflexivity.
  destruct (hvpSignatureByte2 h1) as [s2 h2]. cbn [fst snd] in *.
  eexists. split; [reflexivity|]. cbn [hwst tx rx address].
  pose proof (sends_trans _ _ _ _ _ S0 (sends_trans _ _ _ _ _ S1 S2)) as Hs.
  unfold sent. rewrite (sends_decode _ _ _ Hs).
  change (map (fun f => (f_sdi f, f_sii f)) (f0 ++ f1 ++ f2))
    with (map wire (f0 ++ f1 ++ f2)).
  rewrite !map_app, W0, W1, W2, !answered_app, A0, A1, A2.
  split; [reflexivity|]. split; [|repeat split].
  rewrite <- !app_assoc. reflexivity.
Qed.

Lemma read_sign_returns_three_bytes_witness :
  exists st',
    loop no_custom (session 1 0 [Some 0x75; Some 0x20]) = Some st' /\
    sent (emitted bench (hwst st')) =
      [(0x08, 0x4c); (0, 0x0c); (0, 0x68); (0, 0x6c);
       (0x08, 0x4c); (1, 0x0c); (0, 0x68); (0, 0x6c);
       (0x08, 0x4c); (2, 0x0c); (0, 0x68); (0, 0x6c)] /\
    tx st' = [STK_INSYNC] ++ map u8 (answered (decode (emitted bench (hwst st')))) ++ [STK_OK] /\
    length (answered (decode (emitted bench (hwst st')))) = 3%nat /\
    rx st' = [] /\ address st' = 0.
Proof.
  exact (read_sign_returns_three_bytes no_custom (session 1 0 [Some 0x75; Some 0x20]) []
           ltac:(discriminate) eq_refl).
Defined.

(** *** The busy-wait, single writes, page payloads *)

Lemma iter_tl_swap (k : nat) (f : list bool) :
  Nat.iter k (@tl bool) (tl f) = tl (Nat.iter k (@tl bool) f).
Proof.
  induction k as [|k IH]; [reflexivity|].
  change (Nat.iter (S k) (@tl bool) (tl f)) with (tl (Nat.iter k (@tl bool) (tl f))).
  rewrite IH. reflexivity.
Qed.

Lemma smp_S (f : list bool) (k : nat) : smp f (S k) = smp (tl f) k.
Proof.
  unfold smp. rewrite iter_tl_swap. reflexivity.
Qed.

Lemma wait_loop_polls n : forall h,
  exists k, (k <= n)%nat /\
    wait_loop n h = replay (map (fun i => EvRead SDO (smp (sdo_feed h) i)) (seq 0 k)) h /\
    (forall i, (S i < k)%nat -> smp (sdo_feed h) i = false) /\
    ((k < n)%nat -> exists j, k = S j /\ smp (sdo_feed h) j = true).
Proof.
  induction n as [|n IH]; intros h.
  - exists 0%nat. split; [lia|]. split; [reflexivity|]. split; intros; lia.
  - cbn [wait_loop _digitalRead digitalRead].
    set (h1 := Hw _ _ _ _).
    destruct (hd false (sdo_feed h)) eqn:Hv; cbn [Z.eqb].
    + exists 1%nat. split; [lia|]. split.
      * cbn [seq map].
        change (smp (sdo_feed h) 0) with (hd false (sdo_feed h)). rewrite Hv. reflexivity.
      * split; [intros; lia|]. intros _. exists 0%nat. split; [reflexivity|exact Hv].
    + destruct (IH h1) as (k & Hk & Hrun & Hlow & Hhigh).
      exists (S k). split; [lia|]. split.
      * rewrite Hrun. cbn [seq map]. rewrite <- seq_shift, map_map.
        change (replay (EvRead SDO (smp (sdo_feed h) 0) :: ?l) h)
          with (replay l (replay1 h (EvRead SDO (smp (sdo_feed h) 0)))).
        change (smp (sdo_feed h) 0) with (hd false (sdo_feed h)). rewrite Hv.
        f_equal. apply map_ext. intros i. rewrite smp_S. reflexivity.
      * split.
        -- intros [|i] Hi; [exact Hv|]. rewrite smp_S. apply Hlow. lia.
        -- intros Hlt. destruct Hhigh as (j & -> & Hj); [lia|].
           exists (S j). split; [reflexivity|]. rewrite smp_S. exact Hj.
Qed.

(** [hvp_wait_on_SDO] only samples SDO: it changes no line and never
    clocks the target.  It takes the samples the target presents one
    after the other, at most as many as fit in the 120 ms window; all but
    the last are low, and when it stops before the window is over the
    last one is high. *)
Theorem wait_stops_at_first_high (h : hw) :
  exists k, (k <= spin h)%nat /\
    emitted h (hvp_wait_on_SDO h) =
      map (fun i => EvRead SDO (smp (sdo_feed h) i)) (seq 0 k) /\
    (forall i, (S i < k)%nat -> smp (sdo_feed h) i = false) /\
    ((k < spin h)%nat -> exists j, k = S j /\ smp (sdo_feed h) j = true) /\
    lines (hvp_wait_on_SDO h) = lines h /\
    clock_pulses (emitted h (hvp_wait_on_SDO h)) = 0%nat.
Proof.
  unfold hvp_wait_on_SDO.
  destruct (wait_loop_polls (spin h) h) as (k & Hk & Hrun & Hlow & Hhigh).
  exists k. rewrite Hrun, emitted_replay, replay_lines.
  split; [exact Hk|]. split; [reflexivity|]. split; [exact Hlow|].
  split; [exact Hhigh|].
  generalize (seq 0 k). intros l. split.
  - generalize (lines h). induction l as [|i l IH]; intros ps; [reflexivity|].
    cbn [map fold_left apply_event]. apply IH.
  - induction l as [|i l IH]; [reflexivity|exact IH].
Qed.

(** In programming mode the command 0x61 with one data byte, well
    framed, programs that byte into the EEPROM at the address: the target
    is sent the write-EEPROM command, the address, the byte, and one page
    commit; the reply is in-sync, ok and the address advances by one. *)
Theorem prog_data_writes_one_byte (custom : state -> option state) (st : state)
    (v : Z) (rest : list (option Z)) :
  wf st -> _mode st <> 0 ->
  rx st = Some 0x61 :: Some v :: Some CRC_EOP :: rest ->
  exists st',
    loop custom st = Some st' /\
    sent (emitted (hwst st) (hwst st')) =
      [(0x11, 0x4c); (u8 (address st), 0x0c);
       (u8 (Z.shiftr (u16 (address st)) 8), 0x1c); (u8 v, 0x2c);
       (0, 0x6d); (0, 0x6c); (0, 0x64); (0, 0x6c); (0, 0x4c)] /\
    tx st' = tx st ++ [STK_INSYNC; STK_OK] /\
    address st' = u16 (address st + 1) /\
    rx st' = rest.
Proof.
  intros (Hb & _ & _) Hm Hrx.
  destruct st as [h m a d e b r0 t k0]. cbn [rx buffer _mode address tx hwst] in *.
  subst r0. unfold sizeof_buffer in Hb.
  unfold loop, ch_available, getch. cbn [rx].
  cbv [set_rx hwst _mode address device extras buffer rx tx timeouts].
  change (command_of (u8 0x61)) with STK_PROG_DATA.
  cbv beta iota delta [loop_case].
  erewrite (GETN_frame _ [v] CRC_EOP _ rest);
    [ | cbn [length]; lia | reflexivity | cbn [buffer]; lia ].
  cbn [mbind option_bind]. run. rewrite ?u8_not_negative.
  rewrite (u8_id _ sentinel_byte), sentinel_is_sentinel.
  rewrite ?set_programming_mode_query. run.
  rewrite (proj2 (Z.eqb_neq m 0) Hm).
  cbn [map app].
  set (mem := u8 v :: _).
  destruct (hvpWrEEPROM_transmits 1 a mem 0 h) as (h' & Hh' & Ht).
  { subst mem. cbn [length]. lia. }
  rewrite Hh'. cbn [mbind option_bind].
  eexists. split; [reflexivity|]. cbn [hwst tx address rx].
  rewrite (transmits_sent _ _ _ Ht).
  split.
  - cbn [eeprom_bytes app Nat.eqb]. rewrite orb_true_r. subst mem. cbn [nth].
    rewrite (u8_id (u8 v)) by apply u8_range. reflexivity.
  - rewrite <- !app_assoc. repeat split; reflexivity.
Qed.

Lemma prog_data_writes_one_byte_witness :
  exists st',
    loop no_custom (session 1 0x102 [Some 0x61; Some 0xab; Some 0x20]) = Some st' /\
    sent (emitted bench (hwst st')) =
      [(0x11, 0x4c); (0x02, 0x0c); (0x01, 0x1c); (0xab, 0x2c);
       (0, 0x6d); (0, 0x6c); (0, 0x64); (0, 0x6c); (0, 0x4c)] /\
    tx st' = [STK_INSYNC; STK_OK] /\
    address st' = 0x103 /\
    rx st' = [].
Proof.
  assert (Hwf : wf (session 1 0x102 [Some 0x61; Some 0xab; Some 0x20])) by (repeat split).
  exact (prog_data_writes_one_byte no_custom
           (session 1 0x102 [Some 0x61; Some 0xab; Some 0x20]) 0xab []
           Hwf ltac:(discriminate) eq_refl).
Defined.








(** *** Erase, fuses, and a device set before entering *)

(** In programming mode the chip-erase command, well framed, sends the
    erase instruction sequence and replies in-sync, ok; the address is
    kept. *)
Theorem chip_erase_command (custom : state -> option state) (st : state)
    (rest : list (option Z)) :
  _mode st <> 0 ->
  rx st = Some 0x52 :: Some CRC_EOP :: rest ->
  exists st',
    loop custom st = Some st' /\
    sent (emitted (hwst st) (hwst st')) = [(0x80, 0x4c); (0, 0x64); (0, 0x6c)] /\
    tx st' = tx st ++ [STK_INSYNC; STK_OK] /\
    _mode st' = _mode st /\ address st' = address st /\ rx st' = rest.
Proof.
  intros Hm Hrx.
  destruct st as [h m a d e b r0 t k0]. cbn [rx _mode address tx hwst] in *. subst r0.
  unfold loop, ch_available, getch. cbn [rx].
  cbv [set_rx hwst _mode address device extras buffer rx tx timeouts].
  change (command_of (u8 0x52)) with STK_CHIP_ERASE.
  cbv beta iota delta [loop_case]. run.
  rewrite !u8_not_negative.
  rewrite (u8_id _ sentinel_byte), sentinel_is_sentinel.
  rewrite ?set_programming_mode_query. run.
  rewrite (proj2 (Z.eqb_neq m 0) Hm).
  eexists. split; [reflexivity|]. cbn [hwst tx _mode address rx].
  rewrite (transmits_sent _ _ _ (hvpChipErase_transmits h)).
  rewrite <- !app_assoc. repeat split; reflexivity.
Qed.

Lemma chip_erase_command_witness :
  exists st',
    loop no_custom (session 1 9 [Some 0x52; Some 0x20]) = Some st' /\
    sent (emitted bench (hwst st')) = [(0x80, 0x4c); (0, 0x64); (0, 0x6c)] /\
    tx st' = [STK_INSYNC; STK_OK] /\
    _mode st' = 1 /\ address st' = 9 /\ rx st' = [].
Proof.
  exact (chip_erase_command no_custom (session 1 9 [Some 0x52; Some 0x20]) []
           ltac:(discriminate) eq_refl).
Defined.

Lemma fuse_byte_unmasked x : u8 (Z.lor (u8 x) (Z.lnot 0xff)) = u8 x.
Proof.
  rewrite mask_or_complement by (auto using u8_range).
  change (Z.lxor 255 255) with 0. apply Z.lor_0_r.
Qed.

Lemma prog_fuse_ext_step (custom : state -> option state) (st : state)
    (lo hi ex : Z) (rest : list (option Z)) :
  wf st -> _mode st <> 0 ->
  rx st = Some 0x65 :: Some lo :: Some hi :: Some ex :: Some CRC_EOP :: rest ->
  loop custom st =
  Some (State (hvpWrFuseBitsEX (u8 ex)
                 (hvpWrFuseBitsHI (u8 hi) (hvpWrFuseBitsLO (u8 lo) (hwst st))))
              (_mode st) (address st) (device st) (extras st)
              (u8 lo :: u8 hi :: u8 ex :: u8 CRC_EOP :: drop 4 (buffer st))
              rest (tx st ++ [STK_INSYNC; STK_OK]) (timeouts st)).
Proof.
  intros (Hb & _ & _) Hm Hrx.
  destruct st as [h m a d e b r0 t k0]. cbn [rx buffer _mode address tx hwst] in *.
  subst r0. unfold sizeof_buffer in Hb.
  unfold loop, ch_available, getch. cbn [rx].
  cbv [set_rx hwst _mode address device extras buffer rx tx timeouts].
  change (command_of (u8 0x65)) with STK_PROG_FUSE_EXT.
  seal_goal.
  erewrite (GETN_frame _ [lo; hi; ex] CRC_EOP _ rest);
    [ | cbn [length]; lia | reflexivity | cbn [buffer]; lia ].
  cbn [mbind option_bind]. run. rewrite ?u8_not_negative.
  rewrite (u8_id _ sentinel_byte), sentinel_is_sentinel.
  rewrite ?set_programming_mode_query. run.
  rewrite (proj2 (Z.eqb_neq m 0) Hm).
  cbn [map app].
  change (load (u8 lo :: ?l) 0) with (Some (u8 lo)).
  cbn [mbind option_bind].
  change (load (u8 lo :: u8 hi :: ?l) 1) with (Some (u8 hi)).
  cbn [mbind option_bind].
  change (load (u8 lo :: u8 hi :: u8 ex :: ?l) 2) with (Some (u8 ex)).
  cbn [mbind option_bind].
  rewrite <- app_assoc. reflexivity.
Qed.

(** In programming mode the extended program-fuse command, well framed,
    writes the low, the high and the extended fuse in this order: the low
    and high bytes as received, the extended byte with every bit but
    bit 0 forced to one. *)
Theorem prog_fuse_ext_command (custom : state -> option state) (st : state)
    (lo hi ex : Z) (rest : list (option Z)) :
  wf st -> _mode st <> 0 ->
  rx st = Some 0x65 :: Some lo :: Some hi :: Some ex :: Some CRC_EOP :: rest ->
  exists st',
    loop custom st = Some st' /\
    sent (emitted (hwst st) (hwst st')) =
      [(0x40, 0x4c); (u8 lo, 0x2c); (0, 0x64); (0, 0x6c);
       (0x40, 0x4c); (u8 hi, 0x2c); (0, 0x74); (0, 0x7c);
       (0x40, 0x4c); (Z.lor (u8 ex) 0xfe, 0x2c); (0, 0x66); (0, 0x6e)] /\
    tx st' = tx st ++ [STK_INSYNC; STK_OK] /\ rx st' = rest.
Proof.
  intros Hwf Hm Hrx.
  eexists. split; [apply prog_fuse_ext_step; eassumption|].
  cbn [hwst tx rx]. split; [|split; reflexivity].
  pose proof (hvpWrFuseBitsLO_transmits (u8 lo) (hwst st)) as T0.
  pose proof (hvpWrFuseBitsHI_transmits (u8 hi) (hvpWrFuseBitsLO (u8 lo) (hwst st))) as T1.
  pose proof (hvpWrFuseBitsEX_transmits (u8 ex)
                (hvpWrFuseBitsHI (u8 hi) (hvpWrFuseBitsLO (u8 lo) (hwst st)))) as T2.
  rewrite (transmits_sent _ _ _ (transmits_trans _ _ _ _ _ T0
                                   (transmits_trans _ _ _ _ _ T1 T2))).
  unfold FUSEL_MASK, FUSEH_MASK, FUSEE_MASK. rewrite !fuse_byte_unmasked.
  rewrite (mask_or_complement 1 (u8 ex)) by (auto using u8_range).
  reflexivity.
Qed.

Lemma prog_fuse_ext_command_witness :
  exists st',
    loop no_custom
      (session 1 0 [Some 0x65; Some 0x62; Some 0xdf; Some 0x01; Some 0x20]) = Some st' /\
    sent (emitted bench (hwst st')) =
      [(0x40, 0x4c); (0x62, 0x2c); (0, 0x64); (0, 0x6c);
       (0x40, 0x4c); (0xdf, 0x2c); (0, 0x74); (0, 0x7c);
       (0x40, 0x4c); (0xff, 0x2c); (0, 0x66); (0, 0x6e)] /\
    tx st' = [STK_INSYNC; STK_OK] /\ rx st' = [].
Proof.
  assert (Hwf : wf (session 1 0 [Some 0x65; Some 0x62; Some 0xdf; Some 0x01; Some 0x20]))
    by (repeat split).
  exact (prog_fuse_ext_command no_custom
           (session 1 0 [Some 0x65; Some 0x62; Some 0xdf; Some 0x01; Some 0x20])
           0x62 0xdf 0x01 [] Hwf ltac:(discriminate) eq_refl).
Defined.

Lemma set_device_step (custom : state -> option state) (st : state)
    (params : list Z) (rest : list (option Z)) :
  length params = sizeof_device -> length (device st) = sizeof_device ->
  rx st = Some 0x42 :: map Some params ++ Some CRC_EOP :: rest ->
  loop custom st =
  Some (State (hwst st) (_mode st) (address st) (map u8 params) (extras st)
              (buffer st) rest (tx st ++ [STK_INSYNC; STK_OK]) (timeouts st)).
Proof.
  intros Hp Hd Hrx.
  destruct st as [h m a d e b r0 t k0]. cbn [rx device] in *. subst r0.
  unfold loop, ch_available, getch. cbn [rx].
  cbv [set_rx hwst _mode address device extras buffer rx tx timeouts].
  change (command_of (u8 0x42)) with STK_SET_DEVICE.
  cbv beta iota delta [loop_case]. cbn [device]. rewrite <- Hp.
  rewrite (getbn_exact params d _ (Some CRC_EOP :: rest)) by (try reflexivity; lia).
  cbn [mbind option_bind]. rewrite last_u8_not_negative. run.
  rewrite !u8_not_negative.
  rewrite (u8_id _ sentinel_byte), sentinel_is_sentinel.
  rewrite drop_ge, app_nil_r by lia. rewrite <- app_assoc. reflexivity.
Qed.

(** A complete set-device request replaces the twenty device bytes by
    the bytes received; if the first of them, the device code, is not 0,
    the enter request that follows is accepted: from standby the power-up
    sequence runs once and the flag is 1. *)
Theorem set_device_then_enter (custom : state -> option state) (st : state)
    (params : list Z) (rest : list (option Z)) :
  length params = sizeof_device -> length (device st) = sizeof_device ->
  u8 (hd 0 params) <> 0 ->
  _mode st = 0 ->
  rx st = Some 0x42 :: map Some params ++ Some CRC_EOP ::
          Some 0x50 :: Some CRC_EOP :: rest ->
  exists st',
    loops custom 2 st = Some st' /\
    tx st' = tx st ++ [STK_INSYNC; STK_OK; STK_INSYNC; STK_OK] /\
    device st' = map u8 params /\
    _mode st' = 1 /\
    hwst st' = hvpProgramMode (hwst st) /\
    rx st' = rest /\ timeouts st' = timeouts st.
Proof.
  intros Hp Hd Hcode Hm Hrx. cbn [loops].
  rewrite (set_device_step custom st params _ Hp Hd Hrx).
  cbn [mbind option_bind].
  destruct st as [h m a d e b r0 t k0]. cbn [_mode hwst tx timeouts] in *. subst m.
  unfold loop, ch_available, getch. cbn [rx].
  cbv [set_rx hwst _mode address device extras buffer rx tx timeouts].
  change (command_of (u8 0x50)) with STK_ENTER_PROGMODE.
  cbv beta iota delta [loop_case]. run.
  rewrite !u8_not_negative.
  rewrite (u8_id _ sentinel_byte), sentinel_is_sentinel.
  assert (Hc : (nth 0 (map u8 params) 0 =? 0) = false).
  { apply Z.eqb_neq. destruct params; [discriminate Hp|exact Hcode]. }
  rewrite Hc. rewrite set_programming_mode_on. cbn [_mode].
  change (0 =? 0) with true. run.
  eexists. split; [reflexivity|]. cbn [tx device _mode hwst rx timeouts].
  rewrite <- !app_assoc. repeat split; reflexivity.
Qed.

Lemma set_device_then_enter_witness :
  exists st',
    loops no_custom 2
      (session 0 0 (Some 0x42 :: map Some (0x114 :: repeat 7 19) ++
                    [Some 0x20; Some 0x50; Some 0x20])) = Some st' /\
    tx st' = [STK_INSYNC; STK_OK; STK_INSYNC; STK_OK] /\
    device st' = 0x14 :: repeat 7 19 /\
    _mode st' = 1 /\
    hwst st' = hvpProgramMode bench /\
    rx st' = [] /\ timeouts st' = 0%nat.
Proof.
  exact (set_device_then_enter no_custom
           (session 0 0 (Some 0x42 :: map Some (0x114 :: repeat 7 19) ++
                         [Some 0x20; Some 0x50; Some 0x20]))
           (0x114 :: repeat 7 19) [] eq_refl eq_refl ltac:(discriminate) eq_refl eq_refl).
Defined.

(** *** A page length that wraps *)

Lemma getbn_loop_overrun (bs : list Z) (x : Z) (m : nat) (mem : list Z) (st : state)
    (rest : list (option Z)) :
  length bs = length mem ->
  rx st = map Some bs ++ Some x :: rest ->
  getbn_loop (length bs + S m) 0 mem 0 st = None.
Proof.
  intros Hlen Hrx.
  transitivity (getbn_loop (S m) (default 0 (last (map u8 bs))) (map u8 bs)
                           (length bs) (set_rx (Some x :: rest) st)).
  - pose proof (getbn_loop_prefix bs (S m) 0 [] mem [] st (Some x :: rest) Hrx
                  (eq_sym Hlen)) as H.
    cbn [app length Nat.add] in H. rewrite !app_nil_r in H. exact H.
  - cbn [getbn_loop]. unfold getch. cbn [rx set_rx].
    rewrite u8_not_negative. unfold store.
    rewrite length_map, Nat.ltb_irrefl. reflexivity.
Qed.

(** C10 (what the sketch does).  The bridge accepts a page request by
    the test [v > 256] on the signed 16-bit [v]: a length field whose
    first byte is 0x80 or more makes [v] negative and is accepted.  A
    page program with such a length then asks [getbn] for
    256 * hi + lo + 2 bytes, more than the 258 the buffer holds, and the
    259th byte that arrives is stored past the end of the buffer,
    whether the programming-mode flag is on or off. *)
Theorem page_program_sign_wrap_overruns (custom : state -> option state) (st : state)
    (hi lo x : Z) (bs : list Z) (rest : list (option Z)) :
  wf st -> is_u8 hi -> is_u8 lo -> 0x80 <= hi -> 256 * hi + lo < 65534 ->
  length bs = sizeof_buffer ->
  rx st = Some 0x64 :: Some hi :: Some lo :: map Some bs ++ Some x :: rest ->
  (int16 (int16 (256 * hi) + lo) >? 256) = false /\
  u16 (int16 (int16 (256 * hi) + lo) + 2) = 256 * hi + lo + 2 /\
  (sizeof_buffer < Z.to_nat (256 * hi + lo + 2))%nat /\
  loop custom st = None.
Proof.
  intros (Hb & _ & _) Hhi Hlo H80 Hmax Hbs Hrx.
  unfold is_u8 in Hhi, Hlo.
  assert (Hv : int16 (int16 (256 * hi) + lo) = 256 * hi + lo - 65536).
  { unfold int16.
    replace ((256 * hi + 32768) mod 65536) with (256 * hi - 32768)
      by (apply Z.mod_unique with 1; lia).
    replace ((256 * hi - 32768 - 32768 + lo + 32768) mod 65536)
      with (256 * hi + lo - 32768)
      by (apply Z.mod_unique with 0; lia).
    lia. }
  assert (Hu : u16 (256 * hi + lo - 65536 + 2) = 256 * hi + lo + 2).
  { unfold u16. symmetry. apply Z.mod_unique with (-1); lia. }
  unfold sizeof_buffer in *.
  split; [rewrite Hv, Z.gtb_ltb; apply Z.ltb_ge; lia|].
  split; [rewrite Hv; exact Hu|].
  split; [lia|].
  destruct st as [h m a d e b r0 t k0]. cbn [rx buffer] in *. subst r0.
  unfold loop, ch_available, getch. cbn [rx].
  cbv [set_rx hwst _mode address device extras buffer rx tx timeouts].
  change (command_of (u8 0x64)) with STK_PROG_PAGE.
  cbv beta iota delta [loop_case]. run.
  rewrite !u8_not_negative.
  rewrite (u8_id hi), (u8_id lo) by (unfold is_u8; lia).
  rewrite Hv. rewrite Z.gtb_ltb.
  replace (256 <? 256 * hi + lo - 65536) with false by (symmetry; apply Z.ltb_ge; lia).
  rewrite Hu. unfold GETN, getbn. cbn [buffer].
  replace (Z.to_nat (256 * hi + lo + 2))
    with (length bs + S (Z.to_nat (256 * hi + lo + 2) - 259))%nat by lia.
  rewrite (getbn_loop_overrun bs x _ b _ rest) by (try reflexivity; lia).
  reflexivity.
Qed.

(** the length field 80 00 and 259 bytes after it, the flag off *)
Lemma page_program_sign_wrap_overruns_witness :
  (int16 (int16 (256 * 0x80) + 0) >? 256) = false /\
  u16 (int16 (int16 (256 * 0x80) + 0) + 2) = 256 * 0x80 + 0 + 2 /\
  (sizeof_buffer < Z.to_nat (256 * 0x80 + 0 + 2))%nat /\
  loop no_custom
    (session 0 0 (Some 0x64 :: Some 0x80 :: Some 0 ::
                  map Some (repeat 0x46 258) ++ [Some 0x46])) = None.
Proof.
  assert (Hwf : wf (session 0 0 (Some 0x64 :: Some 0x80 :: Some 0 ::
                                 map Some (repeat 0x46 258) ++ [Some 0x46])))
    by (repeat split).
  exact (page_program_sign_wrap_overruns no_custom _ 0x80 0 0x46 (repeat 0x46 258) []
           Hwf ltac:(unfold is_u8; lia) ltac:(unfold is_u8; lia) ltac:(lia) ltac:(lia)
           eq_refl eq_refl).
Defined.
